(** * rhythmic-be: QR code issuance and redemption

    A shallow embedding of the QR code part of the backend:
    - [utils/qrCodeGenerator.ts]  (code generation, batch ids, format check),
    - [models/QRCode.ts]          (the document schema and its indexes),
    - [controllers/qrCodeController.ts] (the request handlers).

    The MongoDB collection is a list of documents in insertion order; a
    handler is a function from the collection to a response and the new
    collection.  Everything the handlers read from outside (the clock,
    [crypto.randomBytes], the ObjectIds given to inserted documents, the regular
    expression engine behind [$regex], the cast of request strings to
    ObjectId) is an explicit argument. *)

From Stdlib Require Import List String Ascii NArith ZArith Bool Arith Lia.
From Stdlib Require Import Strings.Byte DecimalString.
Import ListNotations.

Open Scope string_scope.
Open Scope list_scope.
Open Scope nat_scope.

(** ** Values *)

(** A [Types.ObjectId]; compared through [toString()] in the source, which
    is injective, so equality of the identifiers themselves. *)
Definition ObjectId := N.

(** A JavaScript [Date], as milliseconds since the epoch. *)
Definition Date := N.

(** A thrown [Error] (or rejected promise) against a returned value. *)
Inductive Result (A : Type) : Type :=
| Ok (value : A)
| Throw (message : string).
Arguments Ok {A} value.
Arguments Throw {A} message.

Definition bind {A B : Type} (r : Result A) (k : A -> Result B) : Result B :=
  match r with
  | Ok a => k a
  | Throw e => Throw e
  end.

Notation "'let*' x ':=' r 'in' k" := (bind r (fun x => k))
  (at level 10, x name, r at level 100, k at level 200).

(** ** models/User.ts (the part the QR code handlers read) *)

Inductive UserType := APP_USER | SUPER_ADMIN | MANUFACTURER.

Definition UserType_eqb (a b : UserType) : bool :=
  match a, b with
  | APP_USER, APP_USER | SUPER_ADMIN, SUPER_ADMIN | MANUFACTURER, MANUFACTURER => true
  | _, _ => false
  end.

Module User.
Record t := { _id : ObjectId; email : string; userType : UserType }.
End User.

(** ** models/QRCode.ts *)

Inductive QRCodeStatus := UNREDEEMED | REDEEMED.

Definition QRCodeStatus_eqb (a b : QRCodeStatus) : bool :=
  match a, b with
  | UNREDEEMED, UNREDEEMED | REDEEMED, REDEEMED => true
  | _, _ => false
  end.

(** The string values of the enum, [Object.values(QRCodeStatus)]. *)
Definition statusString (st : QRCodeStatus) : string :=
  match st with
  | UNREDEEMED => "unredeemed"
  | REDEEMED => "redeemed"
  end.

Definition parseStatus (s : string) : option QRCodeStatus :=
  if String.eqb s "unredeemed" then Some UNREDEEMED
  else if String.eqb s "redeemed" then Some REDEEMED
  else None.

(** [metadata?: Record<string, any>]: a JSON object, never interpreted by
    the handlers. *)
Definition Metadata := list (string * string).

(** What a path of type [Schema.Types.Mixed] can hold, and what a request
    body can carry under the key [metadata]: an object, or any other JSON
    value ([null], an array, a string, a number, a boolean), kept as its
    text. *)
Inductive Mixed :=
| MObject (fields : Metadata)
| MOther (jsonText : string).

Definition isObject (v : Mixed) : bool :=
  match v with
  | MObject _ => true
  | MOther _ => false
  end.

(** A document of the collection, with the fields of [IQRCode] and the two
    timestamps of [timestamps: true].  A field the stored document does not
    have is [None]: the defaults of the schema ([status], [isActive]) and
    the timestamps are written by Mongoose when it builds a document, and a
    plain object handed to the driver has only the keys it was given. *)
Record IQRCode := {
  _id : ObjectId;
  code : string;
  status : option QRCodeStatus;
  generatedBy : ObjectId;
  batchId : string;
  quantity : nat;
  batchNumber : nat;
  isActive : option bool;
  redeemedAt : option Date;
  redeemedBy : option ObjectId;
  metadata : Mixed;
  createdAt : option Date;
  updatedAt : option Date
}.

(** The collection, in insertion (natural) order. *)
Definition Store := list IQRCode.

(** [{ status: st }] in a filter: the document has the field, with that
    value. *)
Definition hasStatus (st : QRCodeStatus) (d : IQRCode) : bool :=
  match status d with
  | Some v => QRCodeStatus_eqb v st
  | None => false
  end.

(** The unique indexes: [_id] (always) and [code] ([unique: true]). *)
Definition violatesUnique (d : IQRCode) (s : Store) : bool :=
  existsb (fun r => (_id r =? _id d)%N || String.eqb (code r) (code d)) s.

(** ** Store operations used by the handlers *)

(** [QRCode.findOne(filter)]: the first matching document. *)
Definition findOne (p : IQRCode -> bool) (s : Store) : option IQRCode :=
  List.find p s.

(** [updateOne({_id: id}, {$set: ...})]: the first document with that id;
    [None] when no document matched. *)
Fixpoint updateOneById (id : ObjectId) (f : IQRCode -> IQRCode) (s : Store)
  : option Store :=
  match s with
  | [] => None
  | d :: rest =>
      if (_id d =? id)%N then Some (f d :: rest)
      else option_map (cons d) (updateOneById id f rest)
  end.

(** [findByIdAndDelete(id)] / [deleteOne({_id: id})]. *)
Fixpoint deleteOneById (id : ObjectId) (s : Store) : Store :=
  match s with
  | [] => []
  | d :: rest => if (_id d =? id)%N then rest else d :: deleteOneById id rest
  end.

(** [deleteMany(filter)]: what stays, and how many went. *)
Definition deleteMany (p : IQRCode -> bool) (s : Store) : nat * Store :=
  (List.length (filter p s), filter (fun d => negb (p d)) s).

(** An unordered bulk insert: every document is tried, one that would
    violate a unique index is rejected and the others still go in. *)
Fixpoint insertUnordered (docs : list IQRCode) (s : Store)
  : list IQRCode * Store :=
  match docs with
  | [] => ([], s)
  | d :: ds =>
      if violatesUnique d s then insertUnordered ds s
      else let (inserted, s') := insertUnordered ds (s ++ [d]) in
           (d :: inserted, s')
  end.

(** ** utils/qrCodeGenerator.ts *)

Definition hexDigit (n : N) : ascii :=
  ascii_of_N (if (n <? 10)%N then 48 + n else 87 + n)%N.

(** [Buffer.toString('hex')]: two lowercase digits per byte. *)
Fixpoint toHex (bytes : list byte) : string :=
  match bytes with
  | [] => EmptyString
  | b :: rest =>
      let n := Byte.to_N b in
      String (hexDigit (n / 16)) (String (hexDigit (n mod 16)) (toHex rest))
  end.

(** [Math.ceil(length / 2)]. *)
Definition ceilHalf (n : nat) : nat := Nat.div2 (S n).

(** One call of [crypto.randomBytes(n)], given the byte source of that call. *)
Definition randomBytes (source : nat -> byte) (n : nat) : list byte :=
  map source (seq 0 n).

Definition maxAttempts : nat := 100.
Definition batchSize : nat := 100.

Definition exhaustedMessage : string :=
  "Unable to generate unique QR code after maximum attempts".

(** The [while (attempts < maxAttempts)] loop of [generateUniqueQRCode];
    [remaining] is [maxAttempts - attempts].  [draw k] is the byte source
    of the [randomBytes] call made in attempt [k]. *)
Fixpoint generateLoop (draw : nat -> nat -> byte) (len : nat) (s : Store)
    (remaining attempts : nat) : Result string :=
  match remaining with
  | 0 => Throw exhaustedMessage
  | S remaining' =>
      let bytes := randomBytes (draw attempts) (ceilHalf len) in
      let c := String.substring 0 len (toHex bytes) in
      match findOne (fun d => String.eqb (code d) c) s with
      | None => Ok c
      | Some _ => generateLoop draw len s remaining' (S attempts)
      end
  end.

Definition generateUniqueQRCode (draw : nat -> nat -> byte) (len : nat)
    (s : Store) : Result string :=
  generateLoop draw len s maxAttempts 0.

(** [Promise.all]: all the values, or the first rejection. *)
Fixpoint promiseAll {A : Type} (rs : list (Result A)) : Result (list A) :=
  match rs with
  | [] => Ok []
  | r :: rest =>
      let* a := r in
      let* others := promiseAll rest in
      Ok (a :: others)
  end.

(** The [for (let i = 0; i < count; i += batchSize)] loop of
    [generateMultipleUniqueQRCodes].  [slot k] is the randomness of the
    [k]-th call of [generateUniqueQRCode] in the request; the calls of one
    group run concurrently but only read the store, so each sees [s]. *)
Fixpoint groupLoop (slot : nat -> nat -> nat -> byte) (count len : nat)
    (s : Store) (fuel i : nat) (codes : list string) : Result (list string) :=
  match fuel with
  | 0 => Ok codes
  | S fuel' =>
      if i <? count then
        let currentBatchSize := Nat.min batchSize (count - i) in
        let batchPromises :=
          map (fun k => generateUniqueQRCode (slot (i + k)) len s)
              (seq 0 currentBatchSize) in
        let* batchCodes := promiseAll batchPromises in
        groupLoop slot count len s fuel' (i + batchSize) (codes ++ batchCodes)
      else Ok codes
  end.

(** [count] iterations are always enough: [i] grows by [batchSize] each
    time round (see [groupLoop_fuel]). *)
Definition generateMultipleUniqueQRCodes (slot : nat -> nat -> nat -> byte)
    (count len : nat) (s : Store) : Result (list string) :=
  groupLoop slot count len s count 0 [].

Definition digit36 (n : N) : ascii :=
  ascii_of_N (if (n <? 10)%N then 48 + n else 87 + n)%N.

Fixpoint toString36_aux (fuel : nat) (n : N) (acc : string) : string :=
  match fuel with
  | 0 => acc
  | S fuel' =>
      let acc' := String (digit36 (n mod 36)) acc in
      if (n / 36 =? 0)%N then acc' else toString36_aux fuel' (n / 36) acc'
  end.

(** [Number.prototype.toString(36)] on a non-negative integer. *)
Definition toString36 (n : N) : string :=
  toString36_aux (S (N.to_nat (N.size n))) n EmptyString.

(** [generateBatchId]. *)
Definition generateBatchId (now : Date) (source : nat -> byte) : string :=
  ("batch_" ++ toString36 now ++ "_" ++ toHex (randomBytes source 4))%string.

Definition isDigit (c : ascii) : bool :=
  let n := nat_of_ascii c in (48 <=? n) && (n <=? 57).
Definition isLowerHexLetter (c : ascii) : bool :=
  let n := nat_of_ascii c in (97 <=? n) && (n <=? 102).
Definition isUpperHexLetter (c : ascii) : bool :=
  let n := nat_of_ascii c in (65 <=? n) && (n <=? 70).

Fixpoint allChars (p : ascii -> bool) (s : string) : bool :=
  match s with
  | EmptyString => true
  | String c rest => p c && allChars p rest
  end.

(** The class [[a-f0-9]] under the [i] flag. *)
Definition isHexIgnoreCase (c : ascii) : bool :=
  isDigit c || isLowerHexLetter c || isUpperHexLetter c.

(** [isValidQRCode]: [/^[a-f0-9]{8,20}$/i.test(code)]. *)
Definition isValidQRCode (c : string) : bool :=
  (8 <=? String.length c) && (String.length c <=? 20)
  && allChars isHexIgnoreCase c.

(** The class [[a-f0-9]] without flags. *)
Definition isLowerHex (c : ascii) : bool := isDigit c || isLowerHexLetter c.

(** [^[a-f0-9]{lo,hi}$], the pattern as the specification writes it. *)
Definition matchesLowerHex (lo hi : nat) (c : string) : bool :=
  (lo <=? String.length c) && (String.length c <=? hi)
  && allChars isLowerHex c.

(** ** controllers/qrCodeController.ts *)

(** What a handler reads from [req]: the authenticated user, the outcome of
    the express-validator chain of the route ([validationResult(req)]), and
    the body, query or params. *)
Record Request (A : Type) := {
  user : User.t;
  validationErrors : list string;
  input : A
}.
Arguments user {A} r.
Arguments validationErrors {A} r.
Arguments input {A} r.

(** [{ id, code, batchId }] of the delete responses. *)
Record Summary := { sum_id : ObjectId; sum_code : string; sum_batchId : string }.

Definition summary (d : IQRCode) : Summary :=
  {| sum_id := _id d; sum_code := code d; sum_batchId := batchId d |}.

(** The JSON bodies the handlers send. *)
Inductive Json :=
| JErrors (errors : list string)
| JMessage (message : string)
| JServerError (error : string)
| JGenerated (message batch : string) (count : nat) (codes : list string)
             (generatedAt : Date) (generatedByEmail : string)
| JList (qrCodes : list IQRCode) (currentPage : Z) (totalPages : option Z)
        (totalQRCodes : nat) (qrCodesPerPage : Z)
| JDeleted (message : string) (deletedQRCode : Summary)
| JBulkDeleted (message : string) (deletedCount : nat)
               (deletedQRCodes : list Summary)
| JRedeemed (message : string) (id : ObjectId) (redeemedCode batch : string)
            (redeemedOn : option Date).

Record Response := { statusCode : nat; json : Json }.

Definition respond (st : nat) (j : Json) : Response :=
  {| statusCode := st; json := j |}.

(** The [catch (error)] of every handler. *)
Definition serverError (e : string) : Response := respond 500 (JServerError e).

(** The error classes of the specification, by status code. *)
Definition isValidationError (r : Response) : bool := statusCode r =? 400.
Definition isAuthorizationError (r : Response) : bool := statusCode r =? 403.
Definition isNotFoundError (r : Response) : bool := statusCode r =? 404.
Definition isStoreError (r : Response) : bool := statusCode r =? 500.
Definition isSuccess (r : Response) : bool :=
  (statusCode r =? 200) || (statusCode r =? 201).

Definition natString (n : nat) : string :=
  DecimalString.NilZero.string_of_uint (Nat.to_uint n).

Definition isManufacturer (u : User.t) : bool :=
  UserType_eqb (User.userType u) MANUFACTURER.

(** JavaScript truthiness of an optional string. *)
Definition truthy (o : option string) : bool :=
  match o with
  | Some (String _ _) => true
  | _ => false
  end.

Fixpoint mapi_from {A B : Type} (f : A -> nat -> B) (index : nat) (l : list A)
  : list B :=
  match l with
  | [] => []
  | a :: rest => f a index :: mapi_from f (S index) rest
  end.

(** [Array.prototype.map((x, index) => ...)]. *)
Definition mapi {A B : Type} (f : A -> nat -> B) (l : list A) : list B :=
  mapi_from f 0 l.

(** A destructuring default, [const { length = 12 } = req.body]. *)
Definition withDefault {A : Type} (dflt : A) (o : option A) : A :=
  match o with
  | Some a => a
  | None => dflt
  end.

(** *** generateBulkQRCodes *)

Module GenerateBody.
Record t := {
  quantity : nat;
  length : option nat;
  metadata : option Mixed
}.
End GenerateBody.

(** The outside world of one generation request.  [clock 0] is the
    [Date.now()] of [generateBatchId] and [clock 2] the [new Date()] of the
    response; the instant of the insert between them, [clock 1], is not
    read, the insert being one that writes no timestamps.
    [codeBytes k a] is the byte source of the [randomBytes] call made by the
    [k]-th [generateUniqueQRCode] of the request in its attempt [a].
    [newObjectId i] is the [_id] the [i]-th inserted document gets. *)
Record Env := {
  clock : nat -> Date;
  batchIdBytes : nat -> byte;
  codeBytes : nat -> nat -> nat -> byte;
  newObjectId : nat -> ObjectId
}.

Definition duplicateKeyMessage : string := "E11000 duplicate key error".

Section Generation.

(** [insertMany] with [ordered: false] stores every document it can.
    Whether the call then resolves with the stored documents or rejects
    with the driver's bulk write error is the library's business and not
    visible in this repository; the handlers are modelled for both.
    (Mongoose rejects: [true] is the setting of a deployed server.) *)
Variable bulkWriteErrorRejects : bool.

(** [QRCode.insertMany(docs, { ordered: false, lean: true })].  With
    [lean: true] the plain objects go to the driver as they are: no
    document is built from them, so nothing is validated or cast and no
    default or timestamp is added.  The insert is unordered. *)
Definition insertMany (docs : list IQRCode) (s : Store)
  : Result (list IQRCode) * Store :=
  let (inserted, s') := insertUnordered docs s in
  if bulkWriteErrorRejects && (List.length inserted <? List.length docs)
  then (Throw duplicateKeyMessage, s')
  else (Ok inserted, s').

Definition generateBulkQRCodes (env : Env) (req : Request GenerateBody.t)
    (s : Store) : Response * Store :=
  match validationErrors req with
  | _ :: _ => (respond 400 (JErrors (validationErrors req)), s)
  | [] =>
      let quantity_ := GenerateBody.quantity (input req) in
      let length_ := withDefault 12 (GenerateBody.length (input req)) in
      let metadata_ :=
        withDefault (MObject []) (GenerateBody.metadata (input req)) in
      let generatedBy_ := User._id (user req) in
      if (10000 <? N.of_nat quantity_)%N then
        (respond 400
           (JMessage "Cannot generate more than 10,000 QR codes at once"), s)
      else
        let batchId_ := generateBatchId (clock env 0) (batchIdBytes env) in
        match generateMultipleUniqueQRCodes (codeBytes env) quantity_ length_ s
        with
        | Throw e => (serverError e, s)
        | Ok codes =>
            let qrCodeDocs :=
              mapi (fun c index =>
                      {| _id := newObjectId env index;
                         code := c;
                         status := None;
                         generatedBy := generatedBy_;
                         batchId := batchId_;
                         quantity := quantity_;
                         batchNumber := index + 1;
                         isActive := None;
                         redeemedAt := None;
                         redeemedBy := None;
                         metadata := metadata_;
                         createdAt := None;
                         updatedAt := None |}) codes in
            match insertMany qrCodeDocs s with
            | (Throw e, s') => (serverError e, s')
            | (Ok result, s') =>
                (respond 201
                   (JGenerated
                      (natString (List.length result)
                         ++ " QR codes generated successfully")%string
                      batchId_
                      (List.length result)
                      (map code result)
                      (clock env 2)
                      (User.email (user req))), s')
            end
        end
  end.

End Generation.

(** *** redeemQRCode *)

Module RedeemBody.
Record t := { code : option string }.
End RedeemBody.

(** The assignments of lines 319-321 followed by [save()], which sends the
    modified paths and, the schema having [timestamps: true], [updatedAt]. *)
Definition markRedeemed (at_ : Date) (by_ : ObjectId) (savedAt : Date)
    (d : IQRCode) : IQRCode :=
  {| _id := _id d;
     code := code d;
     status := Some REDEEMED;
     generatedBy := generatedBy d;
     batchId := batchId d;
     quantity := quantity d;
     batchNumber := batchNumber d;
     isActive := isActive d;
     redeemedAt := Some at_;
     redeemedBy := Some by_;
     metadata := metadata d;
     createdAt := createdAt d;
     updatedAt := Some savedAt |}.

Definition documentNotFoundMessage : string :=
  "No document found for query".

(** [qrCode.save()]: an update of the document with the id of [qrCode]. *)
Definition save (at_ : Date) (by_ : ObjectId) (savedAt : Date)
    (qrCode : IQRCode) (s : Store) : Result Store :=
  match updateOneById (_id qrCode) (markRedeemed at_ by_ savedAt) s with
  | Some s' => Ok s'
  | None => Throw documentNotFoundMessage
  end.

(** The filter [{ code, status: QRCodeStatus.UNREDEEMED }]. *)
Definition unredeemedWithCode (c : string) (d : IQRCode) : bool :=
  String.eqb (code d) c && hasStatus UNREDEEMED d.

(** [clock 0] is the [new Date()] of line 320, [clock 1] the timestamp of
    the save. *)
Definition redeemQRCode (clock : nat -> Date) (req : Request RedeemBody.t)
    (s : Store) : Response * Store :=
  match RedeemBody.code (input req) with
  | None | Some EmptyString =>
      (respond 400 (JMessage "Invalid QR code format."), s)
  | Some c =>
      if negb (isValidQRCode c) then
        (respond 400 (JMessage "Invalid QR code format."), s)
      else
        match findOne (unredeemedWithCode c) s with
        | None =>
            (respond 404 (JMessage "QR code not found or already redeemed."), s)
        | Some qrCode =>
            match save (clock 0) (User._id (user req)) (clock 1) qrCode s with
            | Throw e => (serverError e, s)
            | Ok s' =>
                (respond 200
                   (JRedeemed "QR code redeemed successfully"
                      (_id qrCode) (code qrCode) (batchId qrCode)
                      (Some (clock 0))), s')
            end
        end
  end.

(** The same handler cut at its two [await]s, for runs in which several
    requests are in flight: a task is a request not yet looked up, a request
    holding the document [findOne] gave it, or a request answered.  One step
    runs a task up to and including its next store operation. *)
Inductive RedeemTask :=
| Received (clock : nat -> Date) (req : Request RedeemBody.t)
| Found (clock : nat -> Date) (req : Request RedeemBody.t) (qrCode : IQRCode)
| Responded (res : Response).

Definition redeemStep (t : RedeemTask) (s : Store) : RedeemTask * Store :=
  match t with
  | Received clock req =>
      match RedeemBody.code (input req) with
      | None | Some EmptyString =>
          (Responded (respond 400 (JMessage "Invalid QR code format.")), s)
      | Some c =>
          if negb (isValidQRCode c) then
            (Responded (respond 400 (JMessage "Invalid QR code format.")), s)
          else
            match findOne (unredeemedWithCode c) s with
            | None =>
                (Responded
                   (respond 404
                      (JMessage "QR code not found or already redeemed.")), s)
            | Some qrCode => (Found clock req qrCode, s)
            end
      end
  | Found clock req qrCode =>
      match save (clock 0) (User._id (user req)) (clock 1) qrCode s with
      | Throw e => (Responded (serverError e), s)
      | Ok s' =>
          (Responded
             (respond 200
                (JRedeemed "QR code redeemed successfully"
                   (_id qrCode) (code qrCode) (batchId qrCode)
                   (Some (clock 0)))), s')
      end
  | Responded res => (Responded res, s)
  end.

Fixpoint updateNth {A : Type} (n : nat) (x : A) (l : list A) : list A :=
  match l, n with
  | [], _ => []
  | _ :: rest, 0 => x :: rest
  | a :: rest, S n' => a :: updateNth n' x rest
  end.

(** The Node event loop picks which request resumes next: a schedule is the
    list of the picks. *)
Fixpoint runSchedule (schedule : list nat) (tasks : list RedeemTask)
    (s : Store) : list RedeemTask * Store :=
  match schedule with
  | [] => (tasks, s)
  | i :: rest =>
      match nth_error tasks i with
      | None => runSchedule rest tasks s
      | Some t =>
          let (t', s') := redeemStep t s in
          runSchedule rest (updateNth i t' tasks) s'
      end
  end.

Definition succeeded (t : RedeemTask) : bool :=
  match t with
  | Responded res => statusCode res =? 200
  | _ => false
  end.

Definition answeredNotFound (t : RedeemTask) : bool :=
  match t with
  | Responded res => isNotFoundError res
  | _ => false
  end.

Definition allResponded (tasks : list RedeemTask) : bool :=
  forallb (fun t => match t with Responded _ => true | _ => false end) tasks.

(** *** Queries: getQRCodes, deleteQRCode, bulkDeleteQRCodes *)

(** An id in a filter, before Mongoose casts it: a string from the request
    or an ObjectId taken from [req.user]. *)
Inductive IdRef :=
| RawId (s : string)
| Oid (o : ObjectId).

(** The [query: any] objects the handlers build; an absent key is [None]. *)
Record Query := {
  q_idIn : option (list string);        (* _id: { $in: qrCodeIds } *)
  q_status : option QRCodeStatus;
  q_batchId : option string;
  q_generatedBy : option IdRef;
  q_search : option string              (* $or of two $regex, $options 'i' *)
}.

Definition emptyQuery : Query :=
  {| q_idIn := None; q_status := None; q_batchId := None;
     q_generatedBy := None; q_search := None |}.

Definition setStatus (st : QRCodeStatus) (q : Query) : Query :=
  {| q_idIn := q_idIn q; q_status := Some st; q_batchId := q_batchId q;
     q_generatedBy := q_generatedBy q; q_search := q_search q |}.
Definition setBatchId (b : string) (q : Query) : Query :=
  {| q_idIn := q_idIn q; q_status := q_status q; q_batchId := Some b;
     q_generatedBy := q_generatedBy q; q_search := q_search q |}.
Definition setGeneratedBy (g : IdRef) (q : Query) : Query :=
  {| q_idIn := q_idIn q; q_status := q_status q; q_batchId := q_batchId q;
     q_generatedBy := Some g; q_search := q_search q |}.
Definition setSearch (r : string) (q : Query) : Query :=
  {| q_idIn := q_idIn q; q_status := q_status q; q_batchId := q_batchId q;
     q_generatedBy := q_generatedBy q; q_search := Some r |}.
Definition setIdIn (ids : list string) (q : Query) : Query :=
  {| q_idIn := Some ids; q_status := q_status q; q_batchId := q_batchId q;
     q_generatedBy := q_generatedBy q; q_search := q_search q |}.

Definition castErrorMessage : string := "Cast to ObjectId failed".
Definition regexErrorMessage : string := "Regular expression is invalid".
Definition skipErrorMessage : string := "Skip value must be non-negative".

Module ListQuery.
Record t := {
  page : option Z;
  limit : option Z;
  status : option string;
  batchId : option string;
  search : option string;
  generatedBy : option string
}.
End ListQuery.

Module BulkDeleteBody.
Record t := {
  qrCodeIds : option (list string);
  batchId : option string
}.
End BulkDeleteBody.

(** The order of a sort key: a missing field comes before every date. *)
Definition dateLeb (a b : option Date) : bool :=
  match a, b with
  | None, _ => true
  | Some _, None => false
  | Some x, Some y => (x <=? y)%N
  end.

Fixpoint insertByCreatedAtDesc (d : IQRCode) (l : list IQRCode) : list IQRCode :=
  match l with
  | [] => [d]
  | x :: rest =>
      if dateLeb (createdAt x) (createdAt d) then d :: l
      else x :: insertByCreatedAtDesc d rest
  end.

(** [.sort({ createdAt: -1 })]; documents with equal keys keep their
    natural order. *)
Definition sortByCreatedAtDesc (l : list IQRCode) : list IQRCode :=
  fold_right insertByCreatedAtDesc [] l.

(** [.skip(skip).limit(limit)]: a negative skip is an error, a limit of 0 is
    no limit and a negative limit counts as its absolute value. *)
Definition skipLimit (skip limit : Z) (l : list IQRCode) : Result (list IQRCode) :=
  if (skip <? 0)%Z then Throw skipErrorMessage
  else
    let rest := skipn (Z.to_nat skip) l in
    Ok (if (limit =? 0)%Z then rest else firstn (Z.to_nat (Z.abs limit)) rest).

(** [Math.ceil(total / limit)] as JSON shows it: [null] when the quotient is
    not finite. *)
Definition totalPagesOf (total : nat) (limit : Z) : option Z :=
  if (limit =? 0)%Z then None
  else Some (- ((- Z.of_nat total) / limit))%Z.

Section Queries.

(** Mongoose's cast of a request string to ObjectId ([None]: CastError). *)
Variable castObjectId : string -> option ObjectId.

(** The regular expression engine behind [$regex] with [$options: 'i']:
    the matcher of a pattern, or [None] for a pattern that does not
    compile. *)
Variable regexCompile : string -> option (string -> bool).

Fixpoint castAll (ids : list string) : Result (list ObjectId) :=
  match ids with
  | [] => Ok []
  | x :: rest =>
      match castObjectId x with
      | None => Throw castErrorMessage
      | Some o => let* os := castAll rest in Ok (o :: os)
      end
  end.

Definition castRef (r : IdRef) : Result ObjectId :=
  match r with
  | Oid o => Ok o
  | RawId x =>
      match castObjectId x with
      | None => Throw castErrorMessage
      | Some o => Ok o
      end
  end.

Definition optResult {A B : Type} (f : A -> Result B) (o : option A)
  : Result (option B) :=
  match o with
  | None => Ok None
  | Some a => let* b := f a in Ok (Some b)
  end.

Definition holds {A : Type} (o : option A) (p : A -> bool) : bool :=
  match o with
  | None => true
  | Some a => p a
  end.

(** The filter a query stands for: every key present must hold. *)
Definition compileQuery (q : Query) : Result (IQRCode -> bool) :=
  let* ids := optResult castAll (q_idIn q) in
  let* owner := optResult castRef (q_generatedBy q) in
  let* rx := optResult (fun r => match regexCompile r with
                                 | None => Throw regexErrorMessage
                                 | Some m => Ok m
                                 end) (q_search q) in
  Ok (fun d =>
        holds ids (fun l => existsb (N.eqb (_id d)) l)
        && holds (q_status q) (fun st => hasStatus st d)
        && holds (q_batchId q) (String.eqb (batchId d))
        && holds owner (N.eqb (generatedBy d))
        && holds rx (fun m => m (code d) || m (batchId d))).

(** [QRCode.find(query)]. *)
Definition find (q : Query) (s : Store) : Result (list IQRCode) :=
  let* p := compileQuery q in Ok (filter p s).

(** [QRCode.countDocuments(query)]. *)
Definition countDocuments (q : Query) (s : Store) : Result nat :=
  let* p := compileQuery q in Ok (List.length (filter p s)).

Definition when {A : Type} (b : bool) (f : A -> A) (a : A) : A :=
  if b then f a else a.

(** [getQRCodes].  [populate] only decorates the documents sent back and
    is left out: the response carries the stored documents. *)
Definition getQRCodes (req : Request ListQuery.t) (s : Store)
  : Response * Store :=
  let page := withDefault 1%Z (ListQuery.page (input req)) in
  let limit := withDefault 50%Z (ListQuery.limit (input req)) in
  let query := emptyQuery in
  let query :=
    match ListQuery.status (input req) with
    | Some st => match parseStatus st with
                 | Some v => setStatus v query
                 | None => query
                 end
    | None => query
    end in
  let query :=
    match ListQuery.batchId (input req) with
    | Some ((String _ _) as b) => setBatchId b query
    | _ => query
    end in
  let query :=
    match ListQuery.generatedBy (input req) with
    | Some ((String _ _) as g) => setGeneratedBy (RawId g) query
    | _ => query
    end in
  let query :=
    match ListQuery.search (input req) with
    | Some ((String _ _) as r) => setSearch r query
    | _ => query
    end in
  let query :=
    when (isManufacturer (user req))
         (setGeneratedBy (Oid (User._id (user req)))) query in
  let skip := ((page - 1) * limit)%Z in
  let outcome :=
    let* found := find query s in
    let* qrCodes := skipLimit skip limit (sortByCreatedAtDesc found) in
    let* total := countDocuments query s in
    Ok (respond 200
          (JList qrCodes page (totalPagesOf total limit) total limit)) in
  match outcome with
  | Ok res => (res, s)
  | Throw e => (serverError e, s)
  end.

(** [deleteQRCode], on [req.params.id]. *)
Definition deleteQRCode (req : Request string) (s : Store)
  : Response * Store :=
  match castObjectId (input req) with
  | None => (serverError castErrorMessage, s)
  | Some id =>
      match findOne (fun d => (_id d =? id)%N) s with
      | None => (respond 404 (JMessage "QR code not found."), s)
      | Some qrCode =>
          if isManufacturer (user req)
             && negb (generatedBy qrCode =? User._id (user req))%N
          then (respond 403 (JMessage "Access denied."), s)
          else
            (respond 200
               (JDeleted "QR code deleted successfully" (summary qrCode)),
             deleteOneById id s)
      end
  end.

(** [QRCode.deleteMany(query)]: the number deleted and what stays. *)
Definition deleteManyBy (q : Query) (s : Store) : Result (nat * Store) :=
  let* p := compileQuery q in Ok (deleteMany p s).

(** [bulkDeleteQRCodes]. *)
Definition bulkDeleteQRCodes (req : Request BulkDeleteBody.t) (s : Store)
  : Response * Store :=
  match validationErrors req with
  | _ :: _ => (respond 400 (JErrors (validationErrors req)), s)
  | [] =>
      let qrCodeIds := BulkDeleteBody.qrCodeIds (input req) in
      let batchId_ := BulkDeleteBody.batchId (input req) in
      if match qrCodeIds with None => true | Some _ => false end
         && negb (truthy batchId_)
      then
        (respond 400
           (JMessage "Either qrCodeIds or batchId must be provided."), s)
      else
        let chosen : option Query :=
          match batchId_ with
          | Some ((String _ _) as b) => Some (setBatchId b emptyQuery)
          | _ =>
              match qrCodeIds with
              | Some ((_ :: _) as ids) => Some (setIdIn ids emptyQuery)
              | _ => None
              end
          end in
        match chosen with
        | None => (respond 400 (JMessage "Invalid qrCodeIds or batchId."), s)
        | Some query =>
            let query :=
              when (isManufacturer (user req))
                   (setGeneratedBy (Oid (User._id (user req)))) query in
            match find query s with
            | Throw e => (serverError e, s)
            | Ok [] =>
                (respond 404 (JMessage "No QR codes found to delete."), s)
            | Ok qrCodes =>
                match deleteManyBy query s with
                | Throw e => (serverError e, s)
                | Ok (deletedCount, s') =>
                    (respond 200
                       (JBulkDeleted
                          (natString deletedCount
                             ++ " QR code(s) deleted successfully")%string
                          deletedCount
                          (map summary qrCodes)), s')
                end
            end
        end
  end.

End Queries.

(** ** Auxiliary definitions for the statements *)

(** ASCII lower-casing, as the [i] flag folds case. *)
Definition toLowerAscii (c : ascii) : ascii :=
  let n := nat_of_ascii c in
  if (65 <=? n) && (n <=? 90) then ascii_of_nat (n + 32) else c.

Fixpoint toLowerCase (s : string) : string :=
  match s with
  | EmptyString => EmptyString
  | String c rest => String (toLowerAscii c) (toLowerCase rest)
  end.

(** A redemption request whose body carries the string [c]. *)
Definition redeemRequest (u : User.t) (errs : list string) (c : string)
  : Request RedeemBody.t :=
  {| user := u; validationErrors := errs;
     input := {| RedeemBody.code := Some c |} |}.


(** Sample users for the worked examples. *)
Definition alice : User.t :=
  {| User._id := 101%N; User.email := "alice@example.com";
     User.userType := APP_USER |}.
Definition bob : User.t :=
  {| User._id := 102%N; User.email := "bob@example.com";
     User.userType := APP_USER |}.
Definition maker : User.t :=
  {| User._id := 201%N; User.email := "maker@example.com";
     User.userType := MANUFACTURER |}.
Definition rival : User.t :=
  {| User._id := 202%N; User.email := "rival@example.com";
     User.userType := MANUFACTURER |}.
Definition admin : User.t :=
  {| User._id := 301%N; User.email := "admin@example.com";
     User.userType := SUPER_ADMIN |}.

(** An unredeemed code, the only document of [oneCodeStore]; [dormantCode]
    is the same document switched off. *)
Definition freshCode : IQRCode :=
  {| _id := 1%N; code := "deadbeef12"; status := Some UNREDEEMED;
     generatedBy := 201%N; batchId := "batch_lx2k9_0a1b2c3d";
     quantity := 1; batchNumber := 1; isActive := Some true;
     redeemedAt := None; redeemedBy := None; metadata := MObject [];
     createdAt := Some 1000%N; updatedAt := Some 1000%N |}.

Definition dormantCode : IQRCode :=
  {| _id := 1%N; code := "deadbeef12"; status := Some UNREDEEMED;
     generatedBy := 201%N; batchId := "batch_lx2k9_0a1b2c3d";
     quantity := 1; batchNumber := 1; isActive := Some false;
     redeemedAt := None; redeemedBy := None; metadata := MObject [];
     createdAt := Some 1000%N; updatedAt := Some 1000%N |}.

Definition oneCodeStore : Store := [freshCode].

(** Clocks of two requests in flight together. *)
Definition clockA (k : nat) : Date := (5000 + N.of_nat k)%N.
Definition clockB (k : nat) : Date := (5002 + N.of_nat k)%N.

(** [l1] keeps some of the elements of [l2], in their order. *)
Inductive subseq {A : Type} : list A -> list A -> Prop :=
| subseq_nil : subseq [] []
| subseq_skip (x : A) (l1 l2 : list A) : subseq l1 l2 -> subseq l1 (x :: l2)
| subseq_take (x : A) (l1 l2 : list A) : subseq l1 l2 -> subseq (x :: l1) (x :: l2).

(** The documents of a batch, in store order, and their batch numbers. *)
Definition batchOf (b : string) (s : Store) : list IQRCode :=
  filter (fun d => String.eqb (batchId d) b) s.

Definition batchNumbersOf (b : string) (s : Store) : list nat :=
  map batchNumber (batchOf b s).

(** A generation request whose [metadata], when present, is an object. *)
Definition generateRequest (u : User.t) (errs : list string) (q : nat)
    (len : option nat) (m : option Metadata) : Request GenerateBody.t :=
  {| user := u; validationErrors := errs;
     input := {| GenerateBody.quantity := q; GenerateBody.length := len;
                 GenerateBody.metadata := option_map MObject m |} |}.

(** The batch id a request made in [env] gets. *)
Definition batchIdOf (env : Env) : string :=
  generateBatchId (clock env 0) (batchIdBytes env).

(** The document the handler builds for the code at [index], as it is
    stored: the six keys of the object literal and the [_id]. *)
Definition newDocument (env : Env) (u : User.t) (q : nat) (m : Metadata)
    (c : string) (index : nat) : IQRCode :=
  {| _id := newObjectId env index;
     code := c;
     status := None;
     generatedBy := User._id u;
     batchId := batchIdOf env;
     quantity := q;
     batchNumber := index + 1;
     isActive := None;
     redeemedAt := None;
     redeemedBy := None;
     metadata := MObject m;
     createdAt := None;
     updatedAt := None |}.

Definition byteOf (n : nat) : byte :=
  match Byte.of_N (N.of_nat n mod 256) with
  | Some b => b
  | None => x00
  end.

(** Every call draws bytes that depend on the slot only: distinct slots get
    distinct codes. *)
Definition plainEnv : Env :=
  {| clock := fun k => (1700000000000 + N.of_nat k)%N;
     batchIdBytes := fun i => byteOf (17 * i + 3);
     codeBytes := fun k _ _ => byteOf k;
     newObjectId := fun i => (500 + N.of_nat i)%N |}.

(** The first two slots draw the same bytes. *)
Definition twinEnv : Env :=
  {| clock := fun k => (1700000000000 + N.of_nat k)%N;
     batchIdBytes := fun i => byteOf (17 * i + 3);
     codeBytes := fun k _ _ => byteOf (k - 1);
     newObjectId := fun i => (500 + N.of_nat i)%N |}.

(** A store that already holds the code made of zero bytes, which is all
    that slot 0 ever draws in [plainEnv]. *)
Definition zeroCode : IQRCode :=
  {| _id := 7%N; code := "00000000"; status := Some UNREDEEMED;
     generatedBy := 201%N; batchId := "batch_lx2k9_0a1b2c3d";
     quantity := 1; batchNumber := 1; isActive := Some true;
     redeemedAt := None; redeemedBy := None; metadata := MObject [];
     createdAt := Some 1000%N; updatedAt := Some 1000%N |}.

(** What [generateUniqueQRCode] promises of a code it returns for a store. *)
Definition generatedFor (len : nat) (s : Store) (c : string) : Prop :=
  matchesLowerHex len len c = true
  /\ findOne (fun d => String.eqb (code d) c) s = None.

(** The documents a request leaves in the store under its batch id, and
    their batch numbers. *)
Definition persistedBatch (rejects : bool) (env : Env)
    (req : Request GenerateBody.t) (s : Store) : list IQRCode :=
  batchOf (batchIdOf env) (snd (generateBulkQRCodes rejects env req s)).

Definition persistedNumbers (rejects : bool) (env : Env)
    (req : Request GenerateBody.t) (s : Store) : list nat :=
  batchNumbersOf (batchIdOf env) (snd (generateBulkQRCodes rejects env req s)).

(** The documents a list response carries. *)
Definition listed (r : Response) : list IQRCode :=
  match json r with
  | JList qrCodes _ _ _ _ => qrCodes
  | _ => []
  end.

(** AccessScope: a manufacturer reaches the documents it generated, any
    other portal user reaches them all. *)
Definition visible (u : User.t) (d : IQRCode) : bool :=
  if isManufacturer u then (generatedBy d =? User._id u)%N else true.

(** A document generated by somebody else than [u]. *)
Definition foreignTo (u : User.t) (d : IQRCode) : bool :=
  negb (generatedBy d =? User._id u)%N.

Definition bulkDeleteRequest (u : User.t) (errs : list string)
    (ids : option (list string)) (b : option string)
  : Request BulkDeleteBody.t :=
  {| user := u; validationErrors := errs;
     input := {| BulkDeleteBody.qrCodeIds := ids;
                 BulkDeleteBody.batchId := b |} |}.

(** A cast for the worked examples: 24 hexadecimal digits, read as a
    number. *)
Definition hexValue (c : ascii) : option N :=
  let n := N_of_ascii c in
  if isDigit c then Some (n - 48)%N
  else if isLowerHexLetter c then Some (n - 87)%N
  else if isUpperHexLetter c then Some (n - 55)%N
  else None.

Fixpoint hexNumber (acc : N) (s : string) : option N :=
  match s with
  | EmptyString => Some acc
  | String c rest =>
      match hexValue c with
      | Some v => hexNumber (16 * acc + v)%N rest
      | None => None
      end
  end.

Definition sampleCast (s : string) : option ObjectId :=
  if String.length s =? 24 then hexNumber 0%N s else None.

(** A regular expression engine for the worked examples: every pattern is
    a literal, found anywhere in the subject, letter case ignored. *)
Definition literalRegex (pattern : string) : option (string -> bool) :=
  Some (fun subject =>
          match String.index 0 (toLowerCase pattern) (toLowerCase subject) with
          | Some _ => true
          | None => false
          end).

(** Three documents: two of [maker]'s in one batch, one of [rival]'s in
    another. *)
Definition makerFirst : IQRCode :=
  {| _id := 1%N; code := "aaaaaaaa01"; status := Some UNREDEEMED;
     generatedBy := 201%N; batchId := "batch_m";
     quantity := 2; batchNumber := 1; isActive := Some true;
     redeemedAt := None; redeemedBy := None; metadata := MObject [];
     createdAt := Some 1000%N; updatedAt := Some 1000%N |}.
Definition makerSecond : IQRCode :=
  {| _id := 2%N; code := "aaaaaaaa02"; status := Some UNREDEEMED;
     generatedBy := 201%N; batchId := "batch_m";
     quantity := 2; batchNumber := 2; isActive := Some true;
     redeemedAt := None; redeemedBy := None; metadata := MObject [];
     createdAt := Some 1000%N; updatedAt := Some 1000%N |}.
Definition rivalOnly : IQRCode :=
  {| _id := 3%N; code := "bbbbbbbb01"; status := Some UNREDEEMED;
     generatedBy := 202%N; batchId := "batch_r";
     quantity := 1; batchNumber := 1; isActive := Some true;
     redeemedAt := None; redeemedBy := None; metadata := MObject [];
     createdAt := Some 2000%N; updatedAt := Some 2000%N |}.

Definition sharedStore : Store := [makerFirst; makerSecond; rivalOnly].

(** [maker] asks for the documents of [rival]. *)
Definition pryingQuery : ListQuery.t :=
  {| ListQuery.page := None; ListQuery.limit := None;
     ListQuery.status := None; ListQuery.batchId := None;
     ListQuery.search := None;
     ListQuery.generatedBy := Some "0000000000000000000000ca" |}.


(** * The router, its guards and the statistics handler *)

(** ** middlewares/auth.ts *)

(** [authorize(...allowedUserTypes)], run after [authenticate] has put the
    user, if any, on the request: the refusal it sends, or the user it lets
    through to the next handler. *)
Definition authorize (allowedUserTypes : list UserType) (u : option User.t)
  : Response + User.t :=
  match u with
  | None => inl (respond 401 (JMessage "User not authenticated."))
  | Some user_ =>
      if existsb (UserType_eqb (User.userType user_)) allowedUserTypes
      then inr user_
      else inl (respond 403
                  (JMessage "Access denied. Insufficient permissions."))
  end.

Definition requireAppUser := authorize [APP_USER].
Definition requireSuperAdmin := authorize [SUPER_ADMIN].
Definition requireManufacturer := authorize [MANUFACTURER].
Definition requirePortalUser := authorize [SUPER_ADMIN; MANUFACTURER].
Definition requireAnyUser := authorize [APP_USER; SUPER_ADMIN; MANUFACTURER].

(** ** middlewares/validation.ts *)

(** [validateQRCodeGeneration] on a body whose [quantity] and [length] are
    non-negative JSON integers: the messages of the checks that fail, in
    the order of the chain.  [isObject] refuses [null], arrays and every
    value that is not an object. *)
Definition validateQRCodeGeneration (b : GenerateBody.t) : list string :=
  (if (1 <=? N.of_nat (GenerateBody.quantity b))%N
      && (N.of_nat (GenerateBody.quantity b) <=? 10000)%N
   then [] else ["Quantity must be between 1 and 10,000"])
  ++ match GenerateBody.length b with
     | None => []
     | Some l =>
         if (8 <=? l) && (l <=? 20) then []
         else ["Length must be between 8 and 20 characters"]
     end
  ++ match GenerateBody.metadata b with
     | None => []
     | Some v =>
         if isObject v then [] else ["Metadata must be an object"]
     end.

(** ** routes/qrCodes.ts *)

(** A route: the role guard, then the handler on the request as the
    validation chain of the route left it ([errs], [x]). *)
Definition guarded {A : Type} (gate : option User.t -> Response + User.t)
    (handler : Request A -> Store -> Response * Store)
    (u : option User.t) (errs : list string) (x : A) (s : Store)
  : Response * Store :=
  match gate u with
  | inl refusal => (refusal, s)
  | inr user_ =>
      handler {| user := user_; validationErrors := errs; input := x |} s
  end.

(** [router.post('/generate', requirePortalUser, validateQRCodeGeneration,
    generateBulkQRCodes)]. *)
Definition postGenerate (rejects : bool) (env : Env) (u : option User.t)
    (b : GenerateBody.t) (s : Store) : Response * Store :=
  guarded requirePortalUser (generateBulkQRCodes rejects env) u
          (validateQRCodeGeneration b) b s.

(** [router.get('/', requirePortalUser, getQRCodes)]. *)
Definition getList (castObjectId : string -> option ObjectId)
    (regexCompile : string -> option (string -> bool))
    (u : option User.t) (q : ListQuery.t) (s : Store) : Response * Store :=
  guarded requirePortalUser (getQRCodes castObjectId regexCompile) u [] q s.

(** [router.delete('/:id', requirePortalUser, deleteQRCode)]. *)
Definition deleteById (castObjectId : string -> option ObjectId)
    (u : option User.t) (id : string) (s : Store) : Response * Store :=
  guarded requirePortalUser (deleteQRCode castObjectId) u [] id s.

(** [router.delete('/', requirePortalUser, validateBulkQRCodeDeletion,
    bulkDeleteQRCodes)]. *)
Definition deleteBulk (castObjectId : string -> option ObjectId)
    (regexCompile : string -> option (string -> bool))
    (u : option User.t) (errs : list string) (b : BulkDeleteBody.t) (s : Store)
  : Response * Store :=
  guarded requirePortalUser (bulkDeleteQRCodes castObjectId regexCompile) u
          errs b s.

(** [router.post('/redeem', requireAnyUser, validateQRCodeRedemption,
    redeemQRCode)]. *)
Definition postRedeem (clock : nat -> Date) (u : option User.t)
    (errs : list string) (b : RedeemBody.t) (s : Store) : Response * Store :=
  guarded requireAnyUser (redeemQRCode clock) u errs b s.

(** ** getQRCodeStats *)

(** One group of [{ $group: { _id: '$status', count: { $sum: 1 } } }]; the
    documents without a [status] make the group whose [_id] is [null]. *)
Record StatusCount := { sc_status : option QRCodeStatus; sc_count : nat }.

Definition sameStatus (a b : option QRCodeStatus) : bool :=
  match a, b with
  | Some x, Some y => QRCodeStatus_eqb x y
  | None, None => true
  | _, _ => false
  end.

(** One group of the batch pipeline: [_id], [count], and the [$first]
    [quantity] and [createdAt] of the group ([null] when the first document
    has no [createdAt]). *)
Record BatchStat := {
  bs_batchId : string;
  bs_count : nat;
  bs_quantity : nat;
  bs_createdAt : option Date
}.

Record Stats := {
  st_totalQRCodes : nat;
  st_unredeemedCount : nat;
  st_redeemedCount : nat;
  st_byStatus : list StatusCount;
  st_recentBatches : list BatchStat
}.

Fixpoint countStatus (d : IQRCode) (groups : list StatusCount)
  : list StatusCount :=
  match groups with
  | [] => [{| sc_status := status d; sc_count := 1 |}]
  | g :: rest =>
      if sameStatus (sc_status g) (status d)
      then {| sc_status := sc_status g; sc_count := sc_count g + 1 |} :: rest
      else g :: countStatus d rest
  end.

(** [$group] by status; the groups come in the order their first document
    does. *)
Definition groupByStatus (docs : list IQRCode) : list StatusCount :=
  fold_left (fun groups d => countStatus d groups) docs [].

Fixpoint countBatch (d : IQRCode) (groups : list BatchStat) : list BatchStat :=
  match groups with
  | [] =>
      [{| bs_batchId := batchId d; bs_count := 1;
          bs_quantity := quantity d; bs_createdAt := createdAt d |}]
  | g :: rest =>
      if String.eqb (bs_batchId g) (batchId d)
      then {| bs_batchId := bs_batchId g; bs_count := bs_count g + 1;
              bs_quantity := bs_quantity g;
              bs_createdAt := bs_createdAt g |} :: rest
      else g :: countBatch d rest
  end.

(** [$group] by batch id. *)
Definition groupByBatch (docs : list IQRCode) : list BatchStat :=
  fold_left (fun groups d => countBatch d groups) docs [].

Fixpoint insertBatchDesc (g : BatchStat) (l : list BatchStat) : list BatchStat :=
  match l with
  | [] => [g]
  | x :: rest =>
      if dateLeb (bs_createdAt x) (bs_createdAt g) then g :: l
      else x :: insertBatchDesc g rest
  end.

(** [{ $sort: { createdAt: -1 } }]. *)
Definition sortBatchesDesc (l : list BatchStat) : list BatchStat :=
  fold_right insertBatchDesc [] l.

(** [getQRCodeStats]: nothing in it can throw here, so what is returned is
    the body of its 200 response. *)
Definition getQRCodeStats (req : Request unit) (s : Store) : Stats :=
  let matches (d : IQRCode) : bool :=
    if isManufacturer (user req)
    then (generatedBy d =? User._id (user req))%N
    else true in
  let matched := filter matches s in
  {| st_totalQRCodes := List.length matched;
     st_unredeemedCount :=
       List.length
         (filter (fun d => matches d && hasStatus UNREDEEMED d) s);
     st_redeemedCount :=
       List.length
         (filter (fun d => matches d && hasStatus REDEEMED d) s);
     st_byStatus := groupByStatus matched;
     st_recentBatches := firstn 10 (sortBatchesDesc (groupByBatch matched)) |}.

(** [router.get('/stats', requirePortalUser, getQRCodeStats)]. *)
Definition getStats (u : option User.t) (s : Store) : Response + Stats :=
  match requirePortalUser u with
  | inl refusal => inl refusal
  | inr user_ =>
      inr (getQRCodeStats
             {| user := user_; validationErrors := []; input := tt |} s)
  end.

(** ** Further definitions for the statements *)

(** The unique indexes hold. *)
Definition uniqueStore (s : Store) : Prop :=
  NoDup (map _id s) /\ NoDup (map code s).

(** [redeemedAt] and [redeemedBy] are there exactly on redeemed documents:
    both on a document whose status is redeemed, neither on any other. *)
Definition settled (d : IQRCode) : bool :=
  match status d, redeemedAt d, redeemedBy d with
  | Some REDEEMED, Some _, Some _ => true
  | Some REDEEMED, _, _ => false
  | _, None, None => true
  | _, _, _ => false
  end.

(** The candidate [generateUniqueQRCode] draws in attempt [a]. *)
Definition candidate (draw : nat -> nat -> byte) (len a : nat) : string :=
  String.substring 0 len (toHex (randomBytes (draw a) (ceilHalf len))).

Definition hasCode (s : Store) (c : string) : bool :=
  existsb (fun d => String.eqb (code d) c) s.

(** Reading base 36 back, as [parseInt(s, 36)] does on digits and
    lower-case letters. *)
Definition digitValue36 (c : ascii) : option N :=
  let n := N_of_ascii c in
  if isDigit c then Some (n - 48)%N
  else if (97 <=? n)%N && (n <=? 122)%N then Some (n - 87)%N
  else None.

Fixpoint parse36From (acc : N) (s : string) : option N :=
  match s with
  | EmptyString => Some acc
  | String c rest =>
      match digitValue36 c with
      | Some v => parse36From (36 * acc + v)%N rest
      | None => None
      end
  end.

Definition parse36 (s : string) : option N :=
  match s with
  | EmptyString => None
  | _ => parse36From 0%N s
  end.

(** Reading lower-case hexadecimal back into bytes, two digits a byte. *)
Fixpoint fromHex (s : string) : option (list byte) :=
  match s with
  | EmptyString => Some []
  | String hi (String lo rest) =>
      match hexValue hi, hexValue lo, fromHex rest with
      | Some h, Some l, Some bytes =>
          match Byte.of_N (16 * h + l) with
          | Some b => Some (b :: bytes)
          | None => None
          end
      | _, _, _ => None
      end
  | String _ EmptyString => None
  end.

(** The statuses a store shows, document by document. *)
Definition redeemedCount (s : Store) : nat :=
  List.length (filter (hasStatus REDEEMED) s).

(** Status may only move forward. *)
Definition statusLe (a b : option QRCodeStatus) : Prop :=
  a = Some REDEEMED -> b = Some REDEEMED.

(** What redemption must leave alone in a document. *)
Definition sameIdentity (d d' : IQRCode) : Prop :=
  _id d' = _id d /\ code d' = code d /\ generatedBy d' = generatedBy d
  /\ batchId d' = batchId d /\ quantity d' = quantity d
  /\ batchNumber d' = batchNumber d /\ isActive d' = isActive d
  /\ metadata d' = metadata d /\ createdAt d' = createdAt d.

(** The codes a generation response reports. *)
Definition reportedCodes (r : Response) : list string :=
  match json r with
  | JGenerated _ _ _ codes _ _ => codes
  | _ => []
  end.

(** What every document made by a generation request looks like: the six
    keys the handler wrote, and none of the fields the schema would have
    defaulted or stamped. *)
Definition freshlyIssued (env : Env) (u : User.t) (q len : nat) (m : Metadata)
    (s : Store) (d : IQRCode) : Prop :=
  status d = None /\ isActive d = None
  /\ redeemedAt d = None /\ redeemedBy d = None
  /\ createdAt d = None /\ updatedAt d = None
  /\ generatedBy d = User._id u /\ batchId d = batchIdOf env
  /\ quantity d = q /\ metadata d = MObject m
  /\ 1 <= batchNumber d <= q
  /\ matchesLowerHex len len (code d) = true
  /\ hasCode s (code d) = false.

(** [d'] is [d], or [d] redeemed: the identity fields are the same, the
    status has not gone back, and if anything changed the document is now
    redeemed with both redemption fields set. *)
Definition advances (d d' : IQRCode) : Prop :=
  sameIdentity d d'
  /\ statusLe (status d) (status d')
  /\ (d' = d
      \/ (status d' = Some REDEEMED
          /\ redeemedAt d' <> None /\ redeemedBy d' <> None)).

(** Newest first: every document is at least as recent as all that
    follow, one without [createdAt] counting as older than any date. *)
Fixpoint newestFirst (l : list IQRCode) : Prop :=
  match l with
  | [] => True
  | d :: rest =>
      (forall x, In x rest -> dateLeb (createdAt x) (createdAt d) = true)
      /\ newestFirst rest
  end.

(** The documents a portal user's statistics are about. *)
Definition inScope (u : User.t) (s : Store) : list IQRCode :=
  filter (visible u) s.

(** The sum of the counts of the status groups. *)
Definition statusTotal (groups : list StatusCount) : nat :=
  fold_right (fun g n => sc_count g + n) 0 groups.

(** The count the status groups give for [st] (0 when there is no group);
    [None] asks for the group of the documents without a status. *)
Definition statusCountOf (st : option QRCodeStatus)
    (groups : list StatusCount) : nat :=
  fold_right
    (fun g n => if sameStatus (sc_status g) st then sc_count g + n else n)
    0 groups.

(** The documents that have no [status]. *)
Definition withoutStatus (l : list IQRCode) : list IQRCode :=
  filter (fun d => match status d with None => true | Some _ => false end) l.

(** The count the batch groups give for the batch [b]. *)
Definition batchCountOf (b : string) (groups : list BatchStat) : nat :=
  fold_right
    (fun g n => if String.eqb (bs_batchId g) b then bs_count g + n else n)
    0 groups.

(** The bounds of the generation route: 1 to 10000 codes, of length 8 to
    20 when a length is given, with metadata that is an object when it is
    given. *)
Definition withinBounds (b : GenerateBody.t) : bool :=
  (1 <=? N.of_nat (GenerateBody.quantity b))%N
  && (N.of_nat (GenerateBody.quantity b) <=? 10000)%N
  && match GenerateBody.length b with
     | None => true
     | Some l => (8 <=? l) && (l <=? 20)
     end
  && match GenerateBody.metadata b with
     | None => true
     | Some (MObject _) => true
     | Some (MOther _) => false
     end.

(** Redemption requests served one after the other, each to completion
    before the next starts: the answers, in order, and the final store. *)
Fixpoint serveRedeems (reqs : list ((nat -> Date) * Request RedeemBody.t))
    (s : Store) : list Response * Store :=
  match reqs with
  | [] => ([], s)
  | (clock, req) :: rest =>
      let (res, s1) := redeemQRCode clock req s in
      let (answers, s2) := serveRedeems rest s1 in
      (res :: answers, s2)
  end.

(** Requests that all ask for the code [c]. *)
Definition allAskFor (c : string)
    (reqs : list ((nat -> Date) * Request RedeemBody.t)) : Prop :=
  Forall (fun cr => RedeemBody.code (input (snd cr)) = Some c) reqs.
(** * Properties *)

(** ** Characters and strings *)

Lemma isHexIgnoreCase_lower (c : ascii) :
  isHexIgnoreCase c = isLowerHex (toLowerAscii c).
Proof.
  destruct c as [[] [] [] [] [] [] [] []]; reflexivity.
Qed.

Lemma isLowerHex_ignoreCase (c : ascii) :
  isLowerHex c = true -> isHexIgnoreCase c = true.
Proof.
  unfold isHexIgnoreCase, isLowerHex. intros H.
  apply orb_true_iff in H. destruct H as [H | H]; rewrite H; auto.
  rewrite orb_true_r. reflexivity.
Qed.

Lemma length_toLowerCase (s : string) :
  String.length (toLowerCase s) = String.length s.
Proof.
  induction s as [| c rest IH]; simpl; [reflexivity | now rewrite IH].
Qed.

Lemma allChars_toLowerCase (s : string) :
  allChars isHexIgnoreCase s = allChars isLowerHex (toLowerCase s).
Proof.
  induction s as [| c rest IH]; simpl; [reflexivity |].
  now rewrite IH, isHexIgnoreCase_lower.
Qed.

(** The [i] flag amounts to matching the lower-cased string. *)
Lemma isValidQRCode_lowercase (c : string) :
  isValidQRCode c = matchesLowerHex 8 20 (toLowerCase c).
Proof.
  unfold isValidQRCode, matchesLowerHex.
  now rewrite length_toLowerCase, allChars_toLowerCase.
Qed.

Lemma allChars_weaken (p q : ascii -> bool) (s : string) :
  (forall c, p c = true -> q c = true) ->
  allChars p s = true -> allChars q s = true.
Proof.
  intros Hpq. induction s as [| c rest IH]; simpl; [reflexivity |].
  intros H. apply andb_true_iff in H. destruct H as [Hc Hrest].
  rewrite (Hpq _ Hc), (IH Hrest). reflexivity.
Qed.

(** Whatever the specification's pattern accepts, [isValidQRCode] accepts. *)
Lemma matchesLowerHex_valid (c : string) :
  matchesLowerHex 8 20 c = true -> isValidQRCode c = true.
Proof.
  unfold matchesLowerHex, isValidQRCode. intros H.
  apply andb_true_iff in H. destruct H as [Hlen Hall].
  rewrite Hlen. simpl.
  apply (allChars_weaken isLowerHex); [apply isLowerHex_ignoreCase | exact Hall].
Qed.

Example isValidQRCode_lower : isValidQRCode "deadbeef12" = true.
Proof. reflexivity. Qed.

Example isValidQRCode_upper : isValidQRCode "DEADBEEF" = true.
Proof. reflexivity. Qed.

Example isValidQRCode_short : isValidQRCode "abc1234" = false.
Proof. reflexivity. Qed.

Example isValidQRCode_long : isValidQRCode "0123456789abcdef01234" = false.
Proof. reflexivity. Qed.

Example isValidQRCode_nonhex : isValidQRCode "deadbeeg" = false.
Proof. reflexivity. Qed.

(** ** Redemption *)

Lemma redeem_invalid clock u errs c s :
  isValidQRCode c = false ->
  redeemQRCode clock (redeemRequest u errs c) s
  = (respond 400 (JMessage "Invalid QR code format."), s).
Proof.
  intros H. unfold redeemQRCode, redeemRequest. simpl.
  destruct c as [| a rest]; [reflexivity |]. now rewrite H.
Qed.

Lemma redeem_valid clock u errs c s :
  isValidQRCode c = true ->
  redeemQRCode clock (redeemRequest u errs c) s
  = match findOne (unredeemedWithCode c) s with
    | None =>
        (respond 404 (JMessage "QR code not found or already redeemed."), s)
    | Some qrCode =>
        match save (clock 0) (User._id u) (clock 1) qrCode s with
        | Throw e => (serverError e, s)
        | Ok s' =>
            (respond 200
               (JRedeemed "QR code redeemed successfully"
                  (_id qrCode) (code qrCode) (batchId qrCode)
                  (Some (clock 0))), s')
        end
    end.
Proof.
  intros H. unfold redeemQRCode, redeemRequest. simpl.
  destruct c as [| a rest]; [discriminate H |]. now rewrite H.
Qed.

(** C3 (as amended). The redemption handler answers 400 exactly for the
    strings that do not match [^[a-f0-9]{8,20}$] once lower-cased, that is
    for those failing the pattern case-insensitively; in that case the store
    is neither read nor changed, the answer being the same on every store. *)
Theorem redeem_validation_iff :
  forall clock u errs c s,
    (isValidationError (fst (redeemQRCode clock (redeemRequest u errs c) s)) = true
     <-> matchesLowerHex 8 20 (toLowerCase c) = false)
    /\ (matchesLowerHex 8 20 (toLowerCase c) = false ->
        forall s0,
          redeemQRCode clock (redeemRequest u errs c) s0
          = (respond 400 (JMessage "Invalid QR code format."), s0)).
Proof.
  intros clock u errs c s. rewrite <- isValidQRCode_lowercase. split.
  - split.
    + intros H. destruct (isValidQRCode c) eqn:Hv; [| reflexivity].
      rewrite (redeem_valid _ _ _ _ _ Hv) in H.
      destruct (findOne (unredeemedWithCode c) s) as [d |]; [| discriminate H].
      destruct (save _ _ _ d s); discriminate H.
    + intros Hv. now rewrite (redeem_invalid _ _ _ _ _ Hv).
  - intros Hv s0. now apply redeem_invalid.
Qed.

Lemma redeem_validation_iff_witness :
  matchesLowerHex 8 20 (toLowerCase "48-XYZ") = false
  /\ isValidationError
       (fst (redeemQRCode clockA (redeemRequest alice [] "48-XYZ") oneCodeStore))
     = true.
Proof.
  split; [reflexivity |].
  apply (proj2 (proj1 (redeem_validation_iff clockA alice [] "48-XYZ" oneCodeStore))).
  reflexivity.
Defined.

(** C3 (as stated) fails: an upper-case hexadecimal string does not match
    [^[a-f0-9]{8,20}$], yet the handler goes on to the store and answers 404
    rather than 400. *)
Lemma redeem_uppercase_not_rejected :
  matchesLowerHex 8 20 "DEADBEEF" = false
  /\ isValidationError
       (fst (redeemQRCode (fun _ => 0%N) (redeemRequest alice [] "DEADBEEF") []))
     = false
  /\ isNotFoundError
       (fst (redeemQRCode (fun _ => 0%N) (redeemRequest alice [] "DEADBEEF") []))
     = true.
Proof. repeat split. Qed.

(** *** Store lemmas *)

Lemma NoDup_map_split {A B : Type} (f : A -> B) (pre post : list A) (d x : A) :
  NoDup (map f (pre ++ d :: post)) ->
  In x (pre ++ post) -> f x <> f d.
Proof.
  rewrite map_app. simpl. intros Hnd Hin Heq.
  apply NoDup_remove_2 in Hnd. apply Hnd.
  rewrite <- map_app, <- Heq. now apply in_map.
Qed.

Lemma NoDup_map_inj {A B : Type} (f : A -> B) (l : list A) (x y : A) :
  NoDup (map f l) -> In x l -> In y l -> f x = f y -> x = y.
Proof.
  induction l as [| a l IH]; simpl; [contradiction |].
  intros Hnd Hx Hy Hxy. inversion Hnd as [| ? ? Hnotin Hnd']; subst.
  destruct Hx as [-> | Hx], Hy as [-> | Hy]; auto.
  - exfalso. apply Hnotin. rewrite Hxy. now apply in_map.
  - exfalso. apply Hnotin. rewrite <- Hxy. now apply in_map.
Qed.

(** With unique ids, the update by id rewrites the very document given. *)
Lemma updateOneById_In (f : IQRCode -> IQRCode) (s : Store) (d : IQRCode) :
  NoDup (map _id s) -> In d s ->
  exists pre post,
    s = pre ++ d :: post
    /\ updateOneById (_id d) f s = Some (pre ++ f d :: post).
Proof.
  induction s as [| a s IH]; simpl; [contradiction |].
  intros Hnd Hin. inversion Hnd as [| ? ? Hnotin Hnd']; subst.
  destruct Hin as [-> | Hin].
  - exists [], s. rewrite N.eqb_refl. auto.
  - destruct (N.eqb_spec (_id a) (_id d)) as [Heq | Hne].
    + exfalso. apply Hnotin. rewrite Heq. now apply in_map.
    + destruct (IH Hnd' Hin) as (pre & post & -> & Hup).
      exists (a :: pre), post. rewrite Hup. auto.
Qed.

Lemma unredeemedWithCode_spec (c : string) (d : IQRCode) :
  unredeemedWithCode c d = true <-> code d = c /\ status d = Some UNREDEEMED.
Proof.
  unfold unredeemedWithCode, hasStatus. rewrite andb_true_iff, String.eqb_eq.
  destruct (status d) as [[|] |]; simpl; intuition congruence.
Qed.

(** The handler is its two steps run back to back. *)
Lemma redeemStep_sequential clock req s :
  let (t1, s1) := redeemStep (Received clock req) s in
  redeemStep t1 s1
  = (Responded (fst (redeemQRCode clock req s)), snd (redeemQRCode clock req s)).
Proof.
  unfold redeemStep, redeemQRCode.
  destruct (RedeemBody.code (input req)) as [[| a c] |]; try reflexivity.
  destruct (negb (isValidQRCode (String a c))); [reflexivity |].
  destruct (findOne _ s) as [d |]; [| reflexivity].
  destruct (save _ _ _ d s); reflexivity.
Qed.

(** C4 (as amended). For a well-formed code the handler answers 404 exactly
    when no document carries the code with status [UNREDEEMED] (the code is
    unknown, or its document is already redeemed, or has no status at
    all); [isActive] plays no part.  A 404 leaves the store as it was. *)
Theorem redeem_notfound_iff :
  forall clock u errs c s,
    isValidQRCode c = true ->
    (isNotFoundError (fst (redeemQRCode clock (redeemRequest u errs c) s)) = true
     <-> (forall d, In d s -> code d = c -> status d <> Some UNREDEEMED))
    /\ (isNotFoundError (fst (redeemQRCode clock (redeemRequest u errs c) s)) = true
        -> snd (redeemQRCode clock (redeemRequest u errs c) s) = s).
Proof.
  intros clock u errs c s Hv. rewrite (redeem_valid _ _ _ _ _ Hv).
  destruct (findOne (unredeemedWithCode c) s) as [d |] eqn:Hfind.
  - apply find_some in Hfind. destruct Hfind as [Hin Hd].
    apply unredeemedWithCode_spec in Hd. destruct Hd as [Hc Hst].
    assert (Hno : isNotFoundError
                    (fst match save (clock 0) (User._id u) (clock 1) d s with
                         | Ok s' =>
                             (respond 200
                                (JRedeemed "QR code redeemed successfully"
                                   (_id d) (code d) (batchId d) (Some (clock 0))), s')
                         | Throw e => (serverError e, s)
                         end) = false)
      by (destruct (save _ _ _ d s); reflexivity).
    rewrite Hno. split; [split |]; try discriminate.
    intros Hall. specialize (Hall d Hin Hc). congruence.
  - simpl. split; [split |]; auto.
    intros _ d Hin Hc Hst.
    pose proof (find_none _ _ Hfind d Hin) as Hd.
    assert (unredeemedWithCode c d = true)
      by (apply unredeemedWithCode_spec; auto).
    congruence.
Qed.

Lemma redeem_notfound_iff_witness :
  isValidQRCode "deadbeef12" = true
  /\ isNotFoundError
       (fst (redeemQRCode clockA (redeemRequest alice [] "deadbeef12") [])) = true.
Proof.
  split; [reflexivity |].
  apply (proj1 (redeem_notfound_iff clockA alice [] "deadbeef12" [] eq_refl)).
  intros d [].
Defined.

(** C4 (as stated) fails: an unredeemed document with [isActive = false] is
    not a case of "not found"; the handler redeems it. *)
Lemma redeem_inactive_succeeds :
  isActive dormantCode = Some false
  /\ isNotFoundError
       (fst (redeemQRCode clockA (redeemRequest alice [] "deadbeef12") [dormantCode]))
     = false
  /\ statusCode
       (fst (redeemQRCode clockA (redeemRequest alice [] "deadbeef12") [dormantCode]))
     = 200
  /\ map status
       (snd (redeemQRCode clockA (redeemRequest alice [] "deadbeef12") [dormantCode]))
     = [Some REDEEMED].
Proof. repeat split. Qed.

(** C6. In a store with unique ids and unique codes that holds the code
    unredeemed, redeeming it twice in a row succeeds the first time and
    answers 404 the second time, whoever asks. *)
Theorem redeem_twice :
  forall clock1 clock2 u1 u2 errs1 errs2 c s d,
    NoDup (map _id s) -> NoDup (map code s) ->
    isValidQRCode c = true ->
    In d s -> code d = c -> status d = Some UNREDEEMED ->
    exists res1 s1 res2,
      redeemQRCode clock1 (redeemRequest u1 errs1 c) s = (res1, s1)
      /\ statusCode res1 = 200
      /\ redeemQRCode clock2 (redeemRequest u2 errs2 c) s1 = (res2, s1)
      /\ isNotFoundError res2 = true.
Proof.
  intros clock1 clock2 u1 u2 errs1 errs2 c s d Hids Hcodes Hv Hin Hc Hst.
  rewrite (redeem_valid _ _ _ _ _ Hv).
  destruct (findOne (unredeemedWithCode c) s) as [d' |] eqn:Hfind.
  2:{ pose proof (find_none _ _ Hfind d Hin) as Hd.
      assert (unredeemedWithCode c d = true)
        by (apply unredeemedWithCode_spec; auto).
      congruence. }
  apply find_some in Hfind. destruct Hfind as [Hin' Hd'].
  apply unredeemedWithCode_spec in Hd'. destruct Hd' as [Hc' _].
  assert (d' = d) by (apply (NoDup_map_inj code s); congruence). subst d'.
  unfold save.
  destruct (updateOneById_In
              (markRedeemed (clock1 0) (User._id u1) (clock1 1)) s d Hids Hin)
    as (pre & post & Hs & Hup).
  rewrite Hup. eexists _, _, _. split; [reflexivity |]. split; [reflexivity |].
  rewrite (redeem_valid _ _ _ _ _ Hv).
  destruct (findOne (unredeemedWithCode c) _) as [x |] eqn:Hfind2;
    [| split; reflexivity].
  exfalso. apply find_some in Hfind2. destruct Hfind2 as [Hx Hxd].
  apply unredeemedWithCode_spec in Hxd. destruct Hxd as [Hxc Hxs].
  apply in_app_or in Hx. destruct Hx as [Hx | [Hx | Hx]].
  - apply (NoDup_map_split code pre post d x); [congruence | | congruence].
    apply in_or_app. now left.
  - subst x. discriminate Hxs.
  - apply (NoDup_map_split code pre post d x); [congruence | | congruence].
    apply in_or_app. now right.
Qed.

Lemma redeem_twice_witness :
  exists res1 s1 res2,
    redeemQRCode clockA (redeemRequest alice [] "deadbeef12") oneCodeStore
    = (res1, s1)
    /\ statusCode res1 = 200
    /\ redeemQRCode clockB (redeemRequest bob [] "deadbeef12") s1 = (res2, s1)
    /\ isNotFoundError res2 = true.
Proof.
  apply (redeem_twice clockA clockB alice bob [] [] "deadbeef12"
           oneCodeStore freshCode).
  - repeat constructor; simpl; tauto.
  - repeat constructor; simpl; tauto.
  - reflexivity.
  - left; reflexivity.
  - reflexivity.
  - reflexivity.
Defined.

(** C9 (as stated) fails: a successful redemption changes a fourth field
    of the matched document.  The schema has [timestamps: true], so the
    [save()] of line 323 also writes [updatedAt]: here it goes from 1000 to
    the time of the save, 5001. *)
Lemma redeem_refreshes_updatedAt :
  statusCode
    (fst (redeemQRCode clockA (redeemRequest alice [] "deadbeef12") oneCodeStore))
  = 200
  /\ map updatedAt oneCodeStore = [Some 1000%N]
  /\ map updatedAt
       (snd (redeemQRCode clockA (redeemRequest alice [] "deadbeef12") oneCodeStore))
     = [Some 5001%N].
Proof. repeat split. Qed.

(** C9 (as amended). A successful redemption, in a store with unique ids,
    rewrites one document in place: the one found for the code, unredeemed
    until then.  Exactly four of its fields take new values: [status]
    becomes redeemed, [redeemedAt] the time of the request, [redeemedBy]
    the caller, and [updatedAt] the time of the save; [_id], [code],
    [generatedBy], [batchId], [quantity], [batchNumber], [isActive],
    [metadata] and [createdAt] are as before, so the new document is the
    old one with those four fields replaced.  Every other document, before
    and after it in the store, is untouched. *)
Theorem redeem_frame :
  forall clock req s res s',
    NoDup (map _id s) ->
    redeemQRCode clock req s = (res, s') ->
    statusCode res = 200 ->
    exists pre d d' post,
      s = pre ++ d :: post
      /\ s' = pre ++ d' :: post
      /\ RedeemBody.code (input req) = Some (code d)
      /\ status d = Some UNREDEEMED
      /\ (status d' = Some REDEEMED
          /\ redeemedAt d' = Some (clock 0)
          /\ redeemedBy d' = Some (User._id (user req))
          /\ updatedAt d' = Some (clock 1))
      /\ (_id d' = _id d
          /\ code d' = code d
          /\ generatedBy d' = generatedBy d
          /\ batchId d' = batchId d
          /\ quantity d' = quantity d
          /\ batchNumber d' = batchNumber d
          /\ isActive d' = isActive d
          /\ metadata d' = metadata d
          /\ createdAt d' = createdAt d)
      /\ d' = {| _id := _id d;
                 code := code d;
                 status := Some REDEEMED;
                 generatedBy := generatedBy d;
                 batchId := batchId d;
                 quantity := quantity d;
                 batchNumber := batchNumber d;
                 isActive := isActive d;
                 redeemedAt := Some (clock 0);
                 redeemedBy := Some (User._id (user req));
                 metadata := metadata d;
                 createdAt := createdAt d;
                 updatedAt := Some (clock 1) |}.
Proof.
  intros clock req s res s' Hids Hrun Hok. unfold redeemQRCode in Hrun.
  destruct (RedeemBody.code (input req)) as [[| a c] |] eqn:Hcode;
    try (injection Hrun as <- <-; discriminate Hok).
  destruct (negb (isValidQRCode (String a c)));
    [injection Hrun as <- <-; discriminate Hok |].
  destruct (findOne _ s) as [d |] eqn:Hfind;
    [| injection Hrun as <- <-; discriminate Hok].
  apply find_some in Hfind. destruct Hfind as [Hin Hd].
  apply unredeemedWithCode_spec in Hd. destruct Hd as [Hc Hst].
  unfold save in Hrun.
  destruct (updateOneById_In
              (markRedeemed (clock 0) (User._id (user req)) (clock 1)) s d Hids Hin)
    as (pre & post & Hs & Hup).
  rewrite Hup in Hrun. injection Hrun as <- <-.
  exists pre, d, (markRedeemed (clock 0) (User._id (user req)) (clock 1) d), post.
  rewrite <- Hc. repeat split; auto.
Qed.

(** On [sharedStore], redeeming the code of its second document: the
    first and the third document are the untouched [pre] and [post]. *)
Lemma redeem_frame_witness :
  NoDup (map _id sharedStore)
  /\ exists pre d d' post,
      sharedStore = pre ++ d :: post
      /\ snd (redeemQRCode clockA (redeemRequest alice [] "aaaaaaaa02") sharedStore)
         = pre ++ d' :: post
      /\ pre = [makerFirst] /\ d = makerSecond /\ post = [rivalOnly]
      /\ status d' = Some REDEEMED
      /\ redeemedBy d' = Some (User._id alice)
      /\ updatedAt d' = Some 5001%N
      /\ isActive d' = isActive d.
Proof.
  assert (Hids : NoDup (map _id sharedStore))
    by (repeat constructor; simpl; intuition discriminate).
  split; [exact Hids |].
  destruct (redeem_frame clockA (redeemRequest alice [] "aaaaaaaa02")
              sharedStore _ _ Hids eq_refl eq_refl)
    as (pre & d & d' & post & Hs & Hs' & Hcode & _
        & (Hst & _ & Hby & Hup) & Hsame & _).
  exists pre, d, d', post.
  assert (Hsplit : pre = [makerFirst] /\ d = makerSecond /\ post = [rivalOnly]).
  { unfold sharedStore in Hs. simpl in Hcode. injection Hcode as Hcode.
    destruct pre as [| p0 pre]; simpl in Hs.
    - injection Hs as Hd _. subst d. cbv in Hcode. discriminate Hcode.
    - injection Hs as Hp0 Hs. destruct pre as [| p1 pre]; simpl in Hs.
      + injection Hs as Hd Hpost. subst. auto.
      + injection Hs as Hp1 Hs. destruct pre as [| p2 pre]; simpl in Hs.
        * injection Hs as Hd Hpost. subst d. cbv in Hcode. discriminate Hcode.
        * injection Hs as _ Hs. destruct pre; discriminate Hs. }
  destruct Hsplit as (Hpre & Hd & Hpost).
  repeat split; auto. apply Hsame.
Defined.

(** *** Requests in flight together *)

(** Run alone, the two requests are served one after the other: the first
    succeeds and the second answers 404. *)
Example redeem_serial_schedule :
  map succeeded
    (fst (runSchedule [0; 0; 1; 1]
            [Received clockA (redeemRequest alice [] "deadbeef12");
             Received clockB (redeemRequest bob [] "deadbeef12")]
            oneCodeStore))
  = [true; false]
  /\ map answeredNotFound
       (fst (runSchedule [0; 0; 1; 1]
               [Received clockA (redeemRequest alice [] "deadbeef12");
                Received clockB (redeemRequest bob [] "deadbeef12")]
               oneCodeStore))
     = [false; true].
Proof. split; reflexivity. Qed.

(** C1 fails on the code. The lookup ([findOne]) and the transition
    ([save]) are two store operations, and a second request can run its
    lookup between them.  With two requests for the same unredeemed code
    scheduled lookup, lookup, save, save, both are answered 200, none 404,
    and the stored [redeemedBy] is the second writer's while the first
    caller was told it had redeemed the code. *)
Theorem redeem_race_both_succeed :
  allResponded
    (fst (runSchedule [0; 1; 0; 1]
            [Received clockA (redeemRequest alice [] "deadbeef12");
             Received clockB (redeemRequest bob [] "deadbeef12")]
            oneCodeStore)) = true
  /\ map succeeded
       (fst (runSchedule [0; 1; 0; 1]
               [Received clockA (redeemRequest alice [] "deadbeef12");
                Received clockB (redeemRequest bob [] "deadbeef12")]
               oneCodeStore))
     = [true; true]
  /\ List.length
       (filter answeredNotFound
          (fst (runSchedule [0; 1; 0; 1]
                  [Received clockA (redeemRequest alice [] "deadbeef12");
                   Received clockB (redeemRequest bob [] "deadbeef12")]
                  oneCodeStore)))
     = 0
  /\ map redeemedBy
       (snd (runSchedule [0; 1; 0; 1]
               [Received clockA (redeemRequest alice [] "deadbeef12");
                Received clockB (redeemRequest bob [] "deadbeef12")]
               oneCodeStore))
     = [Some (User._id bob)].
Proof. repeat split. Qed.

(** ** Generation *)

(** *** Shape of a generated code *)

Lemma isLowerHex_hexDigit_hi (b : byte) :
  isLowerHex (hexDigit (Byte.to_N b / 16)) = true.
Proof. destruct b; reflexivity. Qed.

Lemma isLowerHex_hexDigit_lo (b : byte) :
  isLowerHex (hexDigit (Byte.to_N b mod 16)) = true.
Proof. destruct b; reflexivity. Qed.

Lemma length_toHex (bytes : list byte) :
  String.length (toHex bytes) = 2 * List.length bytes.
Proof.
  induction bytes as [| b rest IH]; simpl; [reflexivity | rewrite IH; lia].
Qed.

Lemma allChars_toHex (bytes : list byte) :
  allChars isLowerHex (toHex bytes) = true.
Proof.
  induction bytes as [| b rest IH]; [reflexivity |].
  cbn [toHex allChars].
  now rewrite isLowerHex_hexDigit_hi, isLowerHex_hexDigit_lo, IH.
Qed.

Lemma length_substring0 (n : nat) (s : string) :
  String.length (String.substring 0 n s) = Nat.min n (String.length s).
Proof.
  revert s. induction n as [| n IH]; intros [| c s]; simpl; auto.
Qed.

Lemma allChars_substring0 (p : ascii -> bool) (n : nat) (s : string) :
  allChars p s = true -> allChars p (String.substring 0 n s) = true.
Proof.
  revert s. induction n as [| n IH]; intros [| c s]; simpl; auto.
  intros H. apply andb_true_iff in H. destruct H as [Hc Hs].
  now rewrite Hc, (IH s Hs).
Qed.

Lemma length_randomBytes (source : nat -> byte) (n : nat) :
  List.length (randomBytes source n) = n.
Proof. unfold randomBytes. now rewrite length_map, length_seq. Qed.

Lemma ceilHalf_enough (n : nat) : n <= 2 * ceilHalf n.
Proof.
  unfold ceilHalf. rewrite Nat.div2_div.
  pose proof (Nat.div_mod_eq (S n) 2) as Hd.
  pose proof (Nat.mod_upper_bound (S n) 2) as Hm. lia.
Qed.

(** What [generateUniqueQRCode] returns has the requested length, is
    lower-case hexadecimal, and was absent from the store when checked. *)
Lemma generateLoop_ok draw len s remaining attempts c :
  generateLoop draw len s remaining attempts = Ok c ->
  String.length c = len
  /\ allChars isLowerHex c = true
  /\ findOne (fun d => String.eqb (code d) c) s = None.
Proof.
  revert attempts. induction remaining as [| r IH]; intros attempts; simpl;
    [discriminate |].
  match goal with
  | |- match findOne ?p s with _ => _ end = _ -> _ =>
      destruct (findOne p s) eqn:Hfind; [apply IH |]
  end.
  intros H. injection H as <-. repeat split.
  - rewrite length_substring0, length_toHex, length_randomBytes.
    pose proof (ceilHalf_enough len). lia.
  - apply allChars_substring0, allChars_toHex.
  - exact Hfind.
Qed.

(** The only error of [generateUniqueQRCode] is the exhausted budget. *)
Lemma generateLoop_throw draw len s remaining attempts e :
  generateLoop draw len s remaining attempts = Throw e -> e = exhaustedMessage.
Proof.
  revert attempts. induction remaining as [| r IH]; intros attempts; simpl.
  - intros H. now injection H as <-.
  - destruct (findOne _ s); [apply IH | discriminate].
Qed.

Lemma generateUniqueQRCode_ok draw len s c :
  generateUniqueQRCode draw len s = Ok c -> generatedFor len s c.
Proof.
  intros H. apply generateLoop_ok in H. destruct H as (Hlen & Hall & Habs).
  split; [| exact Habs]. unfold matchesLowerHex.
  now rewrite Hlen, Nat.leb_refl, Hall.
Qed.

(** *** Promise.all and the group loop *)

Lemma promiseAll_ok {A B : Type} (g : A -> Result B) (P : B -> Prop)
    (l : list A) (out : list B) :
  (forall a b, g a = Ok b -> P b) ->
  promiseAll (map g l) = Ok out ->
  List.length out = List.length l /\ Forall P out.
Proof.
  intros Hg. revert out. induction l as [| a l IH]; simpl; intros out H.
  - injection H as <-. auto.
  - destruct (g a) as [b |] eqn:Hb; simpl in H; [| discriminate].
    destruct (promiseAll (map g l)) as [bs |]; simpl in H; [| discriminate].
    injection H as <-. destruct (IH bs eq_refl) as [Hlen Hall].
    simpl. split; [now rewrite Hlen | constructor; eauto].
Qed.

Lemma promiseAll_throw {A B : Type} (g : A -> Result B) (msg : string)
    (l : list A) (a : A) :
  (forall x e, g x = Throw e -> e = msg) ->
  In a l -> (exists e, g a = Throw e) ->
  promiseAll (map g l) = Throw msg.
Proof.
  intros Hg. induction l as [| x l IH]; simpl; [contradiction |].
  intros Hin Ha. destruct (g x) as [b |] eqn:Hx; simpl.
  - destruct Hin as [-> | Hin]; [destruct Ha; congruence |].
    now rewrite (IH Hin Ha).
  - now rewrite (Hg _ _ Hx).
Qed.

Lemma groupLoop_S slot count len s fuel i acc :
  groupLoop slot count len s (S fuel) i acc
  = if i <? count then
      bind (promiseAll
              (map (fun k => generateUniqueQRCode (slot (i + k)) len s)
                   (seq 0 (Nat.min batchSize (count - i)))))
           (fun batchCodes =>
              groupLoop slot count len s fuel (i + batchSize) (acc ++ batchCodes))
    else Ok acc.
Proof. reflexivity. Qed.

Lemma groupLoop_ok slot count len s fuel i acc codes :
  count - i <= fuel ->
  groupLoop slot count len s fuel i acc = Ok codes ->
  exists rest,
    codes = acc ++ rest
    /\ List.length rest = count - i
    /\ Forall (generatedFor len s) rest.
Proof.
  revert i acc. induction fuel as [| fuel IH]; intros i acc Hfuel.
  - simpl. intros H. injection H as <-. exists []. rewrite app_nil_r.
    repeat split; [simpl; lia | constructor].
  - rewrite groupLoop_S. destruct (Nat.ltb_spec i count) as [Hlt | Hge].
    2:{ intros H. injection H as <-. exists []. rewrite app_nil_r.
        repeat split; [simpl; lia | constructor]. }
    destruct (promiseAll _) as [batchCodes |] eqn:Hall; unfold bind;
      [| discriminate].
    apply (promiseAll_ok _ (generatedFor len s)) in Hall.
    2:{ intros a b. apply generateUniqueQRCode_ok. }
    destruct Hall as [Hlen Hforall]. rewrite length_seq in Hlen.
    intros H. apply IH in H; [| unfold batchSize; lia].
    destruct H as (rest & Hcodes & Hrest & Hfor).
    exists (batchCodes ++ rest). rewrite app_assoc. repeat split.
    + exact Hcodes.
    + rewrite length_app, Hlen, Hrest. unfold batchSize. lia.
    + apply Forall_app. auto.
Qed.

(** The loop has fuel to spare: more of it changes nothing. *)
Lemma groupLoop_fuel slot count len s fuel i acc :
  count - i <= fuel ->
  groupLoop slot count len s (S fuel) i acc
  = groupLoop slot count len s fuel i acc.
Proof.
  revert i acc. induction fuel as [| fuel IH]; intros i acc Hfuel.
  - rewrite groupLoop_S. simpl.
    destruct (Nat.ltb_spec i count); [lia | reflexivity].
  - rewrite (groupLoop_S _ _ _ _ (S fuel)), (groupLoop_S _ _ _ _ fuel).
    destruct (Nat.ltb_spec i count) as [Hlt | Hge]; [| reflexivity].
    destruct (promiseAll _) as [batchCodes |]; unfold bind; [| reflexivity].
    apply IH. unfold batchSize. lia.
Qed.

Lemma generateMultiple_ok slot count len s codes :
  generateMultipleUniqueQRCodes slot count len s = Ok codes ->
  List.length codes = count /\ Forall (generatedFor len s) codes.
Proof.
  unfold generateMultipleUniqueQRCodes. intros H.
  apply groupLoop_ok in H; [| lia].
  destruct H as (rest & -> & Hlen & Hall). simpl. split; [lia | exact Hall].
Qed.

Lemma promiseAll_generate_throw (g : nat -> nat -> nat -> byte) len s l e :
  promiseAll (map (fun j => generateUniqueQRCode (g j) len s) l) = Throw e ->
  e = exhaustedMessage.
Proof.
  revert e. induction l as [| x l IHl]; simpl; [discriminate |].
  destruct (generateUniqueQRCode (g x) len s) eqn:Hx; simpl.
  - destruct (promiseAll _) eqn:Hl; simpl; [discriminate |].
    intros e H. injection H as <-. now apply IHl.
  - intros e H. injection H as <-. now apply generateLoop_throw in Hx.
Qed.

Lemma groupLoop_throw slot count len s fuel i acc k :
  count - i <= fuel -> i <= k < count ->
  (exists e, generateUniqueQRCode (slot k) len s = Throw e) ->
  groupLoop slot count len s fuel i acc = Throw exhaustedMessage.
Proof.
  revert i acc. induction fuel as [| fuel IH]; intros i acc Hfuel Hk Hthrow;
    [lia |].
  rewrite groupLoop_S. destruct (Nat.ltb_spec i count) as [Hlt | Hge]; [| lia].
  destruct (Nat.lt_ge_cases k (i + Nat.min batchSize (count - i))) as [Hin | Hout].
  - rewrite (promiseAll_throw
               (fun j => generateUniqueQRCode (slot (i + j)) len s)
               exhaustedMessage _ (k - i)).
    + reflexivity.
    + intros x e. apply generateLoop_throw.
    + apply in_seq. lia.
    + replace (i + (k - i)) with k by lia. exact Hthrow.
  - destruct (promiseAll _) as [batchCodes |] eqn:Hall; unfold bind.
    + apply IH; auto; unfold batchSize in *; lia.
    + f_equal.
      now apply (promiseAll_generate_throw (fun j => slot (i + j))) in Hall.
Qed.

(** *** Subsequences *)

Lemma subseq_refl {A : Type} (l : list A) : subseq l l.
Proof. induction l; [apply subseq_nil | now apply subseq_take]. Qed.

Lemma subseq_filter {A : Type} (p : A -> bool) (l : list A) :
  subseq (filter p l) l.
Proof.
  induction l as [| a l IH]; simpl; [apply subseq_nil |].
  destruct (p a); [now apply subseq_take | now apply subseq_skip].
Qed.

Lemma subseq_trans {A : Type} (l1 l2 l3 : list A) :
  subseq l1 l2 -> subseq l2 l3 -> subseq l1 l3.
Proof.
  intros H12 H23. revert l1 H12.
  induction H23 as [| x l2 l3 _ IH | x l2 l3 _ IH]; intros l1 H12.
  - exact H12.
  - apply subseq_skip. auto.
  - inversion H12; subst; [apply subseq_skip | apply subseq_take]; auto.
Qed.

Lemma subseq_map {A B : Type} (f : A -> B) (l1 l2 : list A) :
  subseq l1 l2 -> subseq (map f l1) (map f l2).
Proof.
  induction 1; simpl;
    [apply subseq_nil | now apply subseq_skip | now apply subseq_take].
Qed.

Lemma subseq_In {A : Type} (l1 l2 : list A) (x : A) :
  subseq l1 l2 -> In x l1 -> In x l2.
Proof.
  induction 1 as [| y l1 l2 _ IH | y l1 l2 _ IH]; simpl; auto.
  intros [-> | Hin]; auto.
Qed.

Lemma subseq_length {A : Type} (l1 l2 : list A) :
  subseq l1 l2 -> List.length l1 <= List.length l2.
Proof. induction 1; simpl; lia. Qed.

Lemma subseq_full {A : Type} (l1 l2 : list A) :
  subseq l1 l2 -> List.length l1 = List.length l2 -> l1 = l2.
Proof.
  induction 1 as [| y l1 l2 H IH | y l1 l2 H IH]; simpl; intros Hlen.
  - reflexivity.
  - apply subseq_length in H. lia.
  - f_equal. apply IH. lia.
Qed.

Lemma subseq_NoDup {A : Type} (l1 l2 : list A) :
  subseq l1 l2 -> NoDup l2 -> NoDup l1.
Proof.
  induction 1 as [| y l1 l2 H IH | y l1 l2 H IH]; intros Hnd.
  - constructor.
  - inversion Hnd; auto.
  - inversion Hnd as [| ? ? Hnotin Hnd']; subst. constructor; auto.
    intros Hin. apply Hnotin. eapply subseq_In; eauto.
Qed.

Lemma subseq_app {A : Type} (l l1 l2 : list A) :
  subseq l1 l2 -> subseq (l ++ l1) (l ++ l2).
Proof. intros H. induction l; simpl; [exact H | now apply subseq_take]. Qed.

(** *** The bulk insert *)

Lemma insertUnordered_spec (docs : list IQRCode) (s : Store) :
  exists inserted,
    insertUnordered docs s = (inserted, s ++ inserted)
    /\ subseq inserted docs.
Proof.
  revert s. induction docs as [| d ds IH]; intros s; simpl.
  - exists []. rewrite app_nil_r. split; [reflexivity | apply subseq_nil].
  - destruct (violatesUnique d s).
    + destruct (IH s) as (ins & Hins & Hsub). exists ins. split; auto.
      now apply subseq_skip.
    + destruct (IH (s ++ [d])) as (ins & Hins & Hsub). rewrite Hins.
      exists (d :: ins). rewrite <- app_assoc. split; [reflexivity |].
      now apply subseq_take.
Qed.

Lemma mapi_from_map {A B C : Type} (f : A -> nat -> B) (g : B -> C)
    (h : A -> nat -> C) (k : nat) (l : list A) :
  (forall a i, g (f a i) = h a i) ->
  map g (mapi_from f k l) = mapi_from h k l.
Proof.
  intros Hgf. revert k. induction l as [| a l IH]; intros k; simpl;
    [reflexivity |].
  now rewrite Hgf, IH.
Qed.

Lemma mapi_from_index {A : Type} (k : nat) (l : list A) :
  mapi_from (fun _ index => index + 1) k l = seq (k + 1) (List.length l).
Proof.
  revert k. induction l as [| a l IH]; intros k; simpl; [reflexivity |].
  f_equal. apply (IH (S k)).
Qed.

Lemma mapi_from_fst {A : Type} (k : nat) (l : list A) :
  mapi_from (fun a _ => a) k l = l.
Proof.
  revert k. induction l as [| a l IH]; intros k; simpl; [reflexivity |].
  now rewrite IH.
Qed.

Lemma mapi_from_const {A B : Type} (b : B) (k : nat) (l : list A) :
  mapi_from (fun _ _ => b) k l = repeat b (List.length l).
Proof.
  revert k. induction l as [| a l IH]; intros k; simpl; [reflexivity |].
  now rewrite IH.
Qed.

Lemma length_mapi_from {A B : Type} (f : A -> nat -> B) (k : nat) (l : list A) :
  List.length (mapi_from f k l) = List.length l.
Proof.
  revert k. induction l as [| a l IH]; intros k; simpl; [reflexivity |].
  now rewrite IH.
Qed.

Lemma newDocuments_numbers env u q m codes :
  map batchNumber (mapi (newDocument env u q m) codes)
  = seq 1 (List.length codes).
Proof.
  unfold mapi.
  rewrite (mapi_from_map _ batchNumber (fun _ index => index + 1))
    by reflexivity.
  apply mapi_from_index.
Qed.

Lemma newDocuments_codes env u q m codes :
  map code (mapi (newDocument env u q m) codes) = codes.
Proof.
  unfold mapi.
  rewrite (mapi_from_map _ code (fun c _ => c)) by reflexivity.
  apply mapi_from_fst.
Qed.

Lemma newDocuments_batch env u q m codes :
  map batchId (mapi (newDocument env u q m) codes)
  = repeat (batchIdOf env) (List.length codes).
Proof.
  unfold mapi.
  rewrite (mapi_from_map _ batchId (fun _ _ => batchIdOf env)) by reflexivity.
  apply mapi_from_const.
Qed.

Lemma mapi_from_In {A B : Type} (f : A -> nat -> B) (k : nat) (l : list A) (b : B) :
  In b (mapi_from f k l) -> exists a i, In a l /\ b = f a i.
Proof.
  revert k. induction l as [| a l IH]; intros k; simpl; [contradiction |].
  intros [<- | Hin]; [eauto |].
  destruct (IH _ Hin) as (a' & i & Ha & ->). eauto.
Qed.

(** With object metadata, the documents the handler builds are those of
    [newDocument]. *)
Lemma withDefault_metadata (m : option Metadata) :
  withDefault (MObject []) (option_map MObject m) = MObject (withDefault [] m).
Proof. destruct m; reflexivity. Qed.

(** What a generation request does to the store, whatever it answers: it
    either leaves it alone, or appends some of the documents built from the
    generated codes, in their order. *)
Lemma generate_effect rejects env u errs q len m s :
  (snd (generateBulkQRCodes rejects env (generateRequest u errs q len m) s) = s
   /\ statusCode
        (fst (generateBulkQRCodes rejects env (generateRequest u errs q len m) s))
      <> 201)
  \/ exists codes inserted,
       generateMultipleUniqueQRCodes (codeBytes env) q (withDefault 12 len) s
       = Ok codes
       /\ subseq inserted (mapi (newDocument env u q (withDefault [] m)) codes)
       /\ generateBulkQRCodes rejects env (generateRequest u errs q len m) s
          = (if rejects
                && (List.length inserted
                    <? List.length
                         (mapi (newDocument env u q (withDefault [] m)) codes))
             then serverError duplicateKeyMessage
             else respond 201
                    (JGenerated
                       (natString (List.length inserted)
                          ++ " QR codes generated successfully")%string
                       (batchIdOf env) (List.length inserted)
                       (map code inserted) (clock env 2) (User.email u)),
             s ++ inserted).
Proof.
  unfold generateBulkQRCodes, generateRequest. cbn [validationErrors input user
    GenerateBody.quantity GenerateBody.length GenerateBody.metadata].
  rewrite withDefault_metadata.
  destruct errs as [| e errs]; [| left; split; [reflexivity | discriminate]].
  destruct (10000 <? N.of_nat q)%N;
    [left; split; [reflexivity | discriminate] |].
  destruct (generateMultipleUniqueQRCodes _ q _ s) as [codes |] eqn:Hgen;
    [| left; split; [reflexivity | discriminate]].
  right. unfold insertMany.
  change (mapi _ codes)
    with (mapi (newDocument env u q (withDefault [] m)) codes).
  destruct (insertUnordered_spec
              (mapi (newDocument env u q (withDefault [] m)) codes) s)
    as (ins & Hins & Hsub).
  rewrite Hins. exists codes, ins. repeat split; auto.
  destruct (rejects && _); reflexivity.
Qed.

Lemma subseq_nil_l {A : Type} (l : list A) : subseq [] l.
Proof. induction l; [apply subseq_nil | now apply subseq_skip]. Qed.

Lemma filter_none {A : Type} (p : A -> bool) (l : list A) :
  (forall a, In a l -> p a = false) -> filter p l = [].
Proof.
  induction l as [| a l IH]; simpl; intros H; [reflexivity |].
  rewrite (H a) by auto. apply IH. auto.
Qed.

Lemma filter_all {A : Type} (p : A -> bool) (l : list A) :
  (forall a, In a l -> p a = true) -> filter p l = l.
Proof.
  induction l as [| a l IH]; simpl; intros H; [reflexivity |].
  rewrite (H a) by auto. f_equal. apply IH. auto.
Qed.

Lemma newDocuments_In env u q m codes d :
  In d (mapi (newDocument env u q m) codes) -> batchId d = batchIdOf env.
Proof.
  intros H. apply mapi_from_In in H. destruct H as (c & i & _ & ->).
  reflexivity.
Qed.

Lemma mapi_from_nth {A B : Type} (f : A -> nat -> B) (k : nat) (l : list A)
    (b : B) :
  In b (mapi_from f k l)
  <-> exists i a, nth_error l i = Some a /\ b = f a (k + i).
Proof.
  revert k. induction l as [| a l IH]; intros k; simpl.
  - split; [contradiction |]. intros (i & x & Hnth & _).
    destruct i; discriminate Hnth.
  - split.
    + intros [<- | Hin].
      * exists 0, a. rewrite Nat.add_0_r. split; reflexivity.
      * apply IH in Hin. destruct Hin as (i & x & Hnth & ->).
        exists (S i), x. split; [exact Hnth | f_equal; lia].
    + intros (i & x & Hnth & ->). destruct i as [| i]; simpl in Hnth.
      * injection Hnth as ->. left. now rewrite Nat.add_0_r.
      * right. apply IH. exists i, x. split; [exact Hnth | f_equal; lia].
Qed.

(** The documents found under a fresh batch id after a request are those
    the request appended, which are some of the documents it built. *)
Lemma persistedBatch_subseq rejects env u errs q len m s :
  (forall d, In d s -> batchId d <> batchIdOf env) ->
  persistedBatch rejects env (generateRequest u errs q len m) s = []
  \/ exists codes,
       generateMultipleUniqueQRCodes (codeBytes env) q (withDefault 12 len) s
       = Ok codes
       /\ List.length codes = q
       /\ subseq (persistedBatch rejects env (generateRequest u errs q len m) s)
                 (mapi (newDocument env u q (withDefault [] m)) codes).
Proof.
  intros Hfresh. unfold persistedBatch, batchOf.
  assert (Hold : filter (fun d => String.eqb (batchId d) (batchIdOf env)) s = []).
  { apply filter_none. intros d Hin. apply String.eqb_neq. auto. }
  destruct (generate_effect rejects env u errs q len m s)
    as [[-> _] | (codes & ins & Hgen & Hsub & ->)].
  - left. exact Hold.
  - right. exists codes. split; [exact Hgen |].
    cbn [snd]. rewrite filter_app, Hold. cbn [app].
    apply generateMultiple_ok in Hgen. destruct Hgen as [Hlen _].
    split; [exact Hlen |].
    rewrite filter_all; [exact Hsub |].
    intros d Hin. apply String.eqb_eq.
    eapply newDocuments_In, subseq_In; eauto.
Qed.

(** The batch numbers found under a fresh batch id after a request are
    those of the documents the request appended. *)
Lemma persistedNumbers_subseq rejects env u errs q len m s :
  (forall d, In d s -> batchId d <> batchIdOf env) ->
  subseq (persistedNumbers rejects env (generateRequest u errs q len m) s)
         (seq 1 q).
Proof.
  intros Hfresh.
  change (persistedNumbers rejects env (generateRequest u errs q len m) s)
    with (map batchNumber
            (persistedBatch rejects env (generateRequest u errs q len m) s)).
  destruct (persistedBatch_subseq rejects env u errs q len m s Hfresh)
    as [-> | (codes & _ & Hlen & Hsub)].
  - apply subseq_nil_l.
  - apply (subseq_map batchNumber) in Hsub.
    now rewrite newDocuments_numbers, Hlen in Hsub.
Qed.

(** C2 (as amended). Under a batch id new to the store, the batch numbers
    of the documents a generation request persists are, in store order, a
    subsequence of 1..Q for the requested quantity Q: without duplicates
    and each between 1 and Q.  They are the whole of 1..Q when all Q
    documents are persisted.  A batch number is the position its code was
    generated at, fixed before the insert: the persisted documents are, in
    order, some of the documents built from the generated codes, the code
    of a persisted document is the one generated at the position its batch
    number names, and the number of a position is present exactly when the
    document built at that position is in the store, so that a document
    dropped by the insert leaves its number out.  When the generator fails
    nothing is persisted. *)
Theorem batch_numbers_subsequence :
  forall rejects env u errs q len m s,
    (forall d, In d s -> batchId d <> batchIdOf env) ->
    subseq (persistedNumbers rejects env (generateRequest u errs q len m) s)
           (seq 1 q)
    /\ NoDup (persistedNumbers rejects env (generateRequest u errs q len m) s)
    /\ (forall n,
          In n (persistedNumbers rejects env (generateRequest u errs q len m) s)
          -> 1 <= n <= q)
    /\ (List.length
          (persistedNumbers rejects env (generateRequest u errs q len m) s) = q
        -> persistedNumbers rejects env (generateRequest u errs q len m) s
           = seq 1 q)
    /\ (forall codes,
          generateMultipleUniqueQRCodes (codeBytes env) q (withDefault 12 len) s
          = Ok codes ->
          subseq (persistedBatch rejects env (generateRequest u errs q len m) s)
                 (mapi (newDocument env u q (withDefault [] m)) codes)
          /\ (forall d,
                In d (persistedBatch rejects env
                        (generateRequest u errs q len m) s) ->
                nth_error codes (batchNumber d - 1) = Some (code d))
          /\ (forall i c,
                nth_error codes i = Some c ->
                (In (i + 1)
                    (persistedNumbers rejects env
                       (generateRequest u errs q len m) s)
                 <-> In (newDocument env u q (withDefault [] m) c i)
                        (snd (generateBulkQRCodes rejects env
                                (generateRequest u errs q len m) s)))))
    /\ (forall e,
          generateMultipleUniqueQRCodes (codeBytes env) q (withDefault 12 len) s
          = Throw e ->
          persistedNumbers rejects env (generateRequest u errs q len m) s = []).
Proof.
  intros rejects env u errs q len m s Hfresh.
  pose proof (persistedNumbers_subseq rejects env u errs q len m s Hfresh) as Hsub.
  pose proof (persistedBatch_subseq rejects env u errs q len m s Hfresh) as Hdocs.
  change (persistedNumbers rejects env (generateRequest u errs q len m) s)
    with (map batchNumber
            (persistedBatch rejects env (generateRequest u errs q len m) s))
    in *.
  split; [exact Hsub |].
  split; [eapply subseq_NoDup; [exact Hsub | apply seq_NoDup] |].
  split.
  { intros n Hn. eapply subseq_In in Hsub; [| exact Hn].
    apply in_seq in Hsub. lia. }
  split.
  { intros Hlen. apply subseq_full; [exact Hsub |]. now rewrite length_seq. }
  split.
  - intros codes Hgen.
    assert (Hbuilt : subseq
                       (persistedBatch rejects env
                          (generateRequest u errs q len m) s)
                       (mapi (newDocument env u q (withDefault [] m)) codes)).
    { destruct Hdocs as [-> | (codes' & Hgen' & _ & Hsub')].
      - apply subseq_nil_l.
      - rewrite Hgen in Hgen'. injection Hgen' as <-. exact Hsub'. }
    split; [exact Hbuilt |]. split.
    + intros d Hd. eapply subseq_In in Hd; [| exact Hbuilt].
      apply mapi_from_nth in Hd. destruct Hd as (i & c & Hnth & ->).
      cbn [batchNumber code newDocument].
      replace (0 + i + 1 - 1) with i by lia. exact Hnth.
    + intros i c Hnth. split.
      * intros Hin. apply in_map_iff in Hin. destruct Hin as (d & Hnum & Hd).
        assert (Hstored : In d (snd (generateBulkQRCodes rejects env
                                       (generateRequest u errs q len m) s)))
          by (unfold persistedBatch, batchOf in Hd;
              apply filter_In in Hd; apply Hd).
        eapply subseq_In in Hd; [| exact Hbuilt].
        apply mapi_from_nth in Hd. destruct Hd as (j & c' & Hnth' & ->).
        cbn [batchNumber newDocument] in Hnum.
        assert (j = i) by lia. subst j.
        rewrite Hnth in Hnth'. injection Hnth' as <-. exact Hstored.
      * intros Hin. apply in_map_iff.
        exists (newDocument env u q (withDefault [] m) c i).
        split; [reflexivity |].
        unfold persistedBatch, batchOf. apply filter_In.
        split; [exact Hin | apply String.eqb_refl].
  - intros e Hgen. destruct Hdocs as [-> | (codes & Hgen' & _)];
      [reflexivity | congruence].
Qed.

(** Three codes asked for while the first two slots draw the same bytes:
    the store keeps the documents of positions 1 and 3. *)
Lemma batch_numbers_subsequence_witness :
  (forall d, In d oneCodeStore -> batchId d <> batchIdOf twinEnv)
  /\ subseq (persistedNumbers true twinEnv
               (generateRequest maker [] 3 (Some 8) None) oneCodeStore)
            (seq 1 3)
  /\ NoDup (persistedNumbers true twinEnv
              (generateRequest maker [] 3 (Some 8) None) oneCodeStore)
  /\ (forall d,
        In d (persistedBatch true twinEnv
                (generateRequest maker [] 3 (Some 8) None) oneCodeStore) ->
        nth_error ["00000000"; "00000000"; "01010101"] (batchNumber d - 1)
        = Some (code d)).
Proof.
  assert (Hfresh : forall d, In d oneCodeStore -> batchId d <> batchIdOf twinEnv).
  { intros d [<- | []]. vm_compute. discriminate. }
  split; [exact Hfresh |].
  destruct (batch_numbers_subsequence true twinEnv maker [] 3 (Some 8) None
              oneCodeStore Hfresh) as (Hsub & Hnd & _ & _ & Htie & _).
  split; [exact Hsub |]. split; [exact Hnd |].
  assert (Hgen : generateMultipleUniqueQRCodes (codeBytes twinEnv) 3
                   (withDefault 12 (Some 8)) oneCodeStore
                 = Ok ["00000000"; "00000000"; "01010101"])
    by (vm_compute; reflexivity).
  destruct (Htie _ Hgen) as (_ & Hcodes & _). exact Hcodes.
Defined.

(** C2 (as stated) fails. Two slots of one group drew the same code; the
    insert kept the first and dropped the second, so 2 of the 3 requested
    documents are persisted, and their batch numbers are 1 and 3, not 1 and
    2.  This is so whether [insertMany] then rejects or resolves. *)
Lemma batch_numbers_gap :
  persistedNumbers true twinEnv (generateRequest maker [] 3 (Some 8) None) []
  = [1; 3]
  /\ persistedNumbers false twinEnv (generateRequest maker [] 3 (Some 8) None) []
     = [1; 3]
  /\ List.length
       (batchOf (batchIdOf twinEnv)
          (snd (generateBulkQRCodes true twinEnv
                  (generateRequest maker [] 3 (Some 8) None) []))) = 2
  /\ [1; 3] <> seq 1 2.
Proof. repeat split; try (vm_compute; reflexivity). discriminate. Qed.

(** C5 (as amended). When any one slot of a request runs out of attempts,
    the whole request is answered 500 with the generator's error and the
    store is left as it was: no code of the request is persisted or
    reported. *)
Theorem generate_exhausted_aborts :
  forall rejects env u q len m s k,
    (N.of_nat q <= 10000)%N ->
    k < q ->
    (exists e,
        generateUniqueQRCode (codeBytes env k) (withDefault 12 len) s = Throw e) ->
    generateBulkQRCodes rejects env (generateRequest u [] q len m) s
    = (serverError exhaustedMessage, s).
Proof.
  intros rejects env u q len m s k Hq Hk Hthrow.
  unfold generateBulkQRCodes, generateRequest. cbn [validationErrors input user
    GenerateBody.quantity GenerateBody.length GenerateBody.metadata].
  destruct (N.ltb_spec 10000 (N.of_nat q)) as [Hbig | _]; [lia |].
  unfold generateMultipleUniqueQRCodes.
  rewrite (groupLoop_throw _ q _ s q 0 [] k); auto; lia.
Qed.

Lemma generate_exhausted_aborts_witness :
  (N.of_nat 3 <= 10000)%N
  /\ 0 < 3
  /\ generateBulkQRCodes true plainEnv (generateRequest maker [] 3 (Some 8) None)
       [zeroCode]
     = (serverError exhaustedMessage, [zeroCode]).
Proof.
  assert (Hq : (N.of_nat 3 <= 10000)%N) by (vm_compute; discriminate).
  assert (Hk : 0 < 3) by lia.
  split; [exact Hq |]. split; [exact Hk |].
  apply (generate_exhausted_aborts true plainEnv maker 3 (Some 8) None
           [zeroCode] 0 Hq Hk).
  exists exhaustedMessage. vm_compute. reflexivity.
Defined.

(** C5 (as stated) fails. Slot 0 only ever draws the code the store already
    holds and exhausts its 100 attempts; slots 1 and 2 would each have
    produced a fresh code, yet the request is answered 500 and nothing is
    persisted. *)
Lemma generate_exhausted_loses_batch :
  generateUniqueQRCode (codeBytes plainEnv 0) 8 [zeroCode] = Throw exhaustedMessage
  /\ generateUniqueQRCode (codeBytes plainEnv 1) 8 [zeroCode] = Ok "01010101"
  /\ generateUniqueQRCode (codeBytes plainEnv 2) 8 [zeroCode] = Ok "02020202"
  /\ statusCode
       (fst (generateBulkQRCodes true plainEnv
               (generateRequest maker [] 3 (Some 8) None) [zeroCode])) = 500
  /\ snd (generateBulkQRCodes true plainEnv
            (generateRequest maker [] 3 (Some 8) None) [zeroCode])
     = [zeroCode].
Proof. repeat split; vm_compute; reflexivity. Qed.

Lemma matchesLowerHex_length lo hi c :
  matchesLowerHex lo hi c = true -> lo <= String.length c <= hi.
Proof.
  unfold matchesLowerHex. intros H.
  apply andb_true_iff in H. destruct H as [H _].
  apply andb_true_iff in H. destruct H as [Hlo Hhi].
  apply Nat.leb_le in Hlo. apply Nat.leb_le in Hhi. lia.
Qed.

(** C7. A request for 5 codes of length 10 that persists 5 documents is
    answered 201 with 5 codes, each matching [^[a-f0-9]{10}$]; the store
    gains, in generation order, one document per code, all with the batch id
    of the response and with batch numbers 1 to 5. *)
Theorem generate_five_of_ten :
  forall rejects env u m s,
    List.length
      (snd (generateBulkQRCodes rejects env
              (generateRequest u [] 5 (Some 10) m) s))
    = List.length s + 5 ->
    exists codes,
      generateBulkQRCodes rejects env (generateRequest u [] 5 (Some 10) m) s
      = (respond 201
           (JGenerated "5 QR codes generated successfully" (batchIdOf env) 5
              codes (clock env 2) (User.email u)),
         s ++ mapi (newDocument env u 5 (withDefault [] m)) codes)
      /\ List.length codes = 5
      /\ Forall (fun c => matchesLowerHex 10 10 c = true) codes
      /\ map code (mapi (newDocument env u 5 (withDefault [] m)) codes) = codes
      /\ map batchId (mapi (newDocument env u 5 (withDefault [] m)) codes)
         = repeat (batchIdOf env) 5
      /\ map batchNumber (mapi (newDocument env u 5 (withDefault [] m)) codes)
         = [1; 2; 3; 4; 5].
Proof.
  intros rejects env u m s Hfive.
  destruct (generate_effect rejects env u [] 5 (Some 10) m s)
    as [[Hsame _] | (codes & ins & Hgen & Hsub & Hrun)].
  { rewrite Hsame in Hfive. lia. }
  rewrite Hrun in Hfive |- *. cbn [snd] in Hfive.
  rewrite length_app in Hfive.
  apply generateMultiple_ok in Hgen. destruct Hgen as [Hlen Hall].
  cbn [withDefault] in Hall.
  assert (Hins : ins = mapi (newDocument env u 5 (withDefault [] m)) codes).
  { apply subseq_full; [exact Hsub |].
    unfold mapi. rewrite length_mapi_from. lia. }
  subst ins. exists codes.
  assert (Hdocs : List.length
                    (mapi (newDocument env u 5 (withDefault [] m)) codes) = 5)
    by (unfold mapi; now rewrite length_mapi_from).
  rewrite Hdocs, Nat.ltb_irrefl, andb_false_r.
  rewrite newDocuments_codes, newDocuments_batch, newDocuments_numbers, Hlen.
  repeat split; auto.
  eapply Forall_impl; [| exact Hall]. intros c [Hm _]. exact Hm.
Qed.

Lemma generate_five_of_ten_witness :
  List.length
    (snd (generateBulkQRCodes true plainEnv
            (generateRequest maker [] 5 (Some 10) None) oneCodeStore))
  = List.length oneCodeStore + 5
  /\ exists codes,
      fst (generateBulkQRCodes true plainEnv
             (generateRequest maker [] 5 (Some 10) None) oneCodeStore)
      = respond 201
          (JGenerated "5 QR codes generated successfully" (batchIdOf plainEnv) 5
             codes (clock plainEnv 2) (User.email maker))
      /\ List.length codes = 5.
Proof.
  assert (Hfive : List.length
                    (snd (generateBulkQRCodes true plainEnv
                            (generateRequest maker [] 5 (Some 10) None)
                            oneCodeStore))
                  = List.length oneCodeStore + 5)
    by (vm_compute; reflexivity).
  split; [exact Hfive |].
  destruct (generate_five_of_ten true plainEnv maker None oneCodeStore Hfive)
    as (codes & Hrun & Hlen & _).
  exists codes. rewrite Hrun. split; [reflexivity | exact Hlen].
Defined.

Example plainEnv_five_codes :
  generateMultipleUniqueQRCodes (codeBytes plainEnv) 5 10 oneCodeStore
  = Ok ["0000000000"; "0101010101"; "0202020202"; "0303030303"; "0404040404"].
Proof. vm_compute. reflexivity. Qed.

Example generateBatchId_sample :
  generateBatchId 1700000000000%N (fun _ => byteOf 171) = "batch_loyw3v28_abababab".
Proof. vm_compute. reflexivity. Qed.

(** ** Listing and deleting *)

Lemma insertByCreatedAtDesc_In d x l :
  In x (insertByCreatedAtDesc d l) -> x = d \/ In x l.
Proof.
  induction l as [| a l IH]; simpl.
  - intros [<- | []]. now left.
  - destruct (dateLeb (createdAt a) (createdAt d)); simpl.
    + intros [<- | H]; auto.
    + intros [<- | H]; auto. destruct (IH H); auto.
Qed.

Lemma sortByCreatedAtDesc_In x l :
  In x (sortByCreatedAtDesc l) -> In x l.
Proof.
  unfold sortByCreatedAtDesc. induction l as [| a l IH]; simpl; [auto |].
  intros H. apply insertByCreatedAtDesc_In in H. destruct H as [-> | H]; auto.
Qed.

Lemma In_skipn {A : Type} (n : nat) (l : list A) (x : A) :
  In x (skipn n l) -> In x l.
Proof.
  intros H. rewrite <- (firstn_skipn n l). apply in_or_app. now right.
Qed.

Lemma In_firstn {A : Type} (n : nat) (l : list A) (x : A) :
  In x (firstn n l) -> In x l.
Proof.
  intros H. rewrite <- (firstn_skipn n l). apply in_or_app. now left.
Qed.

Lemma skipLimit_In skip limit l out x :
  skipLimit skip limit l = Ok out -> In x out -> In x l.
Proof.
  unfold skipLimit. destruct (skip <? 0)%Z; [discriminate |].
  intros H. injection H as <-. intros Hin.
  apply (In_skipn (Z.to_nat skip)).
  destruct (limit =? 0)%Z; [exact Hin |].
  eapply In_firstn; eauto.
Qed.

Lemma filter_foreign_deleteOne (p : IQRCode -> bool) id s x :
  findOne (fun d => (_id d =? id)%N) s = Some x ->
  p x = false ->
  filter p (deleteOneById id s) = filter p s.
Proof.
  unfold findOne. induction s as [| a s IH]; simpl; [discriminate |].
  destruct (_id a =? id)%N.
  - intros H Hp. injection H as ->. now rewrite Hp.
  - intros H Hp. simpl. now rewrite (IH H Hp).
Qed.

Lemma filter_foreign_deleteMany (p other : IQRCode -> bool) s :
  (forall d, other d = true -> p d = false) ->
  filter other (snd (deleteMany p s)) = filter other s.
Proof.
  intros Hsep. unfold deleteMany. cbn [snd].
  induction s as [| a s IH]; simpl; [reflexivity |].
  destruct (other a) eqn:Ho.
  - rewrite (Hsep a Ho). simpl. now rewrite Ho, IH.
  - destruct (p a); simpl; [| rewrite Ho]; exact IH.
Qed.

Lemma filter_In_preserved {A : Type} (p : A -> bool) (l l' : list A) (x : A) :
  filter p l' = filter p l -> In x l -> p x = true -> In x l'.
Proof.
  intros Heq Hin Hp.
  assert (H : In x (filter p l)) by (apply filter_In; auto).
  rewrite <- Heq in H. now apply filter_In in H.
Qed.

Section QueryProperties.

Variable castObjectId : string -> option ObjectId.
Variable regexCompile : string -> option (string -> bool).

(** A query with [generatedBy] set from [req.user] only matches that
    user's documents, whatever else it asks for. *)
Lemma compileQuery_owner q uid p d :
  compileQuery castObjectId regexCompile (setGeneratedBy (Oid uid) q) = Ok p ->
  p d = true -> generatedBy d = uid.
Proof.
  unfold compileQuery. cbn [q_idIn q_status q_batchId q_generatedBy q_search
    setGeneratedBy optResult castRef bind].
  destruct (optResult (castAll castObjectId) (q_idIn q)); cbn [bind];
    [| discriminate].
  destruct (optResult _ (q_search q)); cbn [bind]; [| discriminate].
  intros H. injection H as <-. intros Hd.
  repeat (apply andb_true_iff in Hd; destruct Hd as [Hd ?]).
  cbn [holds] in *. now apply N.eqb_eq.
Qed.

Lemma find_In q s found d :
  find castObjectId regexCompile q s = Ok found ->
  In d found ->
  In d s /\ exists p, compileQuery castObjectId regexCompile q = Ok p
                      /\ p d = true.
Proof.
  unfold find. destruct (compileQuery _ _ q) as [p |]; cbn [bind];
    [| discriminate].
  intros H. injection H as <-. intros Hin. apply filter_In in Hin.
  destruct Hin. eauto.
Qed.

(** The list handler never changes the store, and for a manufacturer
    every document it sends is one of the store generated by the caller. *)
Lemma getQRCodes_scoped req s d :
  isManufacturer (user req) = true ->
  In d (listed (fst (getQRCodes castObjectId regexCompile req s))) ->
  In d s /\ generatedBy d = User._id (user req).
Proof.
  intros Hm. unfold getQRCodes. rewrite Hm. cbn [when].
  set (q := match ListQuery.search (input req) with
            | Some (String _ _ as r) => setSearch r _
            | _ => _
            end).
  destruct (find _ _ (setGeneratedBy _ q) s) as [found |] eqn:Hfind;
    cbn [bind]; [| intros []].
  destruct (skipLimit _ _ _) as [page |] eqn:Hpage; cbn [bind]; [| intros []].
  destruct (countDocuments _ _ _ s); cbn [bind]; [| intros []].
  cbn [fst listed json respond]. intros Hin.
  eapply skipLimit_In in Hin; [| exact Hpage].
  apply sortByCreatedAtDesc_In in Hin.
  destruct (find_In _ _ _ _ Hfind Hin) as (Hs & p & Hp & Hd).
  split; [exact Hs |]. eapply compileQuery_owner; eauto.
Qed.

Lemma getQRCodes_readonly req s :
  snd (getQRCodes castObjectId regexCompile req s) = s.
Proof.
  unfold getQRCodes.
  match goal with |- snd (match ?o with _ => _ end) = _ => destruct o end;
    reflexivity.
Qed.

Lemma deleteQRCode_scoped req s :
  isManufacturer (user req) = true ->
  filter (foreignTo (user req)) (snd (deleteQRCode castObjectId req s))
  = filter (foreignTo (user req)) s.
Proof.
  intros Hm. unfold deleteQRCode. rewrite Hm.
  destruct (castObjectId (input req)) as [id |]; [| reflexivity].
  destruct (findOne _ s) as [x |] eqn:Hfind; [| reflexivity].
  cbn [andb]. destruct (generatedBy x =? User._id (user req))%N eqn:Hown;
    cbn [negb snd]; [| reflexivity].
  eapply filter_foreign_deleteOne; [exact Hfind |].
  unfold foreignTo. now rewrite Hown.
Qed.

Lemma deleteManyBy_scoped q uid s n s' :
  deleteManyBy castObjectId regexCompile (setGeneratedBy (Oid uid) q) s
  = Ok (n, s') ->
  filter (fun d => negb (generatedBy d =? uid)%N) s'
  = filter (fun d => negb (generatedBy d =? uid)%N) s.
Proof.
  unfold deleteManyBy.
  destruct (compileQuery _ _ _) as [p |] eqn:Hp; cbn [bind]; [| discriminate].
  intros H. injection H as _ <-.
  apply (filter_foreign_deleteMany p). intros d Hd.
  destruct (p d) eqn:Hpd; [| reflexivity].
  apply (compileQuery_owner _ _ _ d Hp) in Hpd.
  apply negb_true_iff, N.eqb_neq in Hd. contradiction.
Qed.

Lemma bulkDeleteQRCodes_scoped req s :
  isManufacturer (user req) = true ->
  filter (foreignTo (user req)) (snd (bulkDeleteQRCodes castObjectId regexCompile req s))
  = filter (foreignTo (user req)) s.
Proof.
  intros Hm. unfold bulkDeleteQRCodes.
  destruct (validationErrors req); [| reflexivity].
  match goal with |- context [if ?c then _ else _] => destruct c end;
    [reflexivity |].
  match goal with |- context [match ?c with Some _ => _ | None => _ end] =>
    destruct c as [q |] end; [| reflexivity].
  rewrite Hm. cbn [when].
  destruct (find _ _ _ s) as [[| x found] |]; try reflexivity.
  destruct (deleteManyBy _ _ _ s) as [[n s'] |] eqn:Hdel; [| reflexivity].
  cbn [snd]. unfold foreignTo. eapply deleteManyBy_scoped; eauto.
Qed.

End QueryProperties.

(** C8. For a manufacturer, whatever the request and the store: the list
    handler sends only documents of the store whose [generatedBy] is the
    caller's id (a [generatedBy] filter in the query string is overridden),
    and neither the single delete nor the bulk delete removes a document
    whose [generatedBy] is somebody else's. *)
Theorem manufacturer_scope :
  forall (castObjectId : string -> option ObjectId)
         (regexCompile : string -> option (string -> bool))
         (u : User.t) (errs : list string)
         (lq : ListQuery.t) (id : string) (body : BulkDeleteBody.t) (s : Store),
    User.userType u = MANUFACTURER ->
    (forall d,
        In d (listed (fst (getQRCodes castObjectId regexCompile
                             {| user := u; validationErrors := errs; input := lq |}
                             s))) ->
        In d s /\ generatedBy d = User._id u)
    /\ (forall d,
           In d s -> generatedBy d <> User._id u ->
           In d (snd (deleteQRCode castObjectId
                        {| user := u; validationErrors := errs; input := id |} s)))
    /\ (forall d,
           In d s -> generatedBy d <> User._id u ->
           In d (snd (bulkDeleteQRCodes castObjectId regexCompile
                        {| user := u; validationErrors := errs; input := body |}
                        s))).
Proof.
  intros castObjectId regexCompile u errs lq id body s Hu.
  assert (Hm : isManufacturer u = true) by (unfold isManufacturer; now rewrite Hu).
  split; [| split].
  - intros d Hin.
    apply (getQRCodes_scoped castObjectId regexCompile
             {| user := u; validationErrors := errs; input := lq |} s d Hm Hin).
  - intros d Hin Hne.
    apply (filter_In_preserved (foreignTo u) s); auto.
    + apply (deleteQRCode_scoped castObjectId
               {| user := u; validationErrors := errs; input := id |} s Hm).
    + unfold foreignTo. now apply negb_true_iff, N.eqb_neq.
  - intros d Hin Hne.
    apply (filter_In_preserved (foreignTo u) s); auto.
    + apply (bulkDeleteQRCodes_scoped castObjectId regexCompile
               {| user := u; validationErrors := errs; input := body |} s Hm).
    + unfold foreignTo. now apply negb_true_iff, N.eqb_neq.
Qed.

Lemma manufacturer_scope_witness :
  User.userType maker = MANUFACTURER
  /\ (forall d,
         In d (listed (fst (getQRCodes sampleCast literalRegex
                              {| user := maker; validationErrors := [];
                                 input := pryingQuery |} sharedStore))) ->
         In d sharedStore /\ generatedBy d = User._id maker)
  /\ (forall d,
         In d sharedStore -> generatedBy d <> User._id maker ->
         In d (snd (deleteQRCode sampleCast
                      {| user := maker; validationErrors := [];
                         input := "000000000000000000000003" |} sharedStore))).
Proof.
  split; [reflexivity |].
  destruct (manufacturer_scope sampleCast literalRegex maker [] pryingQuery
              "000000000000000000000003"
              {| BulkDeleteBody.qrCodeIds := None;
                 BulkDeleteBody.batchId := Some "batch_r" |}
              sharedStore eq_refl) as (Hlist & Hone & _).
  split; assumption.
Defined.

(** [maker] asks for [rival]'s documents and gets its own two. *)
Example getQRCodes_prying :
  getQRCodes sampleCast literalRegex
    {| user := maker; validationErrors := []; input := pryingQuery |} sharedStore
  = (respond 200 (JList [makerFirst; makerSecond] 1 (Some 1%Z) 2 50), sharedStore).
Proof. vm_compute. reflexivity. Qed.

(** [admin], with the same query, gets [rival]'s document. *)
Example getQRCodes_admin :
  listed (fst (getQRCodes sampleCast literalRegex
                 {| user := admin; validationErrors := []; input := pryingQuery |}
                 sharedStore))
  = [rivalOnly].
Proof. vm_compute. reflexivity. Qed.

Example deleteQRCode_foreign :
  deleteQRCode sampleCast
    {| user := maker; validationErrors := [];
       input := "000000000000000000000003" |} sharedStore
  = (respond 403 (JMessage "Access denied."), sharedStore).
Proof. vm_compute. reflexivity. Qed.

Example deleteQRCode_own :
  snd (deleteQRCode sampleCast
         {| user := maker; validationErrors := [];
            input := "000000000000000000000001" |} sharedStore)
  = [makerSecond; rivalOnly].
Proof. vm_compute. reflexivity. Qed.

Example bulkDelete_foreign_batch :
  bulkDeleteQRCodes sampleCast literalRegex
    (bulkDeleteRequest maker [] None (Some "batch_r")) sharedStore
  = (respond 404 (JMessage "No QR codes found to delete."), sharedStore).
Proof. vm_compute. reflexivity. Qed.

(** *** Bulk delete with both a batch and an id list *)

Lemma compileQuery_batch castObjectId regexCompile u b :
  exists p,
    compileQuery castObjectId regexCompile
      (when (isManufacturer u) (setGeneratedBy (Oid (User._id u)))
            (setBatchId b emptyQuery)) = Ok p
    /\ forall d, p d = String.eqb (batchId d) b && visible u d.
Proof.
  unfold visible. destruct (isManufacturer u); cbn [when].
  - eexists. split; [reflexivity |]. intros d. cbn [holds q_status q_batchId
      setGeneratedBy setBatchId emptyQuery andb].
    now rewrite andb_true_r.
  - eexists. split; [reflexivity |]. intros d. cbn [holds q_status q_batchId
      setBatchId emptyQuery andb].
    now rewrite !andb_true_r.
Qed.

(** C10. When the body has a (non-empty) [batchId], the [qrCodeIds] next to
    it are ignored: the handler answers and acts exactly as if they were
    absent.  What stays in the store are the documents outside the batch
    and those of the batch the caller cannot reach: a document named in the
    id list but outside the batch stays, and every document of the batch
    within the caller's reach goes, named or not. *)
Theorem bulk_delete_batch_overrides_ids :
  forall (castObjectId : string -> option ObjectId)
         (regexCompile : string -> option (string -> bool))
         (u : User.t) (ids : list string) (c : ascii) (rest : string) (s : Store),
    bulkDeleteQRCodes castObjectId regexCompile
      (bulkDeleteRequest u [] (Some ids) (Some (String c rest))) s
    = bulkDeleteQRCodes castObjectId regexCompile
        (bulkDeleteRequest u [] None (Some (String c rest))) s
    /\ snd (bulkDeleteQRCodes castObjectId regexCompile
              (bulkDeleteRequest u [] (Some ids) (Some (String c rest))) s)
       = filter (fun d => negb (String.eqb (batchId d) (String c rest)
                                && visible u d)) s.
Proof.
  intros castObjectId regexCompile u ids c rest s.
  split; [reflexivity |].
  unfold bulkDeleteQRCodes, bulkDeleteRequest.
  cbn [validationErrors input user BulkDeleteBody.qrCodeIds
       BulkDeleteBody.batchId truthy negb andb].
  unfold find, deleteManyBy.
  destruct (compileQuery_batch castObjectId regexCompile u (String c rest))
    as (p & -> & Hp).
  cbn [bind].
  assert (Hneg : filter (fun d => negb (p d)) s
                 = filter (fun d => negb (String.eqb (batchId d) (String c rest)
                                          && visible u d)) s).
  { apply filter_ext. intros d. now rewrite Hp. }
  destruct (filter p s) as [| x found] eqn:Hfound.
  - cbn [snd]. rewrite <- Hneg. symmetry. apply filter_all.
    intros d Hin. destruct (p d) eqn:Hpd; [| reflexivity].
    assert (Hd : In d (filter p s)) by (apply filter_In; auto).
    rewrite Hfound in Hd. destruct Hd.
  - unfold deleteMany. cbn [snd]. exact Hneg.
Qed.

(** [admin] names [rival]'s document in the id list and [maker]'s batch as
    the batch: the batch goes, the named document stays. *)
Example bulkDelete_both :
  bulkDeleteQRCodes sampleCast literalRegex
    (bulkDeleteRequest admin [] (Some ["000000000000000000000003"])
       (Some "batch_m")) sharedStore
  = (respond 200
       (JBulkDeleted "2 QR code(s) deleted successfully" 2
          [summary makerFirst; summary makerSecond]),
     [rivalOnly]).
Proof. vm_compute. reflexivity. Qed.

(** With the id list alone, the named document goes. *)
Example bulkDelete_ids_only :
  snd (bulkDeleteQRCodes sampleCast literalRegex
         (bulkDeleteRequest admin [] (Some ["000000000000000000000003"]) None)
         sharedStore)
  = [makerFirst; makerSecond].
Proof. vm_compute. reflexivity. Qed.

(** * Further properties *)

(** ** The generator *)

Lemma findOne_hasCode (s : Store) (c : string) :
  findOne (fun d => String.eqb (code d) c) s = None <-> hasCode s c = false.
Proof.
  unfold findOne, hasCode. induction s as [| d s IH]; simpl; [tauto |].
  destruct (String.eqb (code d) c); simpl; [split; discriminate | exact IH].
Qed.

(** The loop returns the first candidate the store does not hold, and
    throws when every remaining candidate is held. *)
Lemma generateLoop_first draw len s remaining attempts :
  (exists k,
      k < remaining
      /\ hasCode s (candidate draw len (attempts + k)) = false
      /\ (forall j, j < k -> hasCode s (candidate draw len (attempts + j)) = true)
      /\ generateLoop draw len s remaining attempts
         = Ok (candidate draw len (attempts + k)))
  \/ ((forall j, j < remaining ->
                 hasCode s (candidate draw len (attempts + j)) = true)
      /\ generateLoop draw len s remaining attempts = Throw exhaustedMessage).
Proof.
  revert attempts. induction remaining as [| r IH]; intros attempts.
  - right. split; [intros j Hj; lia | reflexivity].
  - cbn [generateLoop]. fold (candidate draw len attempts).
    destruct (findOne _ s) as [d |] eqn:Hfind.
    + assert (Hheld : hasCode s (candidate draw len attempts) = true).
      { destruct (hasCode s (candidate draw len attempts)) eqn:Hh; [reflexivity |].
        apply findOne_hasCode in Hh. congruence. }
      destruct (IH (S attempts)) as [(k & Hk & Hfree & Hbefore & Hrun) | [Hall Hrun]].
      * left. exists (S k). replace (attempts + S k) with (S attempts + k) by lia.
        repeat split; auto; [lia |].
        intros [| j] Hj; [now rewrite Nat.add_0_r |].
        replace (attempts + S j) with (S attempts + j) by lia. apply Hbefore. lia.
      * right. split; [| exact Hrun].
        intros [| j] Hj; [now rewrite Nat.add_0_r |].
        replace (attempts + S j) with (S attempts + j) by lia. apply Hall. lia.
    + left. exists 0. rewrite Nat.add_0_r. repeat split; [lia | | intros j Hj; lia].
      now apply findOne_hasCode.
Qed.

(** X1. What [generateUniqueQRCode] returns is the first of its (at most
    100) candidates that the store does not hold: every earlier candidate
    is held, the returned one is not, it has exactly the requested length
    and only lower-case hexadecimal digits, and for a length from 8 to 20 it
    passes [isValidQRCode]. *)
Theorem generateUniqueQRCode_first_fresh :
  forall draw len s c,
    generateUniqueQRCode draw len s = Ok c ->
    (exists a,
        a < maxAttempts
        /\ c = candidate draw len a
        /\ forall j, j < a -> hasCode s (candidate draw len j) = true)
    /\ hasCode s c = false
    /\ String.length c = len
    /\ allChars isLowerHex c = true
    /\ (8 <= len <= 20 -> isValidQRCode c = true).
Proof.
  intros draw len s c Hrun.
  pose proof (generateLoop_ok _ _ _ _ _ _ Hrun) as (Hlen & Hhex & Habsent).
  unfold generateUniqueQRCode in Hrun.
  destruct (generateLoop_first draw len s maxAttempts 0)
    as [(k & Hk & Hfree & Hbefore & Hk_run) | [_ Hthrow]]; [| congruence].
  rewrite Hk_run in Hrun. injection Hrun as <-. simpl in *.
  repeat split; auto.
  - exists k. auto.
  - intros Hrange. apply matchesLowerHex_valid. unfold matchesLowerHex.
    rewrite Hhex, Hlen.
    replace (8 <=? len) with true by (symmetry; apply Nat.leb_le; lia).
    replace (len <=? 20) with true by (symmetry; apply Nat.leb_le; lia).
    reflexivity.
Qed.

Lemma generateUniqueQRCode_first_fresh_witness :
  generateUniqueQRCode (codeBytes plainEnv 1) 8 [zeroCode] = Ok "01010101"
  /\ hasCode [zeroCode] "01010101" = false
  /\ String.length "01010101" = 8.
Proof.
  assert (Hrun : generateUniqueQRCode (codeBytes plainEnv 1) 8 [zeroCode]
                 = Ok "01010101") by (vm_compute; reflexivity).
  split; [exact Hrun |].
  destruct (generateUniqueQRCode_first_fresh _ _ _ _ Hrun) as (_ & Hfree & Hlen & _).
  split; assumption.
Defined.

(** X2. [generateUniqueQRCode] throws exactly when the store already holds
    all 100 candidates it draws; the error is then the exhausted-budget
    message, the only one it has. *)
Theorem generateUniqueQRCode_exhausted_iff :
  forall draw len s,
    (generateUniqueQRCode draw len s = Throw exhaustedMessage
     <-> forall a, a < maxAttempts -> hasCode s (candidate draw len a) = true)
    /\ (forall e, generateUniqueQRCode draw len s = Throw e -> e = exhaustedMessage).
Proof.
  intros draw len s. split; [| intros e; apply generateLoop_throw].
  unfold generateUniqueQRCode.
  destruct (generateLoop_first draw len s maxAttempts 0)
    as [(k & Hk & Hfree & _ & Hrun) | [Hall Hrun]]; rewrite Hrun; simpl in *.
  - split; [discriminate |]. intros Hall. rewrite (Hall k Hk) in Hfree.
    discriminate.
  - split; auto.
Qed.

(** *** Grouping *)

Lemma promiseAll_app {A : Type} (l1 l2 : list (Result A)) :
  promiseAll (l1 ++ l2)
  = bind (promiseAll l1)
         (fun a => bind (promiseAll l2) (fun b => Ok (a ++ b))).
Proof.
  induction l1 as [| r l1 IH]; simpl.
  - destruct (promiseAll l2); reflexivity.
  - destruct r as [a |]; simpl; [| reflexivity]. rewrite IH.
    destruct (promiseAll l1); simpl; [| reflexivity].
    destruct (promiseAll l2); reflexivity.
Qed.

Lemma map_seq_shift {B : Type} (g : nat -> B) (i n : nat) :
  map (fun k => g (i + k)) (seq 0 n) = map g (seq i n).
Proof.
  revert i. induction n as [| n IH]; intros i; simpl; [reflexivity |].
  rewrite Nat.add_0_r. f_equal.
  rewrite <- seq_shift, map_map.
  rewrite <- (IH (S i)). apply map_ext. intros k. f_equal. lia.
Qed.

Lemma groupLoop_flat slot count len s fuel i acc :
  count - i <= fuel ->
  groupLoop slot count len s fuel i acc
  = bind (promiseAll
            (map (fun k => generateUniqueQRCode (slot k) len s)
                 (seq i (count - i))))
         (fun codes => Ok (acc ++ codes)).
Proof.
  revert i acc. induction fuel as [| fuel IH]; intros i acc Hfuel.
  - replace (count - i) with 0 by lia. simpl. now rewrite app_nil_r.
  - rewrite groupLoop_S. destruct (Nat.ltb_spec i count) as [Hlt | Hge].
    2:{ replace (count - i) with 0 by lia. simpl. now rewrite app_nil_r. }
    rewrite (map_seq_shift (fun k => generateUniqueQRCode (slot k) len s)).
    set (size := Nat.min batchSize (count - i)).
    replace (count - i) with (size + (count - (i + batchSize)))
      by (unfold size, batchSize; lia).
    rewrite seq_app, map_app, promiseAll_app.
    destruct (promiseAll (map _ (seq i size))) as [batchCodes |]; simpl;
      [| reflexivity].
    rewrite IH by (unfold batchSize; lia).
    destruct (Nat.le_gt_cases (count - i) batchSize) as [Hlast | Hmore].
    + replace (count - (i + batchSize)) with 0 by lia. simpl.
      now rewrite !app_nil_r.
    + replace (i + size) with (i + batchSize) by (unfold size; lia).
      destruct (promiseAll _); simpl; [now rewrite app_assoc | reflexivity].
Qed.

Lemma promiseAll_nth {B : Type} (g : nat -> Result B) (dflt : B) (n i : nat)
    (out : list B) :
  promiseAll (map g (seq i n)) = Ok out ->
  List.length out = n /\ forall k, k < n -> g (i + k) = Ok (nth k out dflt).
Proof.
  revert i out. induction n as [| n IH]; intros i out; simpl.
  - intros H. injection H as <-. split; [reflexivity | intros k Hk; lia].
  - destruct (g i) as [b |] eqn:Hb; simpl; [| discriminate].
    destruct (promiseAll _) as [rest |] eqn:Hrest; simpl; [| discriminate].
    intros H. injection H as <-. destruct (IH (S i) rest Hrest) as [Hlen Hnth].
    split; [simpl; now rewrite Hlen |].
    intros [| k] Hk; simpl.
    + now rewrite Nat.add_0_r.
    + replace (i + S k) with (S i + k) by lia. apply Hnth. lia.
Qed.

(** X3. Working in groups of 100 is invisible in the result:
    [generateMultipleUniqueQRCodes] returns what a single [Promise.all]
    over all [count] calls of [generateUniqueQRCode] would, so on success
    there is one code per slot, in slot order, and no request at all
    ([count = 0]) gives the empty list. *)
Theorem generateMultiple_is_promiseAll :
  forall slot count len s,
    generateMultipleUniqueQRCodes slot count len s
    = promiseAll
        (map (fun k => generateUniqueQRCode (slot k) len s) (seq 0 count))
    /\ (forall codes,
           generateMultipleUniqueQRCodes slot count len s = Ok codes ->
           List.length codes = count
           /\ forall k, k < count ->
                        generateUniqueQRCode (slot k) len s
                        = Ok (nth k codes EmptyString)).
Proof.
  intros slot count len s.
  assert (Hflat : generateMultipleUniqueQRCodes slot count len s
                  = promiseAll
                      (map (fun k => generateUniqueQRCode (slot k) len s)
                           (seq 0 count))).
  { unfold generateMultipleUniqueQRCodes.
    rewrite groupLoop_flat by lia. rewrite Nat.sub_0_r.
    destruct (promiseAll _); reflexivity. }
  split; [exact Hflat |].
  rewrite Hflat. intros codes Hrun.
  apply (promiseAll_nth _ EmptyString) in Hrun. exact Hrun.
Qed.

Lemma generateMultiple_is_promiseAll_witness :
  generateMultipleUniqueQRCodes (codeBytes plainEnv) 5 10 oneCodeStore
  = Ok ["0000000000"; "0101010101"; "0202020202"; "0303030303"; "0404040404"]
  /\ generateUniqueQRCode (codeBytes plainEnv 3) 10 oneCodeStore
     = Ok "0303030303".
Proof.
  assert (Hrun : generateMultipleUniqueQRCodes (codeBytes plainEnv) 5 10 oneCodeStore
                 = Ok ["0000000000"; "0101010101"; "0202020202"; "0303030303";
                       "0404040404"]) by (vm_compute; reflexivity).
  split; [exact Hrun |].
  destruct (proj2 (generateMultiple_is_promiseAll (codeBytes plainEnv) 5 10
                     oneCodeStore) _ Hrun) as [_ Hnth].
  apply (Hnth 3). lia.
Defined.

Lemma generateUniqueQRCode_exhausted_iff_witness :
  generateUniqueQRCode (codeBytes plainEnv 0) 8 [zeroCode] = Throw exhaustedMessage.
Proof.
  apply (proj1 (generateUniqueQRCode_exhausted_iff (codeBytes plainEnv 0) 8
                  [zeroCode])).
  intros a _. reflexivity.
Defined.

(** *** Batch ids *)

Lemma digitValue36_digit36 (m : N) :
  (m < 36)%N -> digitValue36 (digit36 m) = Some m.
Proof.
  intros Hm. rewrite <- (N2Nat.id m).
  assert (Hn : N.to_nat m < 36) by lia.
  generalize dependent (N.to_nat m). intros n Hn.
  do 36 (destruct n as [| n]; [reflexivity |]). lia.
Qed.

(** The digits written in front of [acc] read back as [n]. *)
Lemma parse36From_toString36_aux (fuel : nat) (n : N) (acc : string) :
  (n < 36 ^ N.of_nat fuel)%N ->
  exists k,
    forall v,
      parse36From v (toString36_aux fuel n acc)
      = parse36From (v * 36 ^ k + n)%N acc.
Proof.
  revert n acc. induction fuel as [| fuel IH]; intros n acc Hn.
  - exists 0%N. intros v. simpl in *. f_equal. lia.
  - cbn [toString36_aux].
    assert (Hmod : (n mod 36 < 36)%N) by (apply N.mod_lt; lia).
    pose proof (N.div_mod n 36 ltac:(lia)) as Hdiv.
    destruct (N.eqb_spec (n / 36) 0) as [Hzero | Hnz].
    + exists 1%N. intros v. cbn [parse36From].
      rewrite (digitValue36_digit36 _ Hmod). f_equal. lia.
    + destruct (IH (n / 36)%N (String (digit36 (n mod 36)) acc)) as [k Hk].
      { apply N.Div0.div_lt_upper_bound.
        rewrite Nat2N.inj_succ, N.pow_succ_r' in Hn. exact Hn. }
      exists (N.succ k). intros v. rewrite Hk. cbn [parse36From].
      rewrite (digitValue36_digit36 _ Hmod). f_equal.
      rewrite N.pow_succ_r'. lia.
Qed.

Lemma toString36_aux_nonempty fuel n acc :
  toString36_aux (S fuel) n acc <> EmptyString.
Proof.
  revert n acc. induction fuel as [| fuel IH]; intros n acc.
  - cbn [toString36_aux]. destruct (n / 36 =? 0)%N; discriminate.
  - change (toString36_aux (S (S fuel)) n acc)
      with (if (n / 36 =? 0)%N then String (digit36 (n mod 36)) acc
            else toString36_aux (S fuel) (n / 36)
                   (String (digit36 (n mod 36)) acc)).
    destruct (n / 36 =? 0)%N; [discriminate | apply IH].
Qed.

Lemma toString36_fuel (n : N) :
  (n < 36 ^ N.of_nat (S (N.to_nat (N.size n))))%N.
Proof.
  rewrite Nat2N.inj_succ, N2Nat.id.
  destruct n as [| p]; [reflexivity |].
  apply N.lt_le_trans with (2 ^ N.succ (N.size (N.pos p)))%N.
  - apply N.lt_trans with (2 ^ N.size (N.pos p))%N.
    + apply N.size_gt.
    + apply N.pow_lt_mono_r; lia.
  - apply N.pow_le_mono_l. lia.
Qed.

Lemma parse36_toString36 :
  forall n : N, parse36 (toString36 n) = Some n.
Proof.
  intros n. unfold parse36, toString36.
  destruct (toString36_aux _ n EmptyString) eqn:Hs.
  - exfalso. eapply toString36_aux_nonempty; eauto.
  - rewrite <- Hs.
    destruct (parse36From_toString36_aux (S (N.to_nat (N.size n))) n EmptyString
                (toString36_fuel n)) as [k Hk].
    rewrite Hk. simpl. f_equal.
Qed.

(** X4. [toString(36)] always has fuel for every digit: what it writes is
    never empty and reads back, as base 36, to the number it was given. *)
Theorem toString36_roundtrip :
  forall n : N, parse36 (toString36 n) = Some n.
Proof. exact parse36_toString36. Qed.

Lemma hex_byte_roundtrip (b : byte) :
  match hexValue (hexDigit (Byte.to_N b / 16)),
        hexValue (hexDigit (Byte.to_N b mod 16)) with
  | Some h, Some l => Byte.of_N (16 * h + l)
  | _, _ => None
  end = Some b.
Proof. destruct b; reflexivity. Qed.

Lemma fromHex_toHex :
  forall bytes : list byte, fromHex (toHex bytes) = Some bytes.
Proof.
  induction bytes as [| b rest IH]; [reflexivity |].
  cbn [toHex fromHex]. rewrite IH.
  pose proof (hex_byte_roundtrip b) as Hb.
  destruct (hexValue (hexDigit (Byte.to_N b / 16))) as [h |]; [| discriminate].
  destruct (hexValue (hexDigit (Byte.to_N b mod 16))) as [l |]; [| discriminate].
  now rewrite Hb.
Qed.

(** X5. [toString('hex')] loses nothing: the text decodes back to the bytes
    it was made from, so two byte sequences with the same text are equal. *)
Theorem toHex_roundtrip :
  forall bytes : list byte, fromHex (toHex bytes) = Some bytes.
Proof. exact fromHex_toHex. Qed.

Lemma append_inj_length (a1 b1 a2 b2 : string) :
  String.length a1 = String.length a2 ->
  (a1 ++ b1)%string = (a2 ++ b2)%string -> a1 = a2 /\ b1 = b2.
Proof.
  revert a2. induction a1 as [| c a1 IH]; intros [| c2 a2]; simpl;
    try discriminate.
  - auto.
  - intros Hlen H. injection Hlen as Hlen. injection H as -> H.
    destruct (IH a2 Hlen H) as [-> ->]. auto.
Qed.

Lemma length_append (a b : string) :
  String.length (a ++ b)%string = String.length a + String.length b.
Proof. induction a as [| c a IH]; simpl; [reflexivity | now rewrite IH]. Qed.

(** X6. A batch id is ["batch_"], the clock in base 36, ["_"] and eight
    hexadecimal digits; two batch ids are equal only when they were made in
    the same millisecond from the same four random bytes. *)
Theorem generateBatchId_injective :
  forall now1 now2 source1 source2,
    generateBatchId now1 source1 = generateBatchId now2 source2 ->
    now1 = now2 /\ forall i, i < 4 -> source1 i = source2 i.
Proof.
  intros now1 now2 source1 source2 H. unfold generateBatchId in H.
  cbn [String.append] in H.
  repeat match type of H with
         | String _ _ = String _ _ => injection H as H
         end.
  assert (Hlen : String.length (toString36 now1) = String.length (toString36 now2)).
  { apply (f_equal String.length) in H.
    rewrite !length_append in H. cbn [String.length String.append] in H. lia. }
  destruct (append_inj_length _ _ _ _ Hlen H) as [Ht Hrest].
  split.
  - pose proof (parse36_toString36 now1) as H1.
    rewrite Ht, parse36_toString36 in H1. now injection H1.
  - assert (Hhex : toHex (randomBytes source1 4) = toHex (randomBytes source2 4)).
    { apply (f_equal (fun x => match x with
                               | String _ r => r
                               | EmptyString => EmptyString
                               end)) in Hrest.
      exact Hrest. }
    apply (f_equal fromHex) in Hhex. rewrite !fromHex_toHex in Hhex.
    injection Hhex as H0 H1 H2 H3.
    intros i Hi. destruct i as [| [| [| [| i]]]]; auto. lia.
Qed.

Lemma generateBatchId_injective_witness :
  generateBatchId 1700000000000%N (fun _ => byteOf 171)
  = generateBatchId 1700000000000%N (fun i => byteOf (171 + 256 * i))
  /\ forall i, i < 4 -> byteOf 171 = byteOf (171 + 256 * i).
Proof.
  assert (Hsame : generateBatchId 1700000000000%N (fun _ => byteOf 171)
                  = generateBatchId 1700000000000%N
                      (fun i => byteOf (171 + 256 * i)))
    by (vm_compute; reflexivity).
  split; [exact Hsame |].
  apply (proj2 (generateBatchId_injective _ _ _ _ Hsame)).
Defined.

(** ** Generation requests *)

Lemma generate_outcome rejects env u errs q len m s :
  (generateBulkQRCodes rejects env (generateRequest u errs q len m) s
   = (fst (generateBulkQRCodes rejects env (generateRequest u errs q len m) s), s)
   /\ statusCode
        (fst (generateBulkQRCodes rejects env (generateRequest u errs q len m) s))
      <> 201
   /\ reportedCodes
        (fst (generateBulkQRCodes rejects env (generateRequest u errs q len m) s))
      = []
   /\ (errs <> [] \/ (10000 < N.of_nat q)%N
       \/ exists e, generateMultipleUniqueQRCodes (codeBytes env) q
                      (withDefault 12 len) s = Throw e))
  \/ exists codes inserted,
       errs = [] /\ (N.of_nat q <= 10000)%N
       /\ generateMultipleUniqueQRCodes (codeBytes env) q (withDefault 12 len) s
          = Ok codes
       /\ subseq inserted (mapi (newDocument env u q (withDefault [] m)) codes)
       /\ generateBulkQRCodes rejects env (generateRequest u errs q len m) s
          = (if rejects
                && (List.length inserted
                    <? List.length
                         (mapi (newDocument env u q (withDefault [] m)) codes))
             then serverError duplicateKeyMessage
             else respond 201
                    (JGenerated
                       (natString (List.length inserted)
                          ++ " QR codes generated successfully")%string
                       (batchIdOf env) (List.length inserted)
                       (map code inserted) (clock env 2) (User.email u)),
             s ++ inserted).
Proof.
  unfold generateBulkQRCodes, generateRequest. cbn [validationErrors input user
    GenerateBody.quantity GenerateBody.length GenerateBody.metadata].
  rewrite withDefault_metadata.
  destruct errs as [| e errs].
  2:{ left. repeat split; try discriminate. left. discriminate. }
  destruct (N.ltb_spec 10000 (N.of_nat q)) as [Hbig | Hok].
  { left. repeat split; try discriminate. right. left. exact Hbig. }
  destruct (generateMultipleUniqueQRCodes _ q _ s) as [codes | e] eqn:Hgen.
  2:{ left. repeat split; try discriminate. right. right. eauto. }
  right. unfold insertMany.
  change (mapi _ codes)
    with (mapi (newDocument env u q (withDefault [] m)) codes).
  destruct (insertUnordered_spec
              (mapi (newDocument env u q (withDefault [] m)) codes) s)
    as (ins & Hins & Hsub).
  rewrite Hins. exists codes, ins. repeat split; auto.
  destruct (rejects && _); reflexivity.
Qed.

Lemma newDocument_freshlyIssued env u q len m s codes d :
  List.length codes = q ->
  Forall (generatedFor len s) codes ->
  In d (mapi (newDocument env u q m) codes) ->
  freshlyIssued env u q len m s d.
Proof.
  intros Hlen Hall Hin.
  apply mapi_from_nth in Hin. destruct Hin as (i & c & Hnth & ->).
  assert (Hi : i < q).
  { rewrite <- Hlen. apply nth_error_Some. congruence. }
  apply nth_error_In in Hnth.
  rewrite Forall_forall in Hall. destruct (Hall c Hnth) as [Hm Habsent].
  apply findOne_hasCode in Habsent.
  unfold freshlyIssued. cbn [newDocument status isActive redeemedAt redeemedBy
    generatedBy batchId quantity batchNumber metadata createdAt updatedAt code].
  repeat split; auto; lia.
Qed.

Lemma generate_added :
  forall rejects env u errs q len m s,
  exists added,
    snd (generateBulkQRCodes rejects env (generateRequest u errs q len m) s)
    = s ++ added
    /\ Forall (freshlyIssued env u q (withDefault 12 len) (withDefault [] m) s)
              added
    /\ (statusCode
          (fst (generateBulkQRCodes rejects env (generateRequest u errs q len m) s))
        = 201 ->
        fst (generateBulkQRCodes rejects env (generateRequest u errs q len m) s)
        = respond 201
            (JGenerated
               (natString (List.length added)
                  ++ " QR codes generated successfully")%string
               (batchIdOf env) (List.length added) (map code added)
               (clock env 2) (User.email u)))
    /\ reportedCodes
         (fst (generateBulkQRCodes rejects env (generateRequest u errs q len m) s))
       = (if statusCode
               (fst (generateBulkQRCodes rejects env
                       (generateRequest u errs q len m) s)) =? 201
          then map code added else []).
Proof.
  intros rejects env u errs q len m s.
  destruct (generate_outcome rejects env u errs q len m s)
    as [(Hrun & Hnot & Hnone & _) | (codes & ins & _ & _ & Hgen & Hsub & Hrun)].
  - exists []. rewrite Hrun at 1. cbn [snd]. rewrite app_nil_r.
    repeat split; [constructor | intros H; contradiction |].
    rewrite Hnone. apply Nat.eqb_neq in Hnot. now rewrite Hnot.
  - exists ins. rewrite Hrun. cbn [fst snd].
    apply generateMultiple_ok in Hgen. destruct Hgen as [Hlen Hall].
    repeat split.
    + apply Forall_forall. intros d Hd.
      eapply newDocument_freshlyIssued; [exact Hlen | exact Hall |].
      eapply subseq_In; eauto.
    + destruct (rejects && _); [discriminate | reflexivity].
    + destruct (rejects && _); reflexivity.
Qed.

(** X7. A generation request only ever appends: the documents already in
    the store stay as and where they are.  Each appended document is the
    plain object the handler built and nothing more: it has no [status],
    no [isActive], no [createdAt] or [updatedAt] and no redemption data
    (the insert is a lean one, which adds neither the defaults of the
    schema nor its timestamps); it is owned by the caller, carries the
    batch id, quantity and metadata of the request, a batch number from 1
    to the quantity, and a code of the requested length (whatever it is:
    nothing checks it against the schema) in lower-case hexadecimal that
    the store did not hold before.  A 201 response reports exactly the
    codes of the appended documents, in order, and their number. *)
Theorem generate_appends :
  forall rejects env u errs q len m s,
  exists added,
    snd (generateBulkQRCodes rejects env (generateRequest u errs q len m) s)
    = s ++ added
    /\ Forall (freshlyIssued env u q (withDefault 12 len) (withDefault [] m) s)
              added
    /\ (statusCode
          (fst (generateBulkQRCodes rejects env (generateRequest u errs q len m) s))
        = 201 ->
        fst (generateBulkQRCodes rejects env (generateRequest u errs q len m) s)
        = respond 201
            (JGenerated
               (natString (List.length added)
                  ++ " QR codes generated successfully")%string
               (batchIdOf env) (List.length added) (map code added)
               (clock env 2) (User.email u)))
    /\ reportedCodes
         (fst (generateBulkQRCodes rejects env (generateRequest u errs q len m) s))
       = (if statusCode
               (fst (generateBulkQRCodes rejects env
                       (generateRequest u errs q len m) s)) =? 201
          then map code added else []).
Proof. exact generate_added. Qed.

Lemma violatesUnique_false (d : IQRCode) (s : Store) :
  violatesUnique d s = false ->
  ~ In (_id d) (map _id s) /\ ~ In (code d) (map code s).
Proof.
  unfold violatesUnique. induction s as [| r s IH]; simpl; [tauto |].
  intros H. apply orb_false_iff in H. destruct H as [Hr Hs].
  apply orb_false_iff in Hr. destruct Hr as [Hid Hcode].
  apply N.eqb_neq in Hid. apply String.eqb_neq in Hcode.
  destruct (IH Hs) as [Hids Hcodes]. split; intros [Heq | Hin]; auto.
Qed.

Lemma NoDup_snoc {A : Type} (l : list A) (a : A) :
  NoDup l -> ~ In a l -> NoDup (l ++ [a]).
Proof.
  intros Hnd Hnotin. apply NoDup_app; auto.
  - repeat constructor. intros [].
  - intros x Hx [<- | []]. contradiction.
Qed.

Lemma insertUnordered_unique (docs : list IQRCode) (s : Store) :
  uniqueStore s -> uniqueStore (snd (insertUnordered docs s)).
Proof.
  revert s. induction docs as [| d ds IH]; intros s Hs; simpl; [exact Hs |].
  destruct (violatesUnique d s) eqn:Hv; [now apply IH |].
  specialize (IH (s ++ [d])).
  destruct (insertUnordered ds (s ++ [d])) as [ins s']. cbn [snd] in *.
  apply IH. apply violatesUnique_false in Hv. destruct Hv as [Hid Hcode].
  destruct Hs as [Hids Hcodes]. unfold uniqueStore.
  rewrite !map_app. simpl. split; now apply NoDup_snoc.
Qed.

(** X8. Generation keeps the unique indexes: if no two documents of the
    store share an [_id] or a [code] before a generation request, none do
    after it, whatever the random draws and whatever the request answers. *)
Theorem generate_keeps_unique :
  forall rejects env req s,
    uniqueStore s ->
    uniqueStore (snd (generateBulkQRCodes rejects env req s)).
Proof.
  intros rejects env req s Hs. unfold generateBulkQRCodes.
  destruct (validationErrors req); [| exact Hs].
  destruct (10000 <? _)%N; [exact Hs |].
  destruct (generateMultipleUniqueQRCodes _ _ _ s) as [codes |]; [| exact Hs].
  unfold insertMany.
  match goal with
  | |- context [insertUnordered ?docs s] =>
      pose proof (insertUnordered_unique docs s Hs) as Hu;
      destruct (insertUnordered docs s) as [ins s']
  end.
  cbn [snd] in Hu. destruct (rejects && _); exact Hu.
Qed.

Lemma generate_keeps_unique_witness :
  uniqueStore oneCodeStore
  /\ uniqueStore
       (snd (generateBulkQRCodes true twinEnv
               (generateRequest maker [] 3 (Some 8) None) oneCodeStore)).
Proof.
  assert (Hs : uniqueStore oneCodeStore)
    by (split; repeat constructor; simpl; tauto).
  split; [exact Hs |].
  apply (generate_keeps_unique true twinEnv
           (generateRequest maker [] 3 (Some 8) None) oneCodeStore Hs).
Defined.

Lemma mapi_from_indexed {A B : Type} (f : nat -> B) (k : nat) (l : list A) :
  mapi_from (fun _ index => f index) k l = map f (seq k (List.length l)).
Proof.
  revert k. induction l as [| a l IH]; intros k; simpl; [reflexivity |].
  now rewrite IH.
Qed.

Lemma newDocuments_ids env u q m codes :
  map _id (mapi (newDocument env u q m) codes)
  = map (newObjectId env) (seq 0 (List.length codes)).
Proof.
  unfold mapi.
  rewrite (mapi_from_map _ _id (fun _ index => newObjectId env index))
    by reflexivity.
  apply mapi_from_indexed.
Qed.

Lemma violatesUnique_fresh (d : IQRCode) (s : Store) :
  ~ In (_id d) (map _id s) -> ~ In (code d) (map code s) ->
  violatesUnique d s = false.
Proof.
  unfold violatesUnique. induction s as [| r s IH]; simpl; [reflexivity |].
  intros Hid Hcode. rewrite IH by tauto.
  replace (_id r =? _id d)%N with false
    by (symmetry; apply N.eqb_neq; intros H; apply Hid; auto).
  replace (String.eqb (code r) (code d)) with false
    by (symmetry; apply String.eqb_neq; intros H; apply Hcode; auto).
  reflexivity.
Qed.

(** Documents that collide neither with the store nor with one another all
    go in. *)
Lemma insertUnordered_all (docs : list IQRCode) (s : Store) :
  NoDup (map _id docs) -> NoDup (map code docs) ->
  (forall d, In d docs -> ~ In (_id d) (map _id s)) ->
  (forall d, In d docs -> ~ In (code d) (map code s)) ->
  insertUnordered docs s = (docs, s ++ docs).
Proof.
  revert s. induction docs as [| d ds IH]; intros s Hids Hcodes Hfi Hfc; simpl.
  - now rewrite app_nil_r.
  - inversion Hids as [| ? ? Hid Hids']; subst.
    inversion Hcodes as [| ? ? Hcode Hcodes']; subst.
    rewrite violatesUnique_fresh by (auto using in_eq).
    rewrite (IH (s ++ [d])); auto.
    + now rewrite <- app_assoc.
    + intros x Hx. rewrite map_app, in_app_iff. simpl.
      intros [H | [H | []]]; [eapply Hfi; eauto using in_cons |].
      apply Hid. rewrite H. now apply in_map.
    + intros x Hx. rewrite map_app, in_app_iff. simpl.
      intros [H | [H | []]]; [eapply Hfc; eauto using in_cons |].
      apply Hcode. rewrite H. now apply in_map.
Qed.

Lemma hasCode_false_notIn (s : Store) (c : string) :
  hasCode s c = false -> ~ In c (map code s).
Proof.
  unfold hasCode. induction s as [| d s IH]; simpl; [tauto |].
  intros H. apply orb_false_iff in H. destruct H as [Hd Hs].
  apply String.eqb_neq in Hd. intros [Heq | Hin]; [auto | now apply IH].
Qed.

(** X9. A request delivers in full whenever nothing collides: if the
    quantity is from 1 to 10000, the length from 8 to 20, the generated
    codes are pairwise different and the new ObjectIds are pairwise
    different and not in the store, then every code is persisted and the
    request is answered 201 with all of them.  Under-delivery needs a
    collision. *)
Theorem generate_delivers_all :
  forall rejects env u q len m s codes,
    1 <= q -> (N.of_nat q <= 10000)%N ->
    8 <= withDefault 12 len <= 20 ->
    generateMultipleUniqueQRCodes (codeBytes env) q (withDefault 12 len) s
    = Ok codes ->
    NoDup codes ->
    NoDup (map (newObjectId env) (seq 0 q)) ->
    (forall i, i < q -> ~ In (newObjectId env i) (map _id s)) ->
    generateBulkQRCodes rejects env (generateRequest u [] q len m) s
    = (respond 201
         (JGenerated
            (natString q ++ " QR codes generated successfully")%string
            (batchIdOf env) q codes (clock env 2) (User.email u)),
       s ++ mapi (newDocument env u q (withDefault [] m)) codes).
Proof.
  intros rejects env u q len m s codes Hq Hmax Hlen Hgen Hnd Hids Hfresh.
  pose proof (generateMultiple_ok _ _ _ _ _ Hgen) as [Hcount Hall].
  unfold generateBulkQRCodes, generateRequest. cbn [validationErrors input user
    GenerateBody.quantity GenerateBody.length GenerateBody.metadata].
  rewrite withDefault_metadata.
  destruct (N.ltb_spec 10000 (N.of_nat q)) as [Hbig | _]; [lia |].
  rewrite Hgen. unfold insertMany.
  change (mapi _ codes)
    with (mapi (newDocument env u q (withDefault [] m)) codes).
  set (docs := mapi (newDocument env u q (withDefault [] m)) codes).
  rewrite (insertUnordered_all docs s).
  - rewrite Nat.ltb_irrefl, andb_false_r.
    unfold docs. rewrite newDocuments_codes.
    unfold mapi. rewrite length_mapi_from, Hcount. reflexivity.
  - unfold docs. now rewrite newDocuments_ids, Hcount.
  - unfold docs. now rewrite newDocuments_codes.
  - intros d Hd. apply (in_map _id) in Hd. unfold docs in Hd.
    rewrite newDocuments_ids, Hcount in Hd. apply in_map_iff in Hd.
    destruct Hd as (i & <- & Hi). apply in_seq in Hi. apply Hfresh. lia.
  - intros d Hd. apply (in_map code) in Hd. unfold docs in Hd.
    rewrite newDocuments_codes in Hd.
    rewrite Forall_forall in Hall. destruct (Hall _ Hd) as [_ Habs].
    apply hasCode_false_notIn. now apply findOne_hasCode.
Qed.

Lemma generate_delivers_all_witness :
  generateMultipleUniqueQRCodes (codeBytes plainEnv) 5 10 oneCodeStore
  = Ok ["0000000000"; "0101010101"; "0202020202"; "0303030303"; "0404040404"]
  /\ statusCode
       (fst (generateBulkQRCodes true plainEnv
               (generateRequest maker [] 5 (Some 10) None) oneCodeStore)) = 201
  /\ List.length
       (snd (generateBulkQRCodes true plainEnv
               (generateRequest maker [] 5 (Some 10) None) oneCodeStore)) = 6.
Proof.
  assert (Hgen : generateMultipleUniqueQRCodes (codeBytes plainEnv) 5
                   (withDefault 12 (Some 10)) oneCodeStore
                 = Ok ["0000000000"; "0101010101"; "0202020202"; "0303030303";
                       "0404040404"]) by (vm_compute; reflexivity).
  split; [exact Hgen |].
  rewrite (generate_delivers_all true plainEnv maker 5 (Some 10) None
             oneCodeStore _ ltac:(lia) ltac:(vm_compute; discriminate)
             ltac:(simpl; lia) Hgen).
  - split; reflexivity.
  - repeat constructor; simpl; intuition discriminate.
  - vm_compute. repeat constructor; simpl; intuition discriminate.
  - intros i Hi. vm_compute. intros [H | []].
    do 5 (destruct i as [| i]; [discriminate H |]). lia.
Defined.

Lemma hasCode_false_In (s : Store) (c : string) (d : IQRCode) :
  hasCode s c = false -> In d s -> code d <> c.
Proof.
  intros Hh Hin Hc. apply (hasCode_false_notIn s c Hh).
  rewrite <- Hc. now apply in_map.
Qed.

Lemma freshlyIssued_valid env u q len m s d :
  freshlyIssued env u q len m s d ->
  isValidQRCode (code d) = (8 <=? len) && (len <=? 20).
Proof.
  intros (_ & _ & _ & _ & _ & _ & _ & _ & _ & _ & _ & Hhex & _).
  pose proof (matchesLowerHex_length _ _ _ Hhex) as Hlen.
  assert (Hl : String.length (code d) = len) by lia.
  unfold matchesLowerHex in Hhex.
  apply andb_true_iff in Hhex. destruct Hhex as [_ Hchars].
  unfold isValidQRCode. rewrite Hl.
  rewrite (allChars_weaken isLowerHex isHexIgnoreCase (code d)
             isLowerHex_ignoreCase Hchars).
  now rewrite andb_true_r.
Qed.

(** X10. No code a generation response reports can be redeemed.  The
    documents of the request are stored without a [status], so the lookup
    of the redemption handler, which asks for the status unredeemed, does
    not find them: on the store the request left, redeeming a reported
    code is never answered 200 and changes nothing.  The answer is 404 when
    the code passes the format check of the handler, which it does exactly
    when the requested length is from 8 to 20, and 400 otherwise. *)
Theorem generated_code_not_redeemable :
  forall rejects env u errs q len m s clock redeemer errs' c,
    In c (reportedCodes
            (fst (generateBulkQRCodes rejects env
                    (generateRequest u errs q len m) s))) ->
    isValidQRCode c = (8 <=? withDefault 12 len) && (withDefault 12 len <=? 20)
    /\ redeemQRCode clock (redeemRequest redeemer errs' c)
         (snd (generateBulkQRCodes rejects env (generateRequest u errs q len m) s))
       = (if isValidQRCode c
          then respond 404 (JMessage "QR code not found or already redeemed.")
          else respond 400 (JMessage "Invalid QR code format."),
          snd (generateBulkQRCodes rejects env (generateRequest u errs q len m) s))
    /\ statusCode
         (fst (redeemQRCode clock (redeemRequest redeemer errs' c)
                 (snd (generateBulkQRCodes rejects env
                         (generateRequest u errs q len m) s))))
       <> 200.
Proof.
  intros rejects env u errs q len m s clock redeemer errs' c Hc.
  destruct (generate_added rejects env u errs q len m s)
    as (added & Hstore & Hall & _ & Hcodes).
  rewrite Hcodes in Hc. rewrite Hstore.
  destruct (statusCode _ =? 201); [| destruct Hc].
  apply in_map_iff in Hc. destruct Hc as (d & <- & Hd).
  rewrite Forall_forall in Hall.
  pose proof (freshlyIssued_valid _ _ _ _ _ _ _ (Hall d Hd)) as Hv.
  destruct (Hall d Hd)
    as (_ & _ & _ & _ & _ & _ & _ & _ & _ & _ & _ & _ & Hnew).
  assert (Hrun : redeemQRCode clock (redeemRequest redeemer errs' (code d))
                   (s ++ added)
                 = (if isValidQRCode (code d)
                    then respond 404
                           (JMessage "QR code not found or already redeemed.")
                    else respond 400 (JMessage "Invalid QR code format."),
                    s ++ added)).
  { destruct (isValidQRCode (code d)) eqn:Hfmt.
    - rewrite (redeem_valid _ _ _ _ _ Hfmt).
      destruct (findOne (unredeemedWithCode (code d)) (s ++ added))
        as [x |] eqn:Hfind; [exfalso | reflexivity].
      apply find_some in Hfind. destruct Hfind as [Hx Hxd].
      apply unredeemedWithCode_spec in Hxd. destruct Hxd as [Hxc Hxs].
      apply in_app_or in Hx. destruct Hx as [Hx | Hx].
      + exact (hasCode_false_In s (code d) x Hnew Hx Hxc).
      + destruct (Hall x Hx) as (Hnone & _). congruence.
    - now rewrite (redeem_invalid _ _ _ _ _ Hfmt). }
  split; [exact Hv |]. split; [exact Hrun |].
  rewrite Hrun. cbn [fst]. destruct (isValidQRCode (code d)); discriminate.
Qed.

Lemma generated_code_not_redeemable_witness :
  In "0303030303"
     (reportedCodes
        (fst (generateBulkQRCodes true plainEnv
                (generateRequest maker [] 5 (Some 10) None) oneCodeStore)))
  /\ isValidQRCode "0303030303" = true
  /\ statusCode
       (fst (redeemQRCode clockA (redeemRequest alice [] "0303030303")
               (snd (generateBulkQRCodes true plainEnv
                       (generateRequest maker [] 5 (Some 10) None)
                       oneCodeStore))))
     = 404.
Proof.
  assert (Hin : In "0303030303"
                   (reportedCodes
                      (fst (generateBulkQRCodes true plainEnv
                              (generateRequest maker [] 5 (Some 10) None)
                              oneCodeStore))))
    by (vm_compute; tauto).
  split; [exact Hin |].
  destruct (generated_code_not_redeemable true plainEnv maker [] 5 (Some 10) None
              oneCodeStore clockA alice [] "0303030303" Hin)
    as (Hfmt & Hrun & _).
  split; [exact Hfmt |].
  rewrite Hrun, Hfmt. reflexivity.
Defined.

(** ** Redemption, alone and interleaved *)

Lemma advances_refl d : advances d d.
Proof. unfold advances, sameIdentity, statusLe. intuition. Qed.

Lemma advances_trans d1 d2 d3 :
  advances d1 d2 -> advances d2 d3 -> advances d1 d3.
Proof.
  unfold advances, sameIdentity, statusLe.
  intros (Hid12 & Hst12 & Hch12) (Hid23 & Hst23 & Hch23).
  repeat split; try (intuition congruence).
  all: destruct Hch23 as [-> | Hred]; [exact Hch12 | right; exact Hred].
Qed.

Lemma advances_markRedeemed at_ by_ savedAt d :
  advances d (markRedeemed at_ by_ savedAt d).
Proof.
  unfold advances, sameIdentity, statusLe. cbn. repeat split; auto.
  right. repeat split; discriminate.
Qed.

Lemma Forall2_refl {A : Type} (R : A -> A -> Prop) (l : list A) :
  (forall a, R a a) -> Forall2 R l l.
Proof. intros H. induction l; constructor; auto. Qed.

Lemma Forall2_trans {A : Type} (R : A -> A -> Prop) (l1 l2 l3 : list A) :
  (forall a b c, R a b -> R b c -> R a c) ->
  Forall2 R l1 l2 -> Forall2 R l2 l3 -> Forall2 R l1 l3.
Proof.
  intros Htrans H12. revert l3.
  induction H12 as [| a b l1 l2 Hab _ IH]; intros l3 H23.
  - inversion H23. constructor.
  - inversion H23; subst. constructor; eauto.
Qed.

Lemma updateOneById_Forall2 (R : IQRCode -> IQRCode -> Prop) id f s s' :
  (forall d, R d d) -> (forall d, R d (f d)) ->
  updateOneById id f s = Some s' -> Forall2 R s s'.
Proof.
  intros Hrefl Hf. revert s'. induction s as [| a s IH]; simpl; [discriminate |].
  intros s'. destruct (_id a =? id)%N.
  - intros H. injection H as <-. constructor; [apply Hf |].
    now apply Forall2_refl.
  - destruct (updateOneById id f s) as [t |]; simpl; [| discriminate].
    intros H. injection H as <-. constructor; auto.
Qed.

Lemma redeemStep_advances t s :
  Forall2 advances s (snd (redeemStep t s)).
Proof.
  pose proof (Forall2_refl advances s advances_refl) as Hsame.
  unfold redeemStep. destruct t as [clock req | clock req qrCode | res];
    [| | exact Hsame].
  - destruct (RedeemBody.code (input req)) as [[| a c] |]; try exact Hsame.
    destruct (negb _); [exact Hsame |].
    destruct (findOne _ s); exact Hsame.
  - unfold save.
    destruct (updateOneById _ _ s) as [s' |] eqn:Hup; [| exact Hsame].
    cbn [snd]. eapply updateOneById_Forall2; [apply advances_refl | | exact Hup].
    intros d. apply advances_markRedeemed.
Qed.

Lemma runSchedule_advances schedule tasks s :
  Forall2 advances s (snd (runSchedule schedule tasks s)).
Proof.
  revert tasks s. induction schedule as [| i rest IH]; intros tasks s.
  - apply Forall2_refl, advances_refl.
  - cbn [runSchedule]. destruct (nth_error tasks i) as [t |]; [| apply IH].
    pose proof (redeemStep_advances t s) as Hstep.
    destruct (redeemStep t s) as [t' s1]. cbn [snd] in Hstep.
    eapply Forall2_trans; [apply advances_trans | exact Hstep | apply IH].
Qed.

Lemma Forall2_map_eq {A B : Type} (R : A -> A -> Prop) (f : A -> B)
    (l l' : list A) :
  (forall a b, R a b -> f b = f a) -> Forall2 R l l' -> map f l' = map f l.
Proof.
  intros Hf. induction 1; simpl; [reflexivity |]. f_equal; auto.
Qed.

(** X11. However redemption requests are interleaved, the store keeps its
    shape: document by document, in place, the [_id], [code], owner, batch,
    quantity, batch number, [isActive], metadata and creation time stay,
    and the status never goes back from redeemed.  A document that changed
    at all is redeemed, with [redeemedAt] and [redeemedBy] both set.  So no
    interleaving loses, duplicates or renames a code. *)
Theorem interleaving_only_advances :
  forall schedule tasks s,
    Forall2 advances s (snd (runSchedule schedule tasks s))
    /\ map _id (snd (runSchedule schedule tasks s)) = map _id s
    /\ map code (snd (runSchedule schedule tasks s)) = map code s
    /\ List.length (snd (runSchedule schedule tasks s)) = List.length s.
Proof.
  intros schedule tasks s.
  pose proof (runSchedule_advances schedule tasks s) as Hadv.
  repeat split.
  - exact Hadv.
  - apply (Forall2_map_eq advances); [| exact Hadv].
    intros a b (Hid & _). apply Hid.
  - apply (Forall2_map_eq advances); [| exact Hadv].
    intros a b (Hid & _). apply Hid.
  - symmetry. eapply Forall2_length; eauto.
Qed.

Lemma runSchedule_single clock req s :
  runSchedule [0; 0] [Received clock req] s
  = ([Responded (fst (redeemQRCode clock req s))], snd (redeemQRCode clock req s)).
Proof.
  cbn [runSchedule nth_error].
  pose proof (redeemStep_sequential clock req s) as Hseq.
  destruct (redeemStep (Received clock req) s) as [t1 s1].
  cbn [updateNth nth_error]. rewrite Hseq. reflexivity.
Qed.

Lemma deleteOneById_subseq id s : subseq (deleteOneById id s) s.
Proof.
  induction s as [| a s IH]; simpl; [apply subseq_nil |].
  destruct (_id a =? id)%N.
  - apply subseq_skip, subseq_refl.
  - now apply subseq_take.
Qed.

Lemma filter_negb_subseq {A : Type} (p : A -> bool) (l : list A) :
  subseq (filter (fun a => negb (p a)) l) l.
Proof. apply subseq_filter. Qed.

Lemma deleteQRCode_subseq castObjectId req s :
  subseq (snd (deleteQRCode castObjectId req s)) s.
Proof.
  unfold deleteQRCode.
  destruct (castObjectId (input req)); [| apply subseq_refl].
  destruct (findOne _ s); [| apply subseq_refl].
  destruct (_ && _); [apply subseq_refl | apply deleteOneById_subseq].
Qed.

Lemma bulkDeleteQRCodes_subseq castObjectId regexCompile req s :
  subseq (snd (bulkDeleteQRCodes castObjectId regexCompile req s)) s.
Proof.
  unfold bulkDeleteQRCodes.
  destruct (validationErrors req); [| apply subseq_refl].
  match goal with |- context [if ?c then _ else _] => destruct c end;
    [apply subseq_refl |].
  match goal with |- context [match ?c with Some _ => _ | None => _ end] =>
    destruct c as [q |] end; [| apply subseq_refl].
  destruct (find _ _ _ s) as [[| x found] |]; try apply subseq_refl.
  unfold deleteManyBy.
  destruct (compileQuery _ _ _) as [p |]; cbn [bind]; [| apply subseq_refl].
  unfold deleteMany. cbn [snd]. apply subseq_filter.
Qed.

Lemma subseq_uniqueStore s s' :
  subseq s' s -> uniqueStore s -> uniqueStore s'.
Proof.
  intros Hsub [Hids Hcodes]. split.
  - eapply subseq_NoDup; [apply subseq_map; exact Hsub | exact Hids].
  - eapply subseq_NoDup; [apply subseq_map; exact Hsub | exact Hcodes].
Qed.

(** X12. Redemption and deletion keep the unique indexes: a store in which
    no two documents share an [_id] or a [code] is still such after any
    interleaving of redemption requests, after a single delete, and after a
    bulk delete. *)
Theorem redeem_delete_keep_unique :
  forall (castObjectId : string -> option ObjectId)
         (regexCompile : string -> option (string -> bool))
         schedule tasks (one : Request string)
         (many : Request BulkDeleteBody.t) s,
    uniqueStore s ->
    uniqueStore (snd (runSchedule schedule tasks s))
    /\ uniqueStore (snd (deleteQRCode castObjectId one s))
    /\ uniqueStore (snd (bulkDeleteQRCodes castObjectId regexCompile many s)).
Proof.
  intros castObjectId regexCompile schedule tasks one many s Hs.
  split; [| split].
  - pose proof (runSchedule_advances schedule tasks s) as Hadv.
    unfold uniqueStore.
    rewrite (Forall2_map_eq advances _id _ _
               (fun a b (H : advances a b) => proj1 (proj1 H)) Hadv).
    rewrite (Forall2_map_eq advances code _ _
               (fun a b (H : advances a b) => proj1 (proj2 (proj1 H))) Hadv).
    exact Hs.
  - eapply subseq_uniqueStore; [apply deleteQRCode_subseq | exact Hs].
  - eapply subseq_uniqueStore; [apply bulkDeleteQRCodes_subseq | exact Hs].
Qed.

Lemma redeem_delete_keep_unique_witness :
  uniqueStore sharedStore
  /\ uniqueStore
       (snd (bulkDeleteQRCodes sampleCast literalRegex
               (bulkDeleteRequest admin [] None (Some "batch_m")) sharedStore)).
Proof.
  assert (Hs : uniqueStore sharedStore).
  { split; repeat constructor; simpl; intuition discriminate. }
  split; [exact Hs |].
  apply (redeem_delete_keep_unique sampleCast literalRegex [] []
           {| user := admin; validationErrors := []; input := EmptyString |}
           (bulkDeleteRequest admin [] None (Some "batch_m")) sharedStore Hs).
Defined.

(** Whatever the body of the request, what generation appends has neither
    a status nor redemption data. *)
Lemma generate_plain rejects env req s :
  exists added,
    snd (generateBulkQRCodes rejects env req s) = s ++ added
    /\ Forall (fun d => status d = None /\ redeemedAt d = None
                        /\ redeemedBy d = None) added.
Proof.
  unfold generateBulkQRCodes.
  assert (Hnil : exists added,
             s = s ++ added
             /\ Forall (fun d => status d = None /\ redeemedAt d = None
                                 /\ redeemedBy d = None) added)
    by (exists []; rewrite app_nil_r; split; [reflexivity | constructor]).
  destruct (validationErrors req); [| exact Hnil].
  destruct (10000 <? _)%N; [exact Hnil |].
  destruct (generateMultipleUniqueQRCodes _ _ _ s) as [codes |]; [| exact Hnil].
  unfold insertMany.
  match goal with
  | |- context [insertUnordered ?docs s] =>
      destruct (insertUnordered_spec docs s) as (ins & Hins & Hsub);
      rewrite Hins
  end.
  exists ins. split; [destruct (rejects && _); reflexivity |].
  apply Forall_forall. intros d Hd. eapply subseq_In in Hd; [| exact Hsub].
  apply mapi_from_In in Hd. destruct Hd as (c & i & _ & ->).
  repeat split.
Qed.

Lemma advances_settled d d' :
  advances d d' -> settled d = true -> settled d' = true.
Proof.
  intros (_ & _ & [-> | (Hst & Hat & Hby)]) Hd; [exact Hd |].
  unfold settled. rewrite Hst.
  destruct (redeemedAt d'); [| contradiction].
  destruct (redeemedBy d'); [reflexivity | contradiction].
Qed.

Lemma Forall2_Forall {A : Type} (R : A -> A -> Prop) (P : A -> Prop)
    (l l' : list A) :
  (forall a b, R a b -> P a -> P b) ->
  Forall2 R l l' -> Forall P l -> Forall P l'.
Proof.
  intros HR. induction 1 as [| a b l l' Hab _ IH]; intros Hl; [constructor |].
  inversion Hl; subst. constructor; eauto.
Qed.

Lemma subseq_Forall {A : Type} (P : A -> Prop) (l l' : list A) :
  subseq l' l -> Forall P l -> Forall P l'.
Proof.
  intros Hsub Hl. apply Forall_forall. intros x Hx.
  rewrite Forall_forall in Hl. apply Hl. eapply subseq_In; eauto.
Qed.

(** X13. The handlers keep redemption data in step with the status: if in
    every document [redeemedAt] and [redeemedBy] are both present when the
    status is redeemed and both absent when it is unredeemed (or when the
    document has no status), the same is true after a generation request,
    after any interleaving of redemption requests, after a single delete
    and after a bulk delete. *)
Theorem handlers_keep_settled :
  forall (castObjectId : string -> option ObjectId)
         (regexCompile : string -> option (string -> bool))
         rejects env (gen : Request GenerateBody.t)
         schedule tasks (one : Request string)
         (many : Request BulkDeleteBody.t) s,
    Forall (fun d => settled d = true) s ->
    Forall (fun d => settled d = true)
           (snd (generateBulkQRCodes rejects env gen s))
    /\ Forall (fun d => settled d = true) (snd (runSchedule schedule tasks s))
    /\ Forall (fun d => settled d = true)
              (snd (deleteQRCode castObjectId one s))
    /\ Forall (fun d => settled d = true)
              (snd (bulkDeleteQRCodes castObjectId regexCompile many s)).
Proof.
  intros castObjectId regexCompile rejects env gen schedule tasks one many s Hs.
  repeat split.
  - destruct (generate_plain rejects env gen s) as (added & -> & Hall).
    apply Forall_app. split; [exact Hs |].
    eapply Forall_impl; [| exact Hall].
    intros d (Hst & Hat & Hby). unfold settled. now rewrite Hst, Hat, Hby.
  - eapply Forall2_Forall; [| apply runSchedule_advances | exact Hs].
    intros a b. apply advances_settled.
  - eapply subseq_Forall; [apply deleteQRCode_subseq | exact Hs].
  - eapply subseq_Forall; [apply bulkDeleteQRCodes_subseq | exact Hs].
Qed.

Lemma handlers_keep_settled_witness :
  Forall (fun d => settled d = true) oneCodeStore
  /\ Forall (fun d => settled d = true)
            (snd (runSchedule [0; 1; 0; 1]
                    [Received clockA (redeemRequest alice [] "deadbeef12");
                     Received clockB (redeemRequest bob [] "deadbeef12")]
                    oneCodeStore)).
Proof.
  assert (Hs : Forall (fun d => settled d = true) oneCodeStore)
    by (repeat constructor).
  split; [exact Hs |].
  apply (handlers_keep_settled sampleCast literalRegex true plainEnv
           (generateRequest maker [] 1 None None)
           [0; 1; 0; 1]
           [Received clockA (redeemRequest alice [] "deadbeef12");
            Received clockB (redeemRequest bob [] "deadbeef12")]
           {| user := admin; validationErrors := []; input := EmptyString |}
           (bulkDeleteRequest admin [] None None) oneCodeStore Hs).
Defined.

Lemma redeemedCount_app (a b : Store) :
  redeemedCount (a ++ b) = redeemedCount a + redeemedCount b.
Proof. unfold redeemedCount. now rewrite filter_app, length_app. Qed.

(** X14. A redemption request that is not answered 200 leaves the store
    exactly as it was; in a store with unique ids, one answered 200 raises
    the number of redeemed documents by exactly one. *)
Theorem redeem_counts :
  forall clock req s,
    (statusCode (fst (redeemQRCode clock req s)) <> 200 ->
     snd (redeemQRCode clock req s) = s)
    /\ (NoDup (map _id s) ->
        statusCode (fst (redeemQRCode clock req s)) = 200 ->
        redeemedCount (snd (redeemQRCode clock req s)) = S (redeemedCount s)).
Proof.
  intros clock req s. unfold redeemQRCode.
  destruct (RedeemBody.code (input req)) as [[| a c] |];
    try (split; [reflexivity | intros _ H; discriminate H]).
  destruct (negb _); [split; [reflexivity | intros _ H; discriminate H] |].
  destruct (findOne _ s) as [d |] eqn:Hfind;
    [| split; [reflexivity | intros _ H; discriminate H]].
  apply find_some in Hfind. destruct Hfind as [Hin Hd].
  apply unredeemedWithCode_spec in Hd. destruct Hd as [_ Hst].
  unfold save.
  destruct (updateOneById _ _ s) as [s' |] eqn:Hup;
    [| split; [reflexivity | intros _ H; discriminate H]].
  split; [intros H; contradiction H; reflexivity |].
  intros Hids _. cbn [snd].
  destruct (updateOneById_In
              (markRedeemed (clock 0) (User._id (user req)) (clock 1)) s d Hids Hin)
    as (pre & post & -> & Hup').
  rewrite Hup' in Hup. injection Hup as <-.
  rewrite !redeemedCount_app.
  change (d :: post) with ([d] ++ post).
  change (markRedeemed (clock 0) (User._id (user req)) (clock 1) d :: post)
    with ([markRedeemed (clock 0) (User._id (user req)) (clock 1) d] ++ post).
  rewrite !redeemedCount_app. unfold redeemedCount at 2 5, hasStatus.
  cbn [filter status markRedeemed QRCodeStatus_eqb List.length].
  rewrite Hst. simpl. lia.
Qed.

Lemma redeem_counts_witness :
  NoDup (map _id oneCodeStore)
  /\ redeemedCount
       (snd (redeemQRCode clockA (redeemRequest alice [] "deadbeef12") oneCodeStore))
     = S (redeemedCount oneCodeStore).
Proof.
  assert (Hids : NoDup (map _id oneCodeStore))
    by (repeat constructor; simpl; tauto).
  split; [exact Hids |].
  apply (proj2 (redeem_counts clockA (redeemRequest alice [] "deadbeef12")
                  oneCodeStore) Hids).
  reflexivity.
Defined.

(** ** Listing *)

Lemma length_insertByCreatedAtDesc d l :
  List.length (insertByCreatedAtDesc d l) = S (List.length l).
Proof.
  induction l as [| x l IH]; simpl; [reflexivity |].
  destruct (dateLeb (createdAt x) (createdAt d)); simpl;
    [reflexivity | now rewrite IH].
Qed.

Lemma length_sortByCreatedAtDesc l :
  List.length (sortByCreatedAtDesc l) = List.length l.
Proof.
  unfold sortByCreatedAtDesc. induction l as [| a l IH]; simpl; [reflexivity |].
  now rewrite length_insertByCreatedAtDesc, IH.
Qed.

Lemma dateLeb_trans (a b c : option Date) :
  dateLeb a b = true -> dateLeb b c = true -> dateLeb a c = true.
Proof.
  destruct a as [x |], b as [y |], c as [z |]; simpl; try congruence.
  rewrite !N.leb_le. lia.
Qed.

Lemma dateLeb_total (a b : option Date) :
  dateLeb a b = false -> dateLeb b a = true.
Proof.
  destruct a as [x |], b as [y |]; simpl; try congruence.
  rewrite N.leb_gt, N.leb_le. lia.
Qed.

Lemma newestFirst_insert d l :
  newestFirst l -> newestFirst (insertByCreatedAtDesc d l).
Proof.
  induction l as [| x l IH]; simpl; [intros _; split; [intros ? [] | exact I] |].
  intros [Hx Hl]. destruct (dateLeb (createdAt x) (createdAt d)) eqn:Hle.
  - simpl. split; [| split; assumption].
    intros y [<- | Hy]; [exact Hle |].
    apply dateLeb_trans with (createdAt x); auto.
  - simpl. split; [| now apply IH].
    intros y Hy. apply insertByCreatedAtDesc_In in Hy.
    destruct Hy as [-> | Hy]; [now apply dateLeb_total | now apply Hx].
Qed.

Lemma newestFirst_sort l : newestFirst (sortByCreatedAtDesc l).
Proof.
  unfold sortByCreatedAtDesc. induction l as [| a l IH]; simpl; [exact I |].
  now apply newestFirst_insert.
Qed.

Lemma newestFirst_subseq l l' :
  subseq l' l -> newestFirst l -> newestFirst l'.
Proof.
  induction 1 as [| x l1 l2 Hsub IH | x l1 l2 Hsub IH]; simpl; auto.
  - intros [_ Hl]. auto.
  - intros [Hx Hl]. split; [| auto].
    intros y Hy. apply Hx. eapply subseq_In; eauto.
Qed.

Lemma subseq_skipn {A : Type} (n : nat) (l : list A) : subseq (skipn n l) l.
Proof.
  revert l. induction n as [| n IH]; intros [| a l]; simpl;
    try apply subseq_refl.
  apply subseq_skip, IH.
Qed.

Lemma subseq_firstn {A : Type} (n : nat) (l : list A) : subseq (firstn n l) l.
Proof.
  revert l. induction n as [| n IH]; intros [| a l]; simpl;
    try apply subseq_nil_l.
  apply subseq_take, IH.
Qed.

Lemma skipLimit_subseq skip limit l out :
  skipLimit skip limit l = Ok out ->
  subseq out l
  /\ (limit <> 0%Z -> List.length out <= Z.to_nat (Z.abs limit)).
Proof.
  unfold skipLimit. destruct (skip <? 0)%Z; [discriminate |].
  intros H. injection H as <-.
  destruct (Z.eqb_spec limit 0) as [-> | Hnz].
  - split; [apply subseq_skipn | intros H; contradiction].
  - split.
    + eapply subseq_trans; [apply subseq_firstn | apply subseq_skipn].
    + intros _. rewrite length_firstn. lia.
Qed.

Section ListingProperties.

Variable castObjectId : string -> option ObjectId.
Variable regexCompile : string -> option (string -> bool).

Lemma getQRCodes_page req s docs cur pages total per :
  fst (getQRCodes castObjectId regexCompile req s)
  = respond 200 (JList docs cur pages total per) ->
  newestFirst docs
  /\ (forall d, In d docs -> In d s)
  /\ (per <> 0%Z -> List.length docs <= Z.to_nat (Z.abs per))
  /\ List.length docs <= total <= List.length s
  /\ cur = withDefault 1%Z (ListQuery.page (input req))
  /\ per = withDefault 50%Z (ListQuery.limit (input req))
  /\ pages = totalPagesOf total per.
Proof.
  unfold getQRCodes.
  match goal with
  | |- context [find castObjectId regexCompile ?q s] => set (query := q)
  end.
  unfold find, countDocuments.
  destruct (compileQuery castObjectId regexCompile query) as [p |];
    cbn [bind]; [| discriminate].
  destruct (skipLimit _ _ _) as [out |] eqn:Hpage; cbn [bind fst];
    [| discriminate].
  intros H. injection H as <- <- <- <- <-.
  apply skipLimit_subseq in Hpage. destruct Hpage as [Hsub Hlen].
  repeat split; auto.
  - eapply newestFirst_subseq; [exact Hsub | apply newestFirst_sort].
  - intros d Hd. eapply subseq_In in Hd; [| exact Hsub].
    apply sortByCreatedAtDesc_In, filter_In in Hd. tauto.
  - apply subseq_length in Hsub. now rewrite length_sortByCreatedAtDesc in Hsub.
  - apply subseq_length, subseq_filter.
Qed.

End ListingProperties.

(** X15. A list response is a page of the store: its documents all come
    from the store, newest first, at most [|limit|] of them unless the
    limit is 0, and never more than [totalQRCodes], which itself never
    exceeds the size of the store; the page number and page size sent back
    are the request's (1 and 50 by default), and the store is not
    changed. *)
Theorem list_is_a_page :
  forall (castObjectId : string -> option ObjectId)
         (regexCompile : string -> option (string -> bool))
         req s docs cur pages total per,
    fst (getQRCodes castObjectId regexCompile req s)
    = respond 200 (JList docs cur pages total per) ->
    snd (getQRCodes castObjectId regexCompile req s) = s
    /\ newestFirst docs
    /\ (forall d, In d docs -> In d s)
    /\ (per <> 0%Z -> List.length docs <= Z.to_nat (Z.abs per))
    /\ List.length docs <= total <= List.length s
    /\ cur = withDefault 1%Z (ListQuery.page (input req))
    /\ per = withDefault 50%Z (ListQuery.limit (input req))
    /\ pages = totalPagesOf total per.
Proof.
  intros castObjectId regexCompile req s docs cur pages total per H.
  split; [apply getQRCodes_readonly |].
  eapply getQRCodes_page; eauto.
Qed.

Lemma list_is_a_page_witness :
  fst (getQRCodes sampleCast literalRegex
         {| user := admin; validationErrors := [];
            input := {| ListQuery.page := Some 2%Z; ListQuery.limit := Some 2%Z;
                        ListQuery.status := None; ListQuery.batchId := None;
                        ListQuery.search := None;
                        ListQuery.generatedBy := None |} |} sharedStore)
  = respond 200 (JList [makerSecond] 2 (Some 2%Z) 3 2)
  /\ newestFirst [makerSecond].
Proof.
  assert (Hrun : fst (getQRCodes sampleCast literalRegex
                        {| user := admin; validationErrors := [];
                           input := {| ListQuery.page := Some 2%Z;
                                       ListQuery.limit := Some 2%Z;
                                       ListQuery.status := None;
                                       ListQuery.batchId := None;
                                       ListQuery.search := None;
                                       ListQuery.generatedBy := None |} |}
                        sharedStore)
                 = respond 200 (JList [makerSecond] 2 (Some 2%Z) 3 2))
    by (vm_compute; reflexivity).
  split; [exact Hrun |].
  apply (list_is_a_page _ _ _ _ _ _ _ _ _ Hrun).
Defined.

(** ** Deleting one document *)

Lemma findOne_id_split id s d :
  findOne (fun x => (_id x =? id)%N) s = Some d ->
  exists pre post,
    s = pre ++ d :: post
    /\ deleteOneById id s = pre ++ post
    /\ _id d = id
    /\ forall x, In x pre -> _id x <> id.
Proof.
  unfold findOne. induction s as [| a s IH]; simpl; [discriminate |].
  destruct (N.eqb_spec (_id a) id) as [Heq | Hne].
  - intros H. injection H as <-. exists [], s. repeat split; auto.
    all: intros x [].
  - intros H. destruct (IH H) as (pre & post & -> & Hdel & Hid & Hpre).
    exists (a :: pre), post. rewrite Hdel. repeat split; auto.
    all: intros x [<- | Hx]; auto.
Qed.

(** X16. A single delete answered 200 removes exactly one document: the
    first one with the id of the request, which the caller may reach, and
    which the response reports; the documents before and after it stay in
    place.  Any other answer leaves the store as it was. *)
Theorem delete_one_effect :
  forall (castObjectId : string -> option ObjectId) req s,
    (statusCode (fst (deleteQRCode castObjectId req s)) <> 200 ->
     snd (deleteQRCode castObjectId req s) = s)
    /\ (statusCode (fst (deleteQRCode castObjectId req s)) = 200 ->
        exists pre d post,
          s = pre ++ d :: post
          /\ snd (deleteQRCode castObjectId req s) = pre ++ post
          /\ castObjectId (input req) = Some (_id d)
          /\ (forall x, In x pre -> _id x <> _id d)
          /\ visible (user req) d = true
          /\ fst (deleteQRCode castObjectId req s)
             = respond 200
                 (JDeleted "QR code deleted successfully" (summary d))).
Proof.
  intros castObjectId req s. unfold deleteQRCode.
  destruct (castObjectId (input req)) as [id |];
    [| split; [reflexivity | intros H; discriminate H]].
  destruct (findOne _ s) as [d |] eqn:Hfind;
    [| split; [reflexivity | intros H; discriminate H]].
  destruct (findOne_id_split id s d Hfind) as (pre & post & Hs & Hdel & Hid & Hpre).
  destruct (isManufacturer (user req) && _) eqn:Hdeny;
    [split; [reflexivity | intros H; discriminate H] |].
  split; [intros H; contradiction H; reflexivity |].
  intros _. exists pre, d, post. cbn [fst snd]. subst id.
  repeat split; auto.
  unfold visible. destruct (isManufacturer (user req)); [| reflexivity].
  simpl in Hdeny. now apply negb_false_iff in Hdeny.
Qed.

(** X17. Deleting the same document twice, in a store with unique ids: once
    a single delete has been answered 200, the same request is answered 404
    and changes nothing. *)
Theorem delete_one_twice :
  forall (castObjectId : string -> option ObjectId) req s,
    NoDup (map _id s) ->
    statusCode (fst (deleteQRCode castObjectId req s)) = 200 ->
    deleteQRCode castObjectId req (snd (deleteQRCode castObjectId req s))
    = (respond 404 (JMessage "QR code not found."),
       snd (deleteQRCode castObjectId req s)).
Proof.
  intros castObjectId req s Hids Hok.
  unfold deleteQRCode in *.
  destruct (castObjectId (input req)) as [id |]; [| discriminate Hok].
  destruct (findOne _ s) as [d |] eqn:Hfind; [| discriminate Hok].
  destruct (findOne_id_split id s d Hfind) as (pre & post & Hs & Hdel & Hid & Hpre).
  destruct (isManufacturer (user req) && _); [discriminate Hok |].
  cbn [snd]. rewrite Hdel.
  destruct (findOne (fun x => (_id x =? id)%N) (pre ++ post)) as [y |] eqn:Hy;
    [| reflexivity].
  exfalso. apply find_some in Hy. destruct Hy as [Hin Hyid].
  apply N.eqb_eq in Hyid. subst s id.
  apply (NoDup_map_split _id pre post d y Hids Hin). exact Hyid.
Qed.

Lemma delete_one_twice_witness :
  NoDup (map _id sharedStore)
  /\ statusCode
       (fst (deleteQRCode sampleCast
               {| user := maker; validationErrors := [];
                  input := "000000000000000000000001" |} sharedStore)) = 200
  /\ statusCode
       (fst (deleteQRCode sampleCast
               {| user := maker; validationErrors := [];
                  input := "000000000000000000000001" |}
               (snd (deleteQRCode sampleCast
                       {| user := maker; validationErrors := [];
                          input := "000000000000000000000001" |} sharedStore))))
     = 404.
Proof.
  assert (Hids : NoDup (map _id sharedStore))
    by (repeat constructor; simpl; intuition discriminate).
  split; [exact Hids |]. split; [reflexivity |].
  rewrite (delete_one_twice sampleCast
             {| user := maker; validationErrors := [];
                input := "000000000000000000000001" |} sharedStore Hids eq_refl).
  reflexivity.
Defined.

Lemma delete_one_effect_witness :
  statusCode
    (fst (deleteQRCode sampleCast
            {| user := maker; validationErrors := [];
               input := "000000000000000000000002" |} sharedStore)) = 200
  /\ exists pre d post,
      sharedStore = pre ++ d :: post
      /\ snd (deleteQRCode sampleCast
                {| user := maker; validationErrors := [];
                   input := "000000000000000000000002" |} sharedStore)
         = pre ++ post.
Proof.
  split; [reflexivity |].
  destruct (proj2 (delete_one_effect sampleCast
                     {| user := maker; validationErrors := [];
                        input := "000000000000000000000002" |} sharedStore)
              eq_refl) as (pre & d & post & Hs & Hs' & _).
  exists pre, d, post. split; assumption.
Defined.

(** ** Deleting in bulk *)

Lemma length_filter_partition {A : Type} (p : A -> bool) (l : list A) :
  List.length (filter p l) + List.length (filter (fun a => negb (p a)) l)
  = List.length l.
Proof.
  induction l as [| a l IH]; simpl; [reflexivity |].
  destruct (p a); simpl; lia.
Qed.

Lemma filter_filter_negb {A : Type} (p : A -> bool) (l : list A) :
  filter p (filter (fun a => negb (p a)) l) = [].
Proof.
  apply filter_none. intros a Ha. apply filter_In in Ha.
  destruct Ha as [_ Ha]. now apply negb_true_iff in Ha.
Qed.

Section BulkDeleteProperties.

Variable castObjectId : string -> option ObjectId.
Variable regexCompile : string -> option (string -> bool).

(** The possible outcomes of the bulk delete, with the filter it ran. *)
Lemma bulkDelete_outcome req s :
  (statusCode (fst (bulkDeleteQRCodes castObjectId regexCompile req s)) <> 200
   /\ snd (bulkDeleteQRCodes castObjectId regexCompile req s) = s)
  \/ exists query p,
       compileQuery castObjectId regexCompile
         (when (isManufacturer (user req))
               (setGeneratedBy (Oid (User._id (user req)))) query) = Ok p
       /\ filter p s <> []
       /\ bulkDeleteQRCodes castObjectId regexCompile req s
          = (respond 200
               (JBulkDeleted
                  (natString (List.length (filter p s))
                     ++ " QR code(s) deleted successfully")%string
                  (List.length (filter p s))
                  (map summary (filter p s))),
             filter (fun d => negb (p d)) s)
       /\ forall s0,
            bulkDeleteQRCodes castObjectId regexCompile req s0
            = match filter p s0 with
              | [] =>
                  (respond 404 (JMessage "No QR codes found to delete."), s0)
              | _ :: _ =>
                  (respond 200
                     (JBulkDeleted
                        (natString (List.length (filter p s0))
                           ++ " QR code(s) deleted successfully")%string
                        (List.length (filter p s0))
                        (map summary (filter p s0))),
                   filter (fun d => negb (p d)) s0)
              end.
Proof.
  unfold bulkDeleteQRCodes.
  destruct (validationErrors req); [| left; split; [discriminate | reflexivity]].
  match goal with |- context [if ?c then _ else _] => destruct c end;
    [left; split; [discriminate | reflexivity] |].
  match goal with |- context [match ?c with Some _ => _ | None => _ end] =>
    destruct c as [query |] end;
    [| left; split; [discriminate | reflexivity]].
  unfold find, deleteManyBy.
  destruct (compileQuery _ _ _) as [p |] eqn:Hp; cbn [bind];
    [| left; split; [discriminate | reflexivity]].
  destruct (filter p s) as [| x found] eqn:Hfound;
    [left; split; [discriminate | reflexivity] |].
  right. exists query, p. unfold deleteMany. rewrite Hfound.
  split; [exact Hp |]. split; [discriminate |]. split; [reflexivity |].
  intros s0. destruct (filter p s0); reflexivity.
Qed.

Lemma bulkDelete_accounts req s :
  (statusCode (fst (bulkDeleteQRCodes castObjectId regexCompile req s)) <> 200 ->
   snd (bulkDeleteQRCodes castObjectId regexCompile req s) = s)
  /\ (statusCode (fst (bulkDeleteQRCodes castObjectId regexCompile req s)) = 200 ->
      exists removed,
        removed <> []
        /\ subseq removed s
        /\ fst (bulkDeleteQRCodes castObjectId regexCompile req s)
           = respond 200
               (JBulkDeleted
                  (natString (List.length removed)
                     ++ " QR code(s) deleted successfully")%string
                  (List.length removed) (map summary removed))
        /\ List.length (snd (bulkDeleteQRCodes castObjectId regexCompile req s))
           + List.length removed = List.length s
        /\ (forall d, In d s ->
                      In d removed
                      \/ In d (snd (bulkDeleteQRCodes castObjectId regexCompile
                                      req s)))
        /\ (forall d, In d removed ->
                      ~ In d (snd (bulkDeleteQRCodes castObjectId regexCompile
                                     req s)))
        /\ Forall (fun d => visible (user req) d = true) removed).
Proof.
  destruct (bulkDelete_outcome req s)
    as [[Hnot Hsame] | (query & p & Hp & Hne & Hrun & _)].
  - split; [intros _; exact Hsame | intros H; contradiction].
  - rewrite Hrun. cbn [fst snd statusCode respond].
    split; [intros H; contradiction H; reflexivity |].
    intros _. exists (filter p s). repeat split; auto.
    + apply subseq_filter.
    + pose proof (length_filter_partition p s). lia.
    + intros d Hd. destruct (p d) eqn:Hpd.
      * left. apply filter_In. auto.
      * right. apply filter_In. rewrite Hpd. auto.
    + intros d Hd Hkept. apply filter_In in Hd. apply filter_In in Hkept.
      destruct Hd as [_ Hd]. destruct Hkept as [_ Hk]. rewrite Hd in Hk.
      discriminate.
    + apply Forall_forall. intros d Hd. apply filter_In in Hd.
      destruct Hd as [_ Hd]. unfold visible.
      destruct (isManufacturer (user req)); [| reflexivity].
      cbn [when] in Hp. apply N.eqb_eq.
      eapply compileQuery_owner; eauto.
Qed.

Lemma bulkDelete_again req s :
  statusCode (fst (bulkDeleteQRCodes castObjectId regexCompile req s)) = 200 ->
  bulkDeleteQRCodes castObjectId regexCompile req
    (snd (bulkDeleteQRCodes castObjectId regexCompile req s))
  = (respond 404 (JMessage "No QR codes found to delete."),
     snd (bulkDeleteQRCodes castObjectId regexCompile req s)).
Proof.
  destruct (bulkDelete_outcome req s)
    as [[Hnot _] | (query & p & _ & _ & Hrun & Hany)]; [intros H; contradiction |].
  intros _. rewrite Hrun. cbn [snd]. rewrite Hany.
  now rewrite filter_filter_negb.
Qed.

Lemma castAll_map ids oids :
  map castObjectId ids = map Some oids -> castAll castObjectId ids = Ok oids.
Proof.
  revert oids. induction ids as [| x ids IH]; intros [| o oids]; simpl;
    try discriminate; [reflexivity |].
  intros H. injection H as Hx Hrest. rewrite Hx, (IH _ Hrest). reflexivity.
Qed.

Lemma castAll_bad ids bad :
  In bad ids -> castObjectId bad = None ->
  castAll castObjectId ids = Throw castErrorMessage.
Proof.
  induction ids as [| x ids IH]; simpl; [contradiction |].
  intros [-> | Hin] Hbad; [now rewrite Hbad |].
  destruct (castObjectId x); [| reflexivity]. now rewrite (IH Hin Hbad).
Qed.

Lemma compileQuery_ids u ids oids :
  castAll castObjectId ids = Ok oids ->
  exists p,
    compileQuery castObjectId regexCompile
      (when (isManufacturer u) (setGeneratedBy (Oid (User._id u)))
            (setIdIn ids emptyQuery)) = Ok p
    /\ forall d, p d = existsb (N.eqb (_id d)) oids && visible u d.
Proof.
  intros Hcast. unfold visible, compileQuery.
  destruct (isManufacturer u); cbn [when q_idIn q_status q_batchId
    q_generatedBy q_search setGeneratedBy setIdIn emptyQuery optResult castRef];
    rewrite Hcast; cbn [bind]; eexists; (split; [reflexivity |]);
    intros d; cbn [holds]; now rewrite !andb_true_r.
Qed.

Lemma compileQuery_ids_bad u ids :
  castAll castObjectId ids = Throw castErrorMessage ->
  compileQuery castObjectId regexCompile
    (when (isManufacturer u) (setGeneratedBy (Oid (User._id u)))
          (setIdIn ids emptyQuery)) = Throw castErrorMessage.
Proof.
  intros Hcast. unfold compileQuery.
  destruct (isManufacturer u); cbn [when q_idIn setGeneratedBy setIdIn
    emptyQuery optResult]; rewrite Hcast; reflexivity.
Qed.

Lemma bulkDelete_by_ids u id ids b s :
  truthy b = false ->
  (forall bad, In bad (id :: ids) -> castObjectId bad = None ->
               bulkDeleteQRCodes castObjectId regexCompile
                 (bulkDeleteRequest u [] (Some (id :: ids)) b) s
               = (serverError castErrorMessage, s))
  /\ (forall oids,
         map castObjectId (id :: ids) = map Some oids ->
         snd (bulkDeleteQRCodes castObjectId regexCompile
                (bulkDeleteRequest u [] (Some (id :: ids)) b) s)
         = filter (fun d => negb (existsb (N.eqb (_id d)) oids && visible u d)) s).
Proof.
  intros Hb.
  assert (Hrun : bulkDeleteQRCodes castObjectId regexCompile
                   (bulkDeleteRequest u [] (Some (id :: ids)) b) s
                 = match find castObjectId regexCompile
                           (when (isManufacturer u)
                                 (setGeneratedBy (Oid (User._id u)))
                                 (setIdIn (id :: ids) emptyQuery)) s with
                   | Throw e => (serverError e, s)
                   | Ok [] =>
                       (respond 404 (JMessage "No QR codes found to delete."), s)
                   | Ok ((_ :: _) as qrCodes) =>
                       match deleteManyBy castObjectId regexCompile
                               (when (isManufacturer u)
                                     (setGeneratedBy (Oid (User._id u)))
                                     (setIdIn (id :: ids) emptyQuery)) s with
                       | Throw e => (serverError e, s)
                       | Ok (deletedCount, s') =>
                           (respond 200
                              (JBulkDeleted
                                 (natString deletedCount
                                    ++ " QR code(s) deleted successfully")%string
                                 deletedCount (map summary qrCodes)), s')
                       end
                   end).
  { destruct b as [[| c r] |]; [reflexivity | discriminate Hb | reflexivity]. }
  rewrite Hrun. unfold find, deleteManyBy. split.
  - intros bad Hin Hbad.
    rewrite (compileQuery_ids_bad u _ (castAll_bad _ _ Hin Hbad)). reflexivity.
  - intros oids Hcast. apply castAll_map in Hcast.
    destruct (compileQuery_ids u _ _ Hcast) as (p & -> & Hp). cbn [bind].
    assert (Hneg : filter (fun d => negb (p d)) s
                   = filter (fun d => negb (existsb (N.eqb (_id d)) oids
                                            && visible u d)) s).
    { apply filter_ext. intros d. now rewrite Hp. }
    destruct (filter p s) as [| x found] eqn:Hfound.
    + cbn [snd]. rewrite <- Hneg. symmetry. apply filter_all.
      intros d Hin. destruct (p d) eqn:Hpd; [| reflexivity].
      assert (Hd : In d (filter p s)) by (apply filter_In; auto).
      rewrite Hfound in Hd. destruct Hd.
    + unfold deleteMany. cbn [snd]. exact Hneg.
Qed.

End BulkDeleteProperties.

(** X18. A bulk delete answered 200 removes at least one document, all of
    them within the caller's reach; the response reports exactly the
    removed documents, in store order, and [deletedCount] is their number,
    which is also by how much the store shrank.  Every document is either
    removed or kept, never both.  Any other answer leaves the store as it
    was. *)
Theorem bulk_delete_accounts :
  forall (castObjectId : string -> option ObjectId)
         (regexCompile : string -> option (string -> bool)) req s,
    (statusCode (fst (bulkDeleteQRCodes castObjectId regexCompile req s)) <> 200 ->
     snd (bulkDeleteQRCodes castObjectId regexCompile req s) = s)
    /\ (statusCode (fst (bulkDeleteQRCodes castObjectId regexCompile req s)) = 200 ->
        exists removed,
          removed <> []
          /\ subseq removed s
          /\ fst (bulkDeleteQRCodes castObjectId regexCompile req s)
             = respond 200
                 (JBulkDeleted
                    (natString (List.length removed)
                       ++ " QR code(s) deleted successfully")%string
                    (List.length removed) (map summary removed))
          /\ List.length (snd (bulkDeleteQRCodes castObjectId regexCompile req s))
             + List.length removed = List.length s
          /\ (forall d, In d s ->
                        In d removed
                        \/ In d (snd (bulkDeleteQRCodes castObjectId regexCompile
                                        req s)))
          /\ (forall d, In d removed ->
                        ~ In d (snd (bulkDeleteQRCodes castObjectId regexCompile
                                       req s)))
          /\ Forall (fun d => visible (user req) d = true) removed).
Proof. exact bulkDelete_accounts. Qed.

Lemma bulk_delete_accounts_witness :
  statusCode
    (fst (bulkDeleteQRCodes sampleCast literalRegex
            (bulkDeleteRequest maker [] None (Some "batch_m")) sharedStore)) = 200
  /\ exists removed : list IQRCode,
      List.length
        (snd (bulkDeleteQRCodes sampleCast literalRegex
                (bulkDeleteRequest maker [] None (Some "batch_m")) sharedStore))
      + List.length removed = List.length sharedStore.
Proof.
  split; [reflexivity |].
  destruct (proj2 (bulk_delete_accounts sampleCast literalRegex
                     (bulkDeleteRequest maker [] None (Some "batch_m"))
                     sharedStore) eq_refl)
    as (removed & _ & _ & _ & Hlen & _).
  exists removed. exact Hlen.
Defined.

(** X19. A bulk delete that succeeded has nothing left to do: the same
    request on the store it left is answered 404 and changes nothing. *)
Theorem bulk_delete_twice :
  forall (castObjectId : string -> option ObjectId)
         (regexCompile : string -> option (string -> bool)) req s,
    statusCode (fst (bulkDeleteQRCodes castObjectId regexCompile req s)) = 200 ->
    bulkDeleteQRCodes castObjectId regexCompile req
      (snd (bulkDeleteQRCodes castObjectId regexCompile req s))
    = (respond 404 (JMessage "No QR codes found to delete."),
       snd (bulkDeleteQRCodes castObjectId regexCompile req s)).
Proof. exact bulkDelete_again. Qed.

Lemma bulk_delete_twice_witness :
  statusCode
    (fst (bulkDeleteQRCodes sampleCast literalRegex
            (bulkDeleteRequest maker [] None (Some "batch_m")) sharedStore)) = 200
  /\ statusCode
       (fst (bulkDeleteQRCodes sampleCast literalRegex
               (bulkDeleteRequest maker [] None (Some "batch_m"))
               (snd (bulkDeleteQRCodes sampleCast literalRegex
                       (bulkDeleteRequest maker [] None (Some "batch_m"))
                       sharedStore)))) = 404.
Proof.
  split; [reflexivity |].
  rewrite (bulk_delete_twice sampleCast literalRegex
             (bulkDeleteRequest maker [] None (Some "batch_m")) sharedStore
             eq_refl).
  reflexivity.
Defined.

(** X20. With no [batchId] (absent or empty) and a non-empty id list, the
    bulk delete goes by the ids: if one of them does not cast to an ObjectId
    the request is answered 500 and nothing is deleted; otherwise what stays
    are the documents whose [_id] is not in the list and those the caller
    cannot reach. *)
Theorem bulk_delete_by_ids :
  forall (castObjectId : string -> option ObjectId)
         (regexCompile : string -> option (string -> bool))
         u id ids b s,
    truthy b = false ->
    (forall bad, In bad (id :: ids) -> castObjectId bad = None ->
                 bulkDeleteQRCodes castObjectId regexCompile
                   (bulkDeleteRequest u [] (Some (id :: ids)) b) s
                 = (serverError castErrorMessage, s))
    /\ (forall oids,
           map castObjectId (id :: ids) = map Some oids ->
           snd (bulkDeleteQRCodes castObjectId regexCompile
                  (bulkDeleteRequest u [] (Some (id :: ids)) b) s)
           = filter (fun d => negb (existsb (N.eqb (_id d)) oids
                                    && visible u d)) s).
Proof. exact bulkDelete_by_ids. Qed.

Lemma bulk_delete_by_ids_witness :
  truthy (Some EmptyString) = false
  /\ bulkDeleteQRCodes sampleCast literalRegex
       (bulkDeleteRequest admin []
          (Some ["000000000000000000000003"; "not-an-id"]) (Some EmptyString))
       sharedStore
     = (serverError castErrorMessage, sharedStore)
  /\ snd (bulkDeleteQRCodes sampleCast literalRegex
            (bulkDeleteRequest maker []
               (Some ["000000000000000000000003"; "000000000000000000000001"])
               (Some EmptyString))
            sharedStore)
     = [makerSecond; rivalOnly].
Proof.
  split; [reflexivity |]. split.
  - apply (proj1 (bulk_delete_by_ids sampleCast literalRegex admin
                    "000000000000000000000003" ["not-an-id"] (Some EmptyString)
                    sharedStore eq_refl) "not-an-id").
    + right. left. reflexivity.
    + reflexivity.
  - rewrite (proj2 (bulk_delete_by_ids sampleCast literalRegex maker
                      "000000000000000000000003" ["000000000000000000000001"]
                      (Some EmptyString) sharedStore eq_refl) [3%N; 1%N] eq_refl).
    reflexivity.
Defined.

(** ** Statistics *)

Lemma sameStatus_eq (a b : option QRCodeStatus) :
  sameStatus a b = true <-> a = b.
Proof.
  destruct a as [[|] |], b as [[|] |]; simpl; split; congruence.
Qed.

Lemma statusCountOf_countStatus st d groups :
  statusCountOf st (countStatus d groups)
  = statusCountOf st groups + (if sameStatus (status d) st then 1 else 0).
Proof.
  induction groups as [| g groups IH]; simpl.
  - destruct (sameStatus (status d) st); reflexivity.
  - destruct (sameStatus (sc_status g) (status d)) eqn:Hg; simpl.
    + apply sameStatus_eq in Hg. rewrite Hg.
      destruct (sameStatus (status d) st); lia.
    + rewrite IH. destruct (sameStatus (sc_status g) st); lia.
Qed.

Lemma statusCountOf_fold st docs groups :
  statusCountOf st (fold_left (fun gs d => countStatus d gs) docs groups)
  = statusCountOf st groups
    + List.length (filter (fun d => sameStatus (status d) st) docs).
Proof.
  revert groups. induction docs as [| d docs IH]; intros groups; simpl;
    [lia |].
  rewrite IH, statusCountOf_countStatus.
  destruct (sameStatus (status d) st); simpl; lia.
Qed.

Lemma filter_ext_length {A : Type} (p q : A -> bool) (l : list A) :
  (forall a, p a = q a) ->
  List.length (filter p l) = List.length (filter q l).
Proof.
  intros H. induction l as [| a l IH]; simpl; [reflexivity |].
  rewrite H. destruct (q a); simpl; now rewrite IH.
Qed.

Lemma sameStatus_hasStatus st d :
  sameStatus (status d) (Some st) = hasStatus st d.
Proof. unfold hasStatus. destruct (status d) as [[|] |], st; reflexivity. Qed.

Lemma countBatch_keys d groups k :
  In k (map bs_batchId (countBatch d groups)) ->
  In k (map bs_batchId groups) \/ k = batchId d.
Proof.
  induction groups as [| g groups IH]; simpl.
  - intros [<- | []]. now right.
  - destruct (String.eqb (bs_batchId g) (batchId d)); simpl.
    + intros [<- | H]; auto.
    + intros [<- | H]; auto. destruct (IH H); auto.
Qed.

Lemma countBatch_NoDup d groups :
  NoDup (map bs_batchId groups) ->
  NoDup (map bs_batchId (countBatch d groups)).
Proof.
  induction groups as [| g groups IH]; simpl.
  - intros _. repeat constructor. intros [].
  - intros Hnd. inversion Hnd as [| ? ? Hnotin Hnd']; subst.
    destruct (String.eqb_spec (bs_batchId g) (batchId d)) as [Heq | Hne]; simpl.
    + now constructor.
    + constructor; [| now apply IH].
      intros Hin. apply countBatch_keys in Hin. destruct Hin; auto.
Qed.

Lemma batchCountOf_countBatch b d groups :
  batchCountOf b (countBatch d groups)
  = batchCountOf b groups + (if String.eqb (batchId d) b then 1 else 0).
Proof.
  induction groups as [| g groups IH]; simpl.
  - destruct (String.eqb (batchId d) b); reflexivity.
  - destruct (String.eqb_spec (bs_batchId g) (batchId d)) as [Heq | Hne]; simpl.
    + rewrite Heq. destruct (String.eqb (batchId d) b); lia.
    + rewrite IH. destruct (String.eqb (bs_batchId g) b); lia.
Qed.

Lemma groupByBatch_fold docs groups :
  NoDup (map bs_batchId groups) ->
  NoDup (map bs_batchId (fold_left (fun gs d => countBatch d gs) docs groups))
  /\ forall b,
       batchCountOf b (fold_left (fun gs d => countBatch d gs) docs groups)
       = batchCountOf b groups
         + List.length (filter (fun d => String.eqb (batchId d) b) docs).
Proof.
  revert groups. induction docs as [| d docs IH]; intros groups Hnd; simpl.
  - split; [exact Hnd | intros b; lia].
  - destruct (IH (countBatch d groups) (countBatch_NoDup d groups Hnd))
      as [Hnd' Hcount].
    split; [exact Hnd' |]. intros b. rewrite Hcount, batchCountOf_countBatch.
    destruct (String.eqb (batchId d) b); simpl; lia.
Qed.

Lemma batchCountOf_absent b groups :
  ~ In b (map bs_batchId groups) -> batchCountOf b groups = 0.
Proof.
  induction groups as [| g groups IH]; simpl; [reflexivity |].
  intros Hnotin. destruct (String.eqb_spec (bs_batchId g) b) as [Heq | Hne].
  - exfalso. auto.
  - apply IH. auto.
Qed.

Lemma batchCountOf_In g groups :
  NoDup (map bs_batchId groups) -> In g groups ->
  batchCountOf (bs_batchId g) groups = bs_count g.
Proof.
  induction groups as [| x groups IH]; simpl; [contradiction |].
  intros Hnd Hin. inversion Hnd as [| ? ? Hnotin Hnd']; subst.
  destruct Hin as [-> | Hin].
  - rewrite String.eqb_refl, (batchCountOf_absent _ _ Hnotin). lia.
  - destruct (String.eqb_spec (bs_batchId x) (bs_batchId g)) as [Heq | Hne].
    + exfalso. apply Hnotin. rewrite Heq. now apply in_map.
    + now apply IH.
Qed.

Lemma insertBatchDesc_In g x l :
  In x (insertBatchDesc g l) -> x = g \/ In x l.
Proof.
  induction l as [| a l IH]; simpl.
  - intros [<- | []]. now left.
  - destruct (dateLeb (bs_createdAt a) (bs_createdAt g)); simpl.
    + intros [<- | H]; auto.
    + intros [<- | H]; auto. destruct (IH H); auto.
Qed.

Lemma sortBatchesDesc_In x l : In x (sortBatchesDesc l) -> In x l.
Proof.
  unfold sortBatchesDesc. induction l as [| a l IH]; simpl; [auto |].
  intros H. apply insertBatchDesc_In in H. destruct H as [-> | H]; auto.
Qed.

Lemma length_filter_and {A : Type} (p q : A -> bool) (l : list A) :
  List.length (filter (fun a => p a && q a) l)
  = List.length (filter q (filter p l)).
Proof.
  induction l as [| a l IH]; simpl; [reflexivity |].
  destruct (p a); simpl; [destruct (q a); simpl; now rewrite IH | exact IH].
Qed.

Lemma length_filter_status (l : list IQRCode) :
  List.length (filter (hasStatus UNREDEEMED) l)
  + List.length (filter (hasStatus REDEEMED) l)
  + List.length (withoutStatus l)
  = List.length l.
Proof.
  unfold withoutStatus, hasStatus.
  induction l as [| d l IH]; simpl; [reflexivity |].
  destruct (status d) as [[|] |]; simpl; lia.
Qed.

(** X21. The statistics add up.  They are about the documents within the
    caller's reach (all of them for the super admin, the caller's own for a
    manufacturer).  The total is their number; the unredeemed and redeemed
    counts are the numbers of those whose status is unredeemed and
    redeemed, and together with the number of those that have no status
    (the documents the generation handler stored) they make the total, so
    that the two counts alone can fall short of it.  The per-status groups
    give the same numbers, the documents without a status being the group
    [null].  At most ten batches are listed, and each listed batch shows
    the number of reachable documents that carry its batch id, which is at
    least one. *)
Theorem stats_add_up :
  forall (req : Request unit) (s : Store),
    st_totalQRCodes (getQRCodeStats req s)
    = List.length (inScope (user req) s)
    /\ st_unredeemedCount (getQRCodeStats req s)
       = List.length (filter (hasStatus UNREDEEMED) (inScope (user req) s))
    /\ st_redeemedCount (getQRCodeStats req s)
       = List.length (filter (hasStatus REDEEMED) (inScope (user req) s))
    /\ st_unredeemedCount (getQRCodeStats req s)
       + st_redeemedCount (getQRCodeStats req s)
       + List.length (withoutStatus (inScope (user req) s))
       = st_totalQRCodes (getQRCodeStats req s)
    /\ statusCountOf (Some UNREDEEMED) (st_byStatus (getQRCodeStats req s))
       = st_unredeemedCount (getQRCodeStats req s)
    /\ statusCountOf (Some REDEEMED) (st_byStatus (getQRCodeStats req s))
       = st_redeemedCount (getQRCodeStats req s)
    /\ statusCountOf None (st_byStatus (getQRCodeStats req s))
       = List.length (withoutStatus (inScope (user req) s))
    /\ List.length (st_recentBatches (getQRCodeStats req s)) <= 10
    /\ forall g,
         In g (st_recentBatches (getQRCodeStats req s)) ->
         1 <= bs_count g
         /\ bs_count g
            = List.length
                (filter (fun d => String.eqb (batchId d) (bs_batchId g))
                        (inScope (user req) s)).
Proof.
  intros req s. unfold getQRCodeStats, inScope.
  cbn [st_totalQRCodes st_unredeemedCount st_redeemedCount st_byStatus
       st_recentBatches].
  change (fun d : IQRCode =>
            if isManufacturer (user req)
            then (generatedBy d =? User._id (user req))%N else true)
    with (visible (user req)).
  rewrite !(length_filter_and (visible (user req))).
  split; [reflexivity |]. split; [reflexivity |]. split; [reflexivity |].
  split; [apply length_filter_status |].
  split.
  { unfold groupByStatus. rewrite statusCountOf_fold. simpl.
    apply filter_ext_length. intros d. apply sameStatus_hasStatus. }
  split.
  { unfold groupByStatus. rewrite statusCountOf_fold. simpl.
    apply filter_ext_length. intros d. apply sameStatus_hasStatus. }
  split.
  { unfold groupByStatus. rewrite statusCountOf_fold. simpl.
    unfold withoutStatus. apply filter_ext_length. intros d.
    destruct (status d); reflexivity. }
  split; [rewrite length_firstn; lia |].
  intros g H. apply In_firstn, sortBatchesDesc_In in H.
  destruct (groupByBatch_fold (filter (visible (user req)) s) [])
    as [Hnd Hcount]; [constructor |].
  fold (groupByBatch (filter (visible (user req)) s)) in Hnd, Hcount.
  pose proof (batchCountOf_In g _ Hnd H) as Hg. rewrite Hcount in Hg.
  simpl in Hg.
  assert (Hpos : forall docs gs x,
             (forall y, In y gs -> 1 <= bs_count y) ->
             In x (fold_left (fun gs0 d => countBatch d gs0) docs gs) ->
             1 <= bs_count x).
  { clear. induction docs as [| d docs IH]; intros gs x Hgs; simpl; [auto |].
    apply IH. intros y Hy. clear IH.
    induction gs as [| a gs IHgs]; simpl in Hy.
    - destruct Hy as [<- | []]. simpl. lia.
    - destruct (String.eqb (bs_batchId a) (batchId d)).
      + destruct Hy as [<- | Hy]; [simpl; lia | apply Hgs; now right].
      + destruct Hy as [<- | Hy]; [apply Hgs; now left |].
        apply IHgs; auto. intros z Hz. apply Hgs. now right. }
  split.
  - apply (Hpos (filter (visible (user req)) s) [] g); [intros y [] |].
    exact H.
  - symmetry. exact Hg.
Qed.

(** What the handler reports of a store that a generation request filled:
    five codes, none of them counted as unredeemed. *)
Example stats_after_generation :
  getQRCodeStats {| user := maker; validationErrors := []; input := tt |}
    (snd (generateBulkQRCodes true plainEnv
            (generateRequest maker [] 5 (Some 10) None) []))
  = {| st_totalQRCodes := 5; st_unredeemedCount := 0; st_redeemedCount := 0;
       st_byStatus := [{| sc_status := None; sc_count := 5 |}];
       st_recentBatches :=
         [{| bs_batchId := batchIdOf plainEnv; bs_count := 5; bs_quantity := 5;
             bs_createdAt := None |}] |}.
Proof. vm_compute. reflexivity. Qed.

Example stats_sample :
  getQRCodeStats {| user := maker; validationErrors := []; input := tt |}
    (sharedStore ++ [markRedeemed 9%N 101%N 9%N freshCode])
  = {| st_totalQRCodes := 3; st_unredeemedCount := 2; st_redeemedCount := 1;
       st_byStatus := [{| sc_status := Some UNREDEEMED; sc_count := 2 |};
                       {| sc_status := Some REDEEMED; sc_count := 1 |}];
       st_recentBatches :=
         [{| bs_batchId := "batch_m"; bs_count := 2; bs_quantity := 2;
             bs_createdAt := Some 1000%N |};
          {| bs_batchId := "batch_lx2k9_0a1b2c3d"; bs_count := 1;
             bs_quantity := 1; bs_createdAt := Some 1000%N |}] |}.
Proof. vm_compute. reflexivity. Qed.

(** ** The router *)

(** X22. Who gets through the router.  A request that reaches a role guard
    without a user is answered 401 on every route.  The redemption route
    hands any authenticated user, whatever the type, to [redeemQRCode].  The generation, listing, statistics and
    deletion routes hand super admins and manufacturers to their handlers
    and answer an app user 403; a refusal never touches the store. *)
Theorem routes_guard :
  forall (castObjectId : string -> option ObjectId)
         (regexCompile : string -> option (string -> bool))
         rejects env clock (u : User.t) errs
         (gb : GenerateBody.t) (lq : ListQuery.t) (id : string)
         (db : BulkDeleteBody.t) (rb : RedeemBody.t) (s : Store),
    (postGenerate rejects env None gb s
     = (respond 401 (JMessage "User not authenticated."), s)
     /\ getList castObjectId regexCompile None lq s
        = (respond 401 (JMessage "User not authenticated."), s)
     /\ getStats None s = inl (respond 401 (JMessage "User not authenticated."))
     /\ deleteById castObjectId None id s
        = (respond 401 (JMessage "User not authenticated."), s)
     /\ deleteBulk castObjectId regexCompile None errs db s
        = (respond 401 (JMessage "User not authenticated."), s)
     /\ postRedeem clock None errs rb s
        = (respond 401 (JMessage "User not authenticated."), s))
    /\ postRedeem clock (Some u) errs rb s
       = redeemQRCode clock
           {| user := u; validationErrors := errs; input := rb |} s
    /\ match User.userType u with
       | APP_USER =>
           postGenerate rejects env (Some u) gb s
           = (respond 403 (JMessage "Access denied. Insufficient permissions."), s)
           /\ getList castObjectId regexCompile (Some u) lq s
              = (respond 403
                   (JMessage "Access denied. Insufficient permissions."), s)
           /\ getStats (Some u) s
              = inl (respond 403
                       (JMessage "Access denied. Insufficient permissions."))
           /\ deleteById castObjectId (Some u) id s
              = (respond 403
                   (JMessage "Access denied. Insufficient permissions."), s)
           /\ deleteBulk castObjectId regexCompile (Some u) errs db s
              = (respond 403
                   (JMessage "Access denied. Insufficient permissions."), s)
       | _ =>
           postGenerate rejects env (Some u) gb s
           = generateBulkQRCodes rejects env
               {| user := u; validationErrors := validateQRCodeGeneration gb;
                  input := gb |} s
           /\ getList castObjectId regexCompile (Some u) lq s
              = getQRCodes castObjectId regexCompile
                  {| user := u; validationErrors := []; input := lq |} s
           /\ getStats (Some u) s
              = inr (getQRCodeStats
                       {| user := u; validationErrors := []; input := tt |} s)
           /\ deleteById castObjectId (Some u) id s
              = deleteQRCode castObjectId
                  {| user := u; validationErrors := []; input := id |} s
           /\ deleteBulk castObjectId regexCompile (Some u) errs db s
              = bulkDeleteQRCodes castObjectId regexCompile
                  {| user := u; validationErrors := errs; input := db |} s
       end.
Proof.
  intros. split; [repeat split |]. split.
  - unfold postRedeem, guarded, requireAnyUser, authorize.
    destruct (User.userType u); reflexivity.
  - unfold postGenerate, getList, getStats, deleteById, deleteBulk, guarded,
      requirePortalUser, authorize.
    destruct (User.userType u); repeat split.
Qed.

Lemma validateQRCodeGeneration_bounds (b : GenerateBody.t) :
  validateQRCodeGeneration b = [] <-> withinBounds b = true.
Proof.
  unfold validateQRCodeGeneration, withinBounds.
  destruct ((1 <=? N.of_nat (GenerateBody.quantity b))%N
            && (N.of_nat (GenerateBody.quantity b) <=? 10000)%N);
    cbn [app andb]; [| split; intros H; discriminate H].
  destruct (GenerateBody.length b) as [l |].
  - destruct ((8 <=? l) && (l <=? 20)); cbn [app andb];
      [| split; intros H; discriminate H].
    destruct (GenerateBody.metadata b) as [[fields | text] |]; cbn [isObject];
      split; intros H; try reflexivity; discriminate H.
  - cbn [app andb].
    destruct (GenerateBody.metadata b) as [[fields | text] |]; cbn [isObject];
      split; intros H; try reflexivity; discriminate H.
Qed.

Lemma validateQRCodeGeneration_messages (b : GenerateBody.t) :
  (In "Quantity must be between 1 and 10,000" (validateQRCodeGeneration b)
   <-> (1 <=? N.of_nat (GenerateBody.quantity b))%N
       && (N.of_nat (GenerateBody.quantity b) <=? 10000)%N = false)
  /\ (In "Length must be between 8 and 20 characters"
         (validateQRCodeGeneration b)
      <-> exists l, GenerateBody.length b = Some l
                    /\ (8 <=? l) && (l <=? 20) = false)
  /\ (In "Metadata must be an object" (validateQRCodeGeneration b)
      <-> exists text, GenerateBody.metadata b = Some (MOther text)).
Proof.
  unfold validateQRCodeGeneration. destruct b as [q len m].
  cbn [GenerateBody.quantity GenerateBody.length GenerateBody.metadata].
  destruct ((1 <=? N.of_nat q)%N && (N.of_nat q <=? 10000)%N);
    destruct len as [l |];
    [destruct ((8 <=? l) && (l <=? 20)) eqn:Hl | |
     destruct ((8 <=? l) && (l <=? 20)) eqn:Hl |];
    destruct m as [[fields | text] |]; cbn [isObject app];
    repeat split; intros H;
    repeat match goal with
           | H : In _ _ |- _ => simpl in H
           | H : _ \/ _ |- _ => destruct H
           | H : False |- _ => destruct H
           | H : exists _, _ |- _ => destruct H
           | H : _ /\ _ |- _ => destruct H
           end;
    try discriminate; try congruence; simpl; eauto 6.
Qed.

(** X23. The bounds of the generation route, for a body whose quantity and
    length are non-negative JSON integers.  A super admin or manufacturer
    asking for codes is answered 400 exactly when the quantity is not from
    1 to 10000, or a given length is not from 8 to 20, or a given metadata
    is not an object; the answer then lists the failed checks and the
    store is not touched.  Each of the three messages is listed exactly
    when its own check fails.  Within the bounds the answer is never a
    400. *)
Theorem generate_route_bounds :
  forall rejects env (u : User.t) (b : GenerateBody.t) (s : Store),
    User.userType u <> APP_USER ->
    isValidationError (fst (postGenerate rejects env (Some u) b s))
    = negb (withinBounds b)
    /\ (withinBounds b = false ->
        postGenerate rejects env (Some u) b s
        = (respond 400 (JErrors (validateQRCodeGeneration b)), s))
    /\ (In "Quantity must be between 1 and 10,000" (validateQRCodeGeneration b)
        <-> (1 <=? N.of_nat (GenerateBody.quantity b))%N
            && (N.of_nat (GenerateBody.quantity b) <=? 10000)%N = false)
    /\ (In "Length must be between 8 and 20 characters"
           (validateQRCodeGeneration b)
        <-> exists l, GenerateBody.length b = Some l
                      /\ (8 <=? l) && (l <=? 20) = false)
    /\ (In "Metadata must be an object" (validateQRCodeGeneration b)
        <-> exists text, GenerateBody.metadata b = Some (MOther text)).
Proof.
  intros rejects env u b s Hu.
  assert (Hroute : postGenerate rejects env (Some u) b s
                   = generateBulkQRCodes rejects env
                       {| user := u;
                          validationErrors := validateQRCodeGeneration b;
                          input := b |} s).
  { unfold postGenerate, guarded, requirePortalUser, authorize.
    destruct (User.userType u); [contradiction | reflexivity | reflexivity]. }
  rewrite Hroute. unfold generateBulkQRCodes. cbn [validationErrors input user].
  pose proof (validateQRCodeGeneration_bounds b) as Hb.
  split; [| split].
  - destruct (validateQRCodeGeneration b) as [| e errs] eqn:Hv.
    + assert (Hin : withinBounds b = true) by (now apply Hb).
      rewrite Hin. unfold withinBounds in Hin.
      apply andb_true_iff in Hin. destruct Hin as [Hin _].
      apply andb_true_iff in Hin. destruct Hin as [Hq _].
      apply andb_true_iff in Hq. destruct Hq as [_ Hmax].
      replace (10000 <? N.of_nat (GenerateBody.quantity b))%N with false
        by (symmetry; apply N.ltb_ge; now apply N.leb_le).
      destruct (generateMultipleUniqueQRCodes _ _ _ s); [| reflexivity].
      destruct (insertMany rejects _ s) as [[result | e] s']; reflexivity.
    + assert (Hout : withinBounds b = false).
      { destruct (withinBounds b); [| reflexivity].
        destruct Hb as [_ Hb]. discriminate (Hb eq_refl). }
      rewrite Hout. reflexivity.
  - intros Hout. destruct (validateQRCodeGeneration b) as [| e errs] eqn:Hv;
      [| reflexivity].
    destruct Hb as [Hb _]. rewrite (Hb eq_refl) in Hout. discriminate Hout.
  - apply validateQRCodeGeneration_messages.
Qed.

Lemma generate_route_bounds_witness :
  User.userType maker <> APP_USER
  /\ isValidationError
       (fst (postGenerate true plainEnv (Some maker)
               {| GenerateBody.quantity := 100 * 100; GenerateBody.length := Some 20;
                  GenerateBody.metadata := None |} oneCodeStore)) = false
  /\ isValidationError
       (fst (postGenerate true plainEnv (Some maker)
               {| GenerateBody.quantity := 100 * 100 + 1; GenerateBody.length := Some 20;
                  GenerateBody.metadata := None |} oneCodeStore)) = true
  /\ isValidationError
       (fst (postGenerate true plainEnv (Some maker)
               {| GenerateBody.quantity := 5; GenerateBody.length := Some 7;
                  GenerateBody.metadata := None |} oneCodeStore)) = true
  /\ isValidationError
       (fst (postGenerate true plainEnv (Some maker)
               {| GenerateBody.quantity := 0; GenerateBody.length := None;
                  GenerateBody.metadata := None |} oneCodeStore)) = true
  /\ isValidationError
       (fst (postGenerate true plainEnv (Some maker)
               {| GenerateBody.quantity := 5; GenerateBody.length := None;
                  GenerateBody.metadata := Some (MOther "[1,2]") |}
               oneCodeStore)) = true
  /\ isValidationError
       (fst (postGenerate true plainEnv (Some maker)
               {| GenerateBody.quantity := 5; GenerateBody.length := None;
                  GenerateBody.metadata := Some (MObject [("lot", "7")]) |}
               oneCodeStore)) = false.
Proof.
  assert (Hu : User.userType maker <> APP_USER) by discriminate.
  split; [exact Hu |].
  rewrite !(proj1 (generate_route_bounds true plainEnv maker _ oneCodeStore Hu)).
  vm_compute. tauto.
Defined.

(** ** More on redemption and generation *)

Lemma redeem_spent clock req c s :
  RedeemBody.code (input req) = Some c ->
  isValidQRCode c = true ->
  (forall d, In d s -> code d = c -> status d = Some REDEEMED) ->
  redeemQRCode clock req s
  = (respond 404 (JMessage "QR code not found or already redeemed."), s).
Proof.
  intros Hc Hv Hspent. unfold redeemQRCode. rewrite Hc.
  destruct c as [| a c]; [discriminate Hv |]. rewrite Hv. cbn [negb].
  destruct (findOne _ s) as [d |] eqn:Hfind; [| reflexivity].
  apply find_some in Hfind. destruct Hfind as [Hin Hd].
  apply unredeemedWithCode_spec in Hd. destruct Hd as [Hcode Hst].
  rewrite (Hspent d Hin Hcode) in Hst. discriminate Hst.
Qed.

Lemma serveRedeems_spent reqs c s :
  allAskFor c reqs ->
  isValidQRCode c = true ->
  (forall d, In d s -> code d = c -> status d = Some REDEEMED) ->
  serveRedeems reqs s
  = (repeat (respond 404 (JMessage "QR code not found or already redeemed."))
            (List.length reqs), s).
Proof.
  intros Hall Hv Hspent. induction Hall as [| [clock req] reqs Hc _ IH];
    [reflexivity |].
  cbn [serveRedeems]. rewrite (redeem_spent clock req c s Hc Hv Hspent), IH.
  reflexivity.
Qed.

(** X24. Served one after the other, any number of redemption requests for
    the same code share one success: in a store with unique ids and codes
    that holds the code unredeemed, the first request is answered 200,
    with the id, code and batch of the document and the time of the
    request, and every later one 404.  The final store is the first one
    with that document redeemed in place: it is there, with the same id,
    code and other identity fields, its status redeemed, [redeemedBy] the
    first caller and [redeemedAt] the time of the first request; the
    documents around it are untouched, and no document with the code is
    left unredeemed or redeemed by somebody else. *)
Theorem serial_redeems_exactly_once :
  forall clock req reqs c s d,
    uniqueStore s ->
    isValidQRCode c = true ->
    In d s -> code d = c -> status d = Some UNREDEEMED ->
    allAskFor c ((clock, req) :: reqs) ->
    exists first s' pre post d',
      serveRedeems ((clock, req) :: reqs) s
      = (first
           :: repeat
                (respond 404 (JMessage "QR code not found or already redeemed."))
                (List.length reqs), s')
      /\ statusCode first = 200
      /\ first = respond 200
                   (JRedeemed "QR code redeemed successfully"
                      (_id d) c (batchId d) (Some (clock 0)))
      /\ s = pre ++ d :: post
      /\ s' = pre ++ d' :: post
      /\ In d' s'
      /\ sameIdentity d d'
      /\ status d' = Some REDEEMED
      /\ redeemedBy d' = Some (User._id (user req))
      /\ redeemedAt d' = Some (clock 0)
      /\ forall x, In x s' -> code x = c ->
                   status x = Some REDEEMED
                   /\ redeemedBy x = Some (User._id (user req)).
Proof.
  intros clock req reqs c s d [Hids Hcodes] Hv Hin Hc Hst Hall.
  inversion Hall as [| ? ? Hreq Hrest]; subst. cbn [snd] in Hreq.
  cbn [serveRedeems]. unfold redeemQRCode at 1. rewrite Hreq.
  destruct (code d) as [| a c] eqn:Hcode; [discriminate Hv |].
  rewrite Hv. cbn [negb].
  destruct (findOne _ s) as [d' |] eqn:Hfind.
  2:{ pose proof (find_none _ _ Hfind d Hin) as Hd.
      assert (unredeemedWithCode (String a c) d = true)
        by (apply unredeemedWithCode_spec; auto).
      congruence. }
  apply find_some in Hfind. destruct Hfind as [Hin' Hd'].
  apply unredeemedWithCode_spec in Hd'. destruct Hd' as [Hc' _].
  assert (d' = d) by (apply (NoDup_map_inj code s); congruence). subst d'.
  unfold save.
  destruct (updateOneById_In
              (markRedeemed (clock 0) (User._id (user req)) (clock 1)) s d Hids Hin)
    as (pre & post & Hs & Hup).
  rewrite Hup.
  assert (Hspent : forall x,
             In x (pre ++ markRedeemed (clock 0) (User._id (user req)) (clock 1) d
                       :: post) ->
             code x = String a c ->
             status x = Some REDEEMED
             /\ redeemedBy x = Some (User._id (user req))).
  { intros x Hx Hxc. apply in_app_or in Hx. destruct Hx as [Hx | [Hx | Hx]].
    - exfalso.
      apply (NoDup_map_split code pre post d x); [congruence | | congruence].
      apply in_or_app. now left.
    - subst x. split; reflexivity.
    - exfalso.
      apply (NoDup_map_split code pre post d x); [congruence | | congruence].
      apply in_or_app. now right. }
  rewrite (serveRedeems_spent reqs (String a c) _ Hrest Hv).
  - exists (respond 200
              (JRedeemed "QR code redeemed successfully"
                 (_id d) (String a c) (batchId d) (Some (clock 0)))),
           (pre ++ markRedeemed (clock 0) (User._id (user req)) (clock 1) d
                :: post),
           pre, post,
           (markRedeemed (clock 0) (User._id (user req)) (clock 1) d).
    rewrite Hcode.
    split; [reflexivity |]. split; [reflexivity |]. split; [reflexivity |].
    split; [exact Hs |]. split; [reflexivity |].
    split; [apply in_or_app; right; now left |].
    split; [unfold sameIdentity; cbn; repeat split |].
    split; [reflexivity |]. split; [reflexivity |]. split; [reflexivity |].
    exact Hspent.
  - intros x Hx Hxc. now apply Hspent.
Qed.

(** Three callers after the second code of [sharedStore]: alice gets it. *)
Lemma serial_redeems_exactly_once_witness :
  uniqueStore sharedStore
  /\ map statusCode
       (fst (serveRedeems
               [(clockA, redeemRequest alice [] "aaaaaaaa02");
                (clockB, redeemRequest bob [] "aaaaaaaa02");
                (clockB, redeemRequest maker [] "aaaaaaaa02")] sharedStore))
     = [200; 404; 404]
  /\ map redeemedBy
       (snd (serveRedeems
               [(clockA, redeemRequest alice [] "aaaaaaaa02");
                (clockB, redeemRequest bob [] "aaaaaaaa02");
                (clockB, redeemRequest maker [] "aaaaaaaa02")] sharedStore))
     = [None; Some (User._id alice); None].
Proof.
  assert (Hs : uniqueStore sharedStore)
    by (split; repeat constructor; simpl; intuition discriminate).
  split; [exact Hs |].
  destruct (serial_redeems_exactly_once clockA
              (redeemRequest alice [] "aaaaaaaa02")
              [(clockB, redeemRequest bob [] "aaaaaaaa02");
               (clockB, redeemRequest maker [] "aaaaaaaa02")]
              "aaaaaaaa02" sharedStore makerSecond Hs eq_refl
              (or_intror (or_introl eq_refl)) eq_refl eq_refl
              ltac:(repeat constructor))
    as (first & s' & pre & post & d' & Hrun & Hok & _).
  split; [| vm_compute; reflexivity].
  rewrite Hrun. cbn [fst map repeat List.length statusCode respond].
  now rewrite Hok.
Defined.

Lemma insertUnordered_distinct (docs : list IQRCode) (s : Store) :
  NoDup (map code (fst (insertUnordered docs s)))
  /\ forall d, In d (fst (insertUnordered docs s)) -> ~ In (code d) (map code s).
Proof.
  revert s. induction docs as [| d ds IH]; intros s; simpl.
  - split; [constructor | intros d []].
  - destruct (violatesUnique d s) eqn:Hv; [apply IH |].
    specialize (IH (s ++ [d])).
    destruct (insertUnordered ds (s ++ [d])) as [ins s']. cbn [fst] in *.
    destruct IH as [Hnd Hfresh].
    apply violatesUnique_false in Hv. destruct Hv as [_ Hcode].
    split.
    + simpl. constructor; [| exact Hnd].
      intros Hin. apply in_map_iff in Hin. destruct Hin as (x & Hx & Hxin).
      apply (Hfresh x Hxin). rewrite map_app, in_app_iff. right. simpl. auto.
    + intros x [<- | Hx]; [exact Hcode |].
      intros Hin. apply (Hfresh x Hx). rewrite map_app, in_app_iff. now left.
Qed.

(** X25. The codes a generation response reports are pairwise different,
    none of them was in the store before the request, and each is in the
    store after it. *)
Theorem reported_codes_distinct_and_new :
  forall rejects env req s,
    NoDup (reportedCodes (fst (generateBulkQRCodes rejects env req s)))
    /\ forall c,
         In c (reportedCodes (fst (generateBulkQRCodes rejects env req s))) ->
         hasCode s c = false
         /\ hasCode (snd (generateBulkQRCodes rejects env req s)) c = true.
Proof.
  intros rejects env req s. unfold generateBulkQRCodes.
  destruct (validationErrors req); [| split; [constructor | intros c []]].
  destruct (10000 <? _)%N; [split; [constructor | intros c []] |].
  destruct (generateMultipleUniqueQRCodes _ _ _ s) as [codes |];
    [| split; [constructor | intros c []]].
  unfold insertMany.
  match goal with
  | |- context [insertUnordered ?docs s] =>
      pose proof (insertUnordered_distinct docs s) as [Hnd Hfresh];
      destruct (insertUnordered_spec docs s) as (ins & Hins & _);
      rewrite Hins in *
  end.
  cbn [fst] in Hnd, Hfresh.
  destruct (rejects && _); [split; [constructor | intros c []] |].
  cbn [fst snd reportedCodes json respond]. split; [exact Hnd |].
  intros c Hc. apply in_map_iff in Hc. destruct Hc as (d & <- & Hd). split.
  - destruct (hasCode s (code d)) eqn:Hh; [| reflexivity].
    exfalso. apply (Hfresh d Hd). unfold hasCode in Hh.
    apply existsb_exists in Hh. destruct Hh as (x & Hx & Heq).
    apply String.eqb_eq in Heq. rewrite <- Heq. now apply in_map.
  - unfold hasCode. apply existsb_exists. exists d.
    split; [apply in_or_app; now right | apply String.eqb_refl].
Qed.

(** ** Instances *)

Lemma generate_appends_witness :
  statusCode
    (fst (generateBulkQRCodes true plainEnv
            (generateRequest maker [] 5 (Some 10) None) oneCodeStore)) = 201
  /\ reportedCodes
       (fst (generateBulkQRCodes true plainEnv
               (generateRequest maker [] 5 (Some 10) None) oneCodeStore))
     = ["0000000000"; "0101010101"; "0202020202"; "0303030303"; "0404040404"]
  /\ map status
       (snd (generateBulkQRCodes true plainEnv
               (generateRequest maker [] 5 (Some 10) None) oneCodeStore))
     = [Some UNREDEEMED; None; None; None; None; None].
Proof.
  split; [vm_compute; reflexivity |].
  destruct (generate_appends true plainEnv maker [] 5 (Some 10) None oneCodeStore)
    as (added & Hstore & _ & _ & Hcodes).
  rewrite Hcodes. clear Hcodes.
  assert (Hadded : added
                   = skipn 1 (snd (generateBulkQRCodes true plainEnv
                                     (generateRequest maker [] 5 (Some 10) None)
                                     oneCodeStore))).
  { rewrite Hstore. reflexivity. }
  rewrite Hadded. vm_compute. split; reflexivity.
Defined.

Lemma reported_codes_distinct_and_new_witness :
  In "0101010101"
     (reportedCodes
        (fst (generateBulkQRCodes true plainEnv
                (generateRequest maker [] 5 (Some 10) None) oneCodeStore)))
  /\ hasCode oneCodeStore "0101010101" = false.
Proof.
  assert (Hin : In "0101010101"
                   (reportedCodes
                      (fst (generateBulkQRCodes true plainEnv
                              (generateRequest maker [] 5 (Some 10) None)
                              oneCodeStore))))
    by (vm_compute; tauto).
  split; [exact Hin |].
  apply (proj2 (reported_codes_distinct_and_new true plainEnv
                  (generateRequest maker [] 5 (Some 10) None) oneCodeStore)
           "0101010101" Hin).
Defined.

Lemma stats_add_up_witness :
  In {| bs_batchId := "batch_m"; bs_count := 2; bs_quantity := 2;
        bs_createdAt := Some 1000%N |}
     (st_recentBatches
        (getQRCodeStats {| user := maker; validationErrors := []; input := tt |}
           sharedStore))
  /\ 2 = List.length
           (filter (fun d => String.eqb (batchId d) "batch_m")
                   (inScope maker sharedStore)).
Proof.
  assert (Hin : In {| bs_batchId := "batch_m"; bs_count := 2; bs_quantity := 2;
                      bs_createdAt := Some 1000%N |}
                   (st_recentBatches
                      (getQRCodeStats
                         {| user := maker; validationErrors := []; input := tt |}
                         sharedStore)))
    by (vm_compute; tauto).
  split; [exact Hin |].
  destruct (stats_add_up {| user := maker; validationErrors := []; input := tt |}
              sharedStore) as (_ & _ & _ & _ & _ & _ & _ & _ & Hbatches).
  apply (Hbatches _ Hin).
Defined.
